(** * Student grade backend: normalizer, upload handler and CRUD handlers

    A shallow embedding of [src/server.js] (the running server) and of the
    PUT and DELETE handlers of the older server file that the repository
    still carries, with the properties of the specification proved or
    refuted on it.

    - [JS]: the part of the JavaScript runtime the code leans on — IEEE-754
      binary64 numbers, [ToBoolean], [ToNumber], [ToString], [||],
      [Number.prototype.toFixed], [String.prototype.includes].
    - [Mongo]: the two collections and the driver calls the handlers await.
      A call may throw for reasons the source does not see (a lost
      connection, a rejected document); whether it does is an input.
    - [Server]: [src/server.js], function by function; the two parsing
      libraries are parameters.
    - [Legacy]: the PUT and DELETE handlers of the older server file.
    - [Fixtures]: stand-ins for the parsing libraries and sample requests.
    - [Spec], [Paths]: the specification's notions, and the two
      normalisation paths and the two server files side by side.
    - [ToFixedFacts], [NormalizerFacts], [MongoFacts], [UploadFacts],
      [CrudFacts], [Examples]: the proofs. *)

From Stdlib Require Import ZArith Ascii String List Bool Lia.
From Stdlib Require Import Floats.SpecFloat.
From stdpp Require Import base option list gmap strings fin_maps sorting.

Local Open Scope string_scope.
Local Open Scope list_scope.
Local Open Scope Z_scope.

(* ===================================================================== *)
(** * The JavaScript runtime *)
(* ===================================================================== *)

Module JS.

(** ** Numbers: IEEE-754 binary64, one NaN *)

Definition prec : Z := 53.
Definition emax : Z := 1024.

Definition number : Type := spec_float.

Definition NaN : number := S754_nan.
Definition Infinity : number := S754_infinity false.
Definition pos_zero : number := S754_zero false.

Definition num_div : number → number → number := SFdiv prec emax.
Definition num_mul : number → number → number := SFmul prec emax.
Definition num_ltb : number → number → bool := SFltb.

(** The number nearest to the integer [z] (ties to even). *)
Definition num_of_Z (z : Z) : number := binary_normalize prec emax z 0 false.

Definition is_finite (x : number) : bool :=
  match x with
  | S754_zero _ | S754_finite _ _ _ => true
  | S754_infinity _ | S754_nan => false
  end.

Definition is_nan (x : number) : bool :=
  match x with S754_nan => true | _ => false end.

Definition is_zero (x : number) : bool :=
  match x with S754_zero _ => true | _ => false end.

Definition num_eqb (x y : number) : bool :=
  match x, y with
  | S754_zero a, S754_zero b => Bool.eqb a b
  | S754_infinity a, S754_infinity b => Bool.eqb a b
  | S754_nan, S754_nan => true
  | S754_finite a m e, S754_finite b n f => Bool.eqb a b && (m =? n)%positive && (e =? f)
  | _, _ => false
  end.

(** The number nearest to [(-1)^neg * m * 10^e10], for [0 <= m]
    (the rounding of a decimal literal's mathematical value). *)
Definition num_of_decimal (neg : bool) (m e10 : Z) : number :=
  if m =? 0 then S754_zero neg
  else if 0 <=? e10 then
    binary_normalize prec emax (if neg then - (m * 10 ^ e10) else m * 10 ^ e10) 0 neg
  else
    let '(q, e, l) := SFdiv_core_binary prec emax m 0 (10 ^ (- e10)) 0 in
    binary_round_aux prec emax neg q e l.

(** ** Decimal digits *)

Definition digit_char (d : Z) : ascii := ascii_of_nat (Z.to_nat (48 + d)).

Definition is_digit (c : ascii) : bool :=
  let n := Z.of_nat (nat_of_ascii c) in (48 <=? n) && (n <=? 57).

Definition digit_val (c : ascii) : Z := Z.of_nat (nat_of_ascii c) - 48.

Fixpoint digits_go (fuel : nat) (n : Z) (acc : list ascii) : list ascii :=
  match fuel with
  | O => acc
  | S fuel' =>
      let acc' := digit_char (n mod 10) :: acc in
      if n <? 10 then acc' else digits_go fuel' (n / 10) acc'
  end.

(** The decimal digits of [n >= 0], most significant first; ["0"] for 0. *)
Definition digits_of (n : Z) : list ascii :=
  digits_go (S (Z.to_nat (Z.log2 n))) n [].

Definition digits_value (cs : list ascii) : Z :=
  fold_left (fun a c => 10 * a + digit_val c) cs 0.

Fixpoint span_digits (cs : list ascii) : list ascii * list ascii :=
  match cs with
  | c :: cs' =>
      if is_digit c then let '(ds, rest) := span_digits cs' in (c :: ds, rest)
      else ([], cs)
  | [] => ([], [])
  end.

Definition zeros (n : nat) : list ascii := repeat "0"%char n.

Definition all_digits (cs : list ascii) : Prop := Forall (fun c => is_digit c = true) cs.

(** ** StringToNumber

    A string is held as the bytes of its UTF-8 form. The white space
    trimmed is the WhiteSpace and LineTerminator of ECMAScript: TAB, LF,
    VT, FF, CR, SP, U+00A0, U+1680, U+2000 to U+200A, U+2028, U+2029,
    U+202F, U+205F, U+3000 and U+FEFF. The mathematical value of a
    literal is rounded to the nearest number, ties to even. *)

(** Whether the bytes are one white space character. *)
Definition is_whitespace (bytes : list ascii) : bool :=
  match nat_of_ascii <$> bytes with
  | [a] =>
      (Nat.eqb a 9 || Nat.eqb a 10 || Nat.eqb a 11 || Nat.eqb a 12 || Nat.eqb a 13
       || Nat.eqb a 32)%bool
  | [a; b] => (Nat.eqb a 194 && Nat.eqb b 160)%bool
  | [a; b; c] =>
      (Nat.eqb a 225 && Nat.eqb b 154 && Nat.eqb c 128
       || Nat.eqb a 226 && Nat.eqb b 128 &&
          (Nat.leb 128 c && Nat.leb c 138 || Nat.eqb c 168 || Nat.eqb c 169 || Nat.eqb c 175)
       || Nat.eqb a 226 && Nat.eqb b 129 && Nat.eqb c 159
       || Nat.eqb a 227 && Nat.eqb b 128 && Nat.eqb c 128
       || Nat.eqb a 239 && Nat.eqb b 187 && Nat.eqb c 191)%bool
  | _ => false
  end.

Fixpoint trim_left (cs : list ascii) : list ascii :=
  match cs with
  | a :: cs1 =>
      if is_whitespace [a] then trim_left cs1
      else
        match cs1 with
        | b :: cs2 =>
            if is_whitespace [a; b] then trim_left cs2
            else
              match cs2 with
              | c :: cs3 => if is_whitespace [a; b; c] then trim_left cs3 else cs
              | [] => cs
              end
        | [] => cs
        end
  | [] => []
  end.

(** The same from the end, on the reversed bytes. *)
Fixpoint trim_right (rs : list ascii) : list ascii :=
  match rs with
  | c :: rs1 =>
      if is_whitespace [c] then trim_right rs1
      else
        match rs1 with
        | b :: rs2 =>
            if is_whitespace [b; c] then trim_right rs2
            else
              match rs2 with
              | a :: rs3 => if is_whitespace [a; b; c] then trim_right rs3 else rs
              | [] => rs
              end
        | [] => rs
        end
  | [] => []
  end.

Definition trim (cs : list ascii) : list ascii :=
  rev (trim_right (rev (trim_left cs))).

Definition chars (s : string) : list ascii := list_ascii_of_string s.
Definition str (cs : list ascii) : string := string_of_list_ascii cs.

Definition chars_eqb (a b : list ascii) : bool := String.eqb (str a) (str b).

(** ExponentPart, up to the end of the literal: nothing, or [e]/[E], an
    optional sign and at least one digit. *)
Definition parse_exponent (cs : list ascii) : option Z :=
  match cs with
  | [] => Some 0
  | c :: cs' =>
      if (Ascii.eqb c "e" || Ascii.eqb c "E")%bool then
        let '(neg, ds) :=
          match cs' with
          | s :: ds => if Ascii.eqb s "-" then (true, ds)
                       else if Ascii.eqb s "+" then (false, ds) else (false, cs')
          | [] => (false, [])
          end in
        match span_digits ds with
        | (((_ :: _) as es), []) => Some (if neg then - digits_value es else digits_value es)
        | _ => None
        end
      else None
  end.

(** StrUnsignedDecimalLiteral without [Infinity]: mantissa and decimal
    exponent of the mathematical value. *)
Definition parse_unsigned_decimal (cs : list ascii) : option (Z * Z) :=
  let '(ip, r1) := span_digits cs in
  match r1 with
  | c :: r2 =>
      if Ascii.eqb c "." then
        let '(fp, r3) := span_digits r2 in
        match ip, fp with
        | [], [] => None
        | _, _ =>
            e ← parse_exponent r3;
            Some (digits_value (ip ++ fp), e - Z.of_nat (length fp))
        end
      else
        match ip with
        | [] => None
        | _ => e ← parse_exponent r1; Some (digits_value ip, e)
        end
  | [] =>
      match ip with
      | [] => None
      | _ => Some (digits_value ip, 0)
      end
  end.

Definition radix_digit (radix : Z) (c : ascii) : option Z :=
  let n := Z.of_nat (nat_of_ascii c) in
  let v := if (48 <=? n) && (n <=? 57) then n - 48
           else if (97 <=? n) && (n <=? 102) then n - 87
           else if (65 <=? n) && (n <=? 70) then n - 55
           else 99 in
  if v <? radix then Some v else None.

Fixpoint radix_value (radix : Z) (acc : Z) (cs : list ascii) : option Z :=
  match cs with
  | [] => Some acc
  | c :: cs' => d ← radix_digit radix c; radix_value radix (radix * acc + d) cs'
  end.

(** NonDecimalIntegerLiteral: [0x], [0o], [0b] and at least one digit. *)
Definition parse_non_decimal (cs : list ascii) : option Z :=
  match cs with
  | z :: p :: ((_ :: _) as ds) =>
      if negb (Ascii.eqb z "0") then None
      else if (Ascii.eqb p "x" || Ascii.eqb p "X")%bool then radix_value 16 0 ds
      else if (Ascii.eqb p "o" || Ascii.eqb p "O")%bool then radix_value 8 0 ds
      else if (Ascii.eqb p "b" || Ascii.eqb p "B")%bool then radix_value 2 0 ds
      else None
  | _ => None
  end.

Definition parse_decimal (cs : list ascii) : number :=
  let '(neg, body) :=
    match cs with
    | s :: r => if Ascii.eqb s "-" then (true, r)
                else if Ascii.eqb s "+" then (false, r) else (false, cs)
    | [] => (false, [])
    end in
  if chars_eqb body (chars "Infinity") then S754_infinity neg
  else match parse_unsigned_decimal body with
       | Some (m, e) => num_of_decimal neg m e
       | None => NaN
       end.

Definition StringToNumber (s : string) : number :=
  let cs := trim (chars s) in
  match cs with
  | [] => pos_zero
  | _ =>
      match parse_non_decimal cs with
      | Some n => num_of_decimal false n 0
      | None => parse_decimal cs
      end
  end.

(** ** Number::toString (radix 10) *)

(** The exact value of the positive finite number [m * 2^e] as a fraction. *)
Definition fraction_of (m : positive) (e : Z) : Z * Z :=
  if 0 <=? e then (Z.pos m * 2 ^ e, 1) else (Z.pos m, 2 ^ (- e)).

Fixpoint scale_up (fuel : nat) (p q j : Z) : Z :=
  match fuel with
  | O => j
  | S fuel' => if q <=? p * 10 ^ j then j else scale_up fuel' p q (j + 1)
  end.

(** The [n] with [10^(n-1) <= p/q < 10^n]. *)
Definition decimal_exponent (p q : Z) : Z :=
  if q <=? p then Z.of_nat (length (digits_of (p / q)))
  else 1 - scale_up 400 p q 1.

(** The [k]-digit decimals [s * 10^(n-k)] next to [p/q] that convert back
    to [x]; of two, the nearer one, and the even one when they are equally
    near. The result is the pair of [s] and the exponent [n - k]. *)
Definition shortest_candidate (x : number) (p q n k : Z) : option (Z * Z) :=
  let t := k - n in
  let '(num, den) := if 0 <=? t then (p * 10 ^ t, q) else (p, q * 10 ^ (- t)) in
  let lo := num / den in
  let hi := lo + 1 in
  let r := num - lo * den in
  let cand_lo := (lo, n - k) in
  let cand_hi := if hi =? 10 ^ k then (1, n) else (hi, n - k) in
  let ok_lo := num_eqb (num_of_decimal false cand_lo.1 cand_lo.2) x in
  let ok_hi := num_eqb (num_of_decimal false cand_hi.1 cand_hi.2) x in
  match ok_lo, ok_hi with
  | true, true =>
      match 2 * r ?= den with
      | Lt => Some cand_lo
      | Gt => Some cand_hi
      | Eq => if Z.even lo then Some cand_lo else Some cand_hi
      end
  | true, false => Some cand_lo
  | false, true => Some cand_hi
  | false, false => None
  end.

(** The search over [k = 1, 2, ...]; seventeen digits identify any number,
    so the search ends within its fuel. *)
Fixpoint shortest_go (fuel : nat) (x : number) (p q n k : Z) : Z * Z :=
  match fuel with
  | O => (p * 10 ^ (17 - n) / q, n - 17)
  | S fuel' =>
      match shortest_candidate x p q n k with
      | Some se => se
      | None => shortest_go fuel' x p q n (k + 1)
      end
  end.

(** Digits [s] and exponent [e10] of the shortest decimal [s * 10^e10]
    whose Number value is [m * 2^e]. *)
Definition shortest_decimal (m : positive) (e : Z) : Z * Z :=
  let '(p, q) := fraction_of m e in
  shortest_go 17 (S754_finite false m e) p q (decimal_exponent p q) 1.

(** The digits [s] with the decimal point [e10] places from their right
    end, laid out as Number::toString does. *)
Definition format_decimal (s e10 : Z) : list ascii :=
  let ds := digits_of s in
  let k := Z.of_nat (length ds) in
  let n := e10 + k in
  if (k <=? n) && (n <=? 21) then ds ++ zeros (Z.to_nat (n - k))
  else if (0 <? n) && (n <=? 21) then
    take (Z.to_nat n) ds ++ "."%char :: drop (Z.to_nat n) ds
  else if (-6 <? n) && (n <=? 0) then
    "0"%char :: "."%char :: zeros (Z.to_nat (- n)) ++ ds
  else
    let ex := (if n - 1 <? 0 then "-"%char else "+"%char) :: digits_of (Z.abs (n - 1)) in
    match ds with
    | [d] => d :: "e"%char :: ex
    | d :: rest => d :: "."%char :: rest ++ "e"%char :: ex
    | [] => []
    end.

Definition NumberToString (x : number) : string :=
  match x with
  | S754_nan => "NaN"
  | S754_zero _ => "0"
  | S754_infinity neg => if neg then "-Infinity" else "Infinity"
  | S754_finite neg m e =>
      let '(s, e10) := shortest_decimal m e in
      str ((if neg then ["-"%char] else []) ++ format_decimal s e10)
  end.

(** ** Number.prototype.toFixed *)

(** The integer [n] for which [n / 10^f - p/q] is closest to zero, the
    larger one of two. *)
Definition round_half_up (p q f : Z) : Z := (2 * p * 10 ^ f + q) / (2 * q).

Definition fixed_digits (n f : Z) : list ascii :=
  let m := digits_of n in
  if f =? 0 then m
  else
    let k := Z.of_nat (length m) in
    let m := if k <=? f then zeros (Z.to_nat (f + 1 - k)) ++ m else m in
    let k := Z.of_nat (length m) in
    take (Z.to_nat (k - f)) m ++ "."%char :: drop (Z.to_nat (k - f)) m.

Definition toFixed (x : number) (f : Z) : string :=
  match x with
  | S754_nan | S754_infinity _ => NumberToString x
  | S754_zero _ => str (fixed_digits 0 f)
  | S754_finite neg m e =>
      let '(p, q) := fraction_of m e in
      let s := if neg then ["-"%char] else [] in
      if 10 ^ 21 * q <=? p then str (s ++ chars (NumberToString (S754_finite false m e)))
      else str (s ++ fixed_digits (round_half_up p q f) f)
  end.

(** ** Values *)

#[warnings="-register-all"]
Inductive value : Type :=
  | VUndefined
  | VNull
  | VBool (b : bool)
  | VNumber (x : number)
  | VString (s : string)
  | VArray (xs : list value)
  | VObject (fields : list (string * value)).

Definition join (sep : string) (ss : list string) : string :=
  match ss with
  | [] => ""
  | s :: ss' => fold_left (fun acc t => acc +:+ sep +:+ t) ss' s
  end.

Fixpoint ToString (v : value) : string :=
  match v with
  | VUndefined => "undefined"
  | VNull => "null"
  | VBool b => if b then "true" else "false"
  | VNumber x => NumberToString x
  | VString s => s
  | VArray xs =>
      join "," (map (fun e => match e with
                              | VUndefined | VNull => ""
                              | _ => ToString e
                              end) xs)
  | VObject _ => "[object Object]"
  end.

Definition ToNumber (v : value) : number :=
  match v with
  | VUndefined => NaN
  | VNull => pos_zero
  | VBool b => if b then num_of_Z 1 else pos_zero
  | VNumber x => x
  | VString s => StringToNumber s
  | VArray _ | VObject _ => StringToNumber (ToString v)
  end.

Definition ToBoolean (v : value) : bool :=
  match v with
  | VUndefined | VNull => false
  | VBool b => b
  | VNumber x => negb (is_zero x || is_nan x)
  | VString s => negb (String.eqb s "")
  | VArray _ | VObject _ => true
  end.

(** [a || b] *)
Definition or (a b : value) : value := if ToBoolean a then a else b.

(** [String(v)] and [Number(v)] called as functions. *)
Definition String_ (v : value) : string := ToString v.
Definition Number_ (v : value) : number := ToNumber v.

(** [row.key], [row['key']]: the own property, or [undefined]. *)
Definition get (o : gmap string value) (key : string) : value :=
  default VUndefined (o !! key).

(** [s.includes(sub)] *)
Fixpoint includes (s sub : string) : bool :=
  String.prefix sub s ||
  match s with
  | EmptyString => false
  | String _ s' => includes s' sub
  end.

End JS.

(* ===================================================================== *)
(** * Control flow: exceptions and the database state *)
(* ===================================================================== *)

(** What evaluating an expression or a call ends in. *)
Inductive outcome (A : Type) : Type :=
  | Returned (a : A)
  | Thrown (message : string).
Arguments Returned {A} a.
Arguments Thrown {A} message.

(** [try { body } catch (error) { handler }] around code without effects. *)
Definition try_pure {A} (body : outcome A) (handler : string → outcome A) : outcome A :=
  match body with
  | Returned a => Returned a
  | Thrown error => handler error
  end.

Definition bind_pure {A B} (m : outcome A) (k : A → outcome B) : outcome B :=
  match m with
  | Returned a => k a
  | Thrown error => Thrown error
  end.

#[global] Instance outcome_ret : MRet outcome := @Returned.
#[global] Instance outcome_bind : MBind outcome := fun A B k m => bind_pure m k.

(* ===================================================================== *)
(** * The collections *)
(* ===================================================================== *)

Module Mongo.
Import JS.

(** A stored student: the identifier the driver assigns, the [created_at]
    path of the schema (a time in milliseconds, or [null]), on which the
    list route sorts, and the fields of the object handed to the driver. *)
Record student_doc : Type := {
  _id : N;
  created_at : option Z;
  fields : gmap string value
}.

Record history_doc : Type := {
  history_id : N;
  filename : string;
  file_type : string;
  students_count : Z;
  upload_date : Z;
  file_size : Z;
  status : string
}.

Record db : Type := {
  students : list student_doc;
  uploadhistories : list history_doc;
  next_id : N
}.

(** The awaited driver calls of the source, one name per call site. *)
Inductive call : Type :=
  | StudentDeleteMany
  | StudentInsertMany
  | HistoryCreateOnSuccess
  | HistoryCreateOnError
  | StudentFind
  | HistoryFind
  | StudentFindByIdAndUpdate
  | StudentFindByIdAndDelete.

#[global] Instance call_eq_dec : EqDecision call.
Proof. solve_decision. Defined.

(** What a request finds outside the two collections:
    [mongoose.connection.readyState], [Date.now()], for each driver
    call whether it throws (lost connection, rejected document, failed
    cast) and with which message, and what the schema's Date type makes of
    a value it accepts: a time, or [null]. *)
Record env : Type := {
  readyState : Z;
  now : Z;
  fault : call → option string;
  date_of : value → option Z
}.

(** A handler step: it reads and changes the collections and returns or
    throws. The state after a throw is the state at the throw. *)
Definition M (A : Type) : Type := db → outcome A * db.

Definition ret {A} (a : A) : M A := fun d => (Returned a, d).
Definition throw {A} (message : string) : M A := fun d => (Thrown message, d).

Definition bind {A B} (m : M A) (k : A → M B) : M B :=
  fun d =>
    match m d with
    | (Returned a, d') => k a d'
    | (Thrown error, d') => (Thrown error, d')
    end.

Definition try_catch {A} (body : M A) (handler : string → M A) : M A :=
  fun d =>
    match body d with
    | (Returned a, d') => (Returned a, d')
    | (Thrown error, d') => handler error d'
    end.

Definition lift {A} (o : outcome A) : M A := fun d => (o, d).

#[global] Instance M_ret : MRet M := @ret.
#[global] Instance M_bind : MBind M := fun A B k m => bind m k.

(** An awaited driver call: it throws when the environment says so,
    before touching the collection. *)
Definition await {A} (E : env) (c : call) (op : M A) : M A :=
  match fault E c with
  | Some message => throw message
  | None => op
  end.

(** ** The driver calls

    The models [Student] and [UploadHistory] come from mongoose, outside
    the repository. Their calls follow the contract the specification
    gives for its persistence gateway (section 4.2); documents are kept as
    the source hands them over, without the schema's casts. *)

Definition set_students (ds : list student_doc) (d : db) : db :=
  {| students := ds; uploadhistories := uploadhistories d; next_id := next_id d |}.

(** The value the unique index on [student_id] files a document under. *)
Definition index_key (o : gmap string value) : string := ToString (get o "student_id").

Definition key_taken (key : string) (ds : list student_doc) : bool :=
  existsb (fun d => String.eqb (index_key (fields d)) key) ds.

Definition duplicate_key : string := "E11000 duplicate key error".

(** Modelled from the spec: "uniqueness of student_id is enforced by the
    store; a duplicate insert fails with a ConstraintViolation", with "no
    compensating rollback on partial failure". Documents go in one by one,
    each with a fresh identifier and the [created_at] default, up to the
    first one the unique index refuses. *)
Fixpoint insert_ordered (E : env) (records : list (gmap string value)) (d : db)
  : outcome unit * db :=
  match records with
  | [] => (Returned tt, d)
  | r :: rest =>
      if key_taken (index_key r) (students d) then (Thrown duplicate_key, d)
      else
        insert_ordered E rest
          {| students :=
               students d ++ [ {| _id := next_id d; created_at := Some (now E); fields := r |} ];
             uploadhistories := uploadhistories d;
             next_id := N.succ (next_id d) |}
  end.

(** Modelled from the spec: [deleteAll()] "removes every record in the
    store"; the source calls it as [Student.deleteMany({})]. *)
Definition Student_deleteMany (E : env) : M unit :=
  await E StudentDeleteMany (fun d => (Returned tt, set_students [] d)).

(** Modelled from the spec: [insertMany(records)] "appends all given
    records"; the source calls [Student.insertMany(studentsData)]. *)
Definition Student_insertMany (E : env) (records : list (gmap string value)) : M unit :=
  await E StudentInsertMany (insert_ordered E records).

(** The fields of [UploadHistory.create({...})] as the handler writes them. *)
Record history_entry : Type := {
  entry_filename : string;
  entry_file_type : string;
  entry_students_count : Z;
  entry_file_size : Z;
  entry_status : string
}.

(** The collections after [entry] was stored: it got a fresh identifier
    and the [upload_date] default. *)
Definition record_history (E : env) (entry : history_entry) (d : db) : db :=
  {| students := students d;
     uploadhistories :=
       uploadhistories d ++
       [ {| history_id := next_id d;
            filename := entry_filename entry;
            file_type := entry_file_type entry;
            students_count := entry_students_count entry;
            upload_date := now E;
            file_size := entry_file_size entry;
            status := entry_status entry |} ];
     next_id := N.succ (next_id d) |}.

(** Modelled from the spec: the history store is append-only, one entry
    per call; [UploadHistory.create(entry)] at call site [c]. *)
Definition UploadHistory_create (E : env) (c : call) (entry : history_entry) : M unit :=
  await E c (fun d => (Returned (), record_history E entry d)).

(** The order of the store on a Date path: [null] comes before every
    time. *)
Definition date_le (x y : option Z) : Prop :=
  match x, y with
  | None, _ => True
  | Some _, None => False
  | Some a, Some b => a ≤ b
  end.

#[global] Instance date_le_dec : RelDecision date_le.
Proof. intros [a |] [b |]; simpl; apply _. Defined.

Definition newer_student (a b : student_doc) : Prop := date_le (created_at b) (created_at a).
Definition newer_history (a b : history_doc) : Prop := upload_date b ≤ upload_date a.

#[global] Instance newer_student_dec : RelDecision newer_student.
Proof. intros a b. unfold newer_student. apply _. Defined.
#[global] Instance newer_history_dec : RelDecision newer_history.
Proof. intros a b. unfold newer_history. apply _. Defined.

(** Modelled from the spec: [findAllSorted(field, direction)] "returns
    all records ordered by the given field";
    [Student.find().sort({ created_at: -1 })]. *)
Definition Student_find_sorted (E : env) : M (list student_doc) :=
  await E StudentFind (fun d => (Returned (merge_sort newer_student (students d)), d)).

(** Modelled from the spec: [findLimited(field, direction, limit)]
    "returns top-N records ordered by field";
    [UploadHistory.find().sort({ upload_date: -1 }).limit(n)]. *)
Definition UploadHistory_find_sorted_limit (E : env) (n : nat) : M (list history_doc) :=
  await E HistoryFind
    (fun d => (Returned (take n (merge_sort newer_history (uploadhistories d))), d)).

Definition find_by_id (id : N) (ds : list student_doc) : option student_doc :=
  snd <$> list_find (fun s => _id s = id) ds.

(** Modelled from the spec: [updateById(id, patch)], "partial update;
    returns updated record or a NotFound signal";
    [Student.findByIdAndUpdate(id, update, { new: true })]. The fields of
    [update] are set on the document with that identifier and the updated
    document is returned, or [null] when there is none. [created_at] is a
    path of the schema like the others (lines 70-73): an update that names
    it sets it, to what the Date type makes of the value. *)
Definition Student_findByIdAndUpdate (E : env) (id : N) (update : gmap string value)
  : M (option student_doc) :=
  await E StudentFindByIdAndUpdate (fun d =>
    match find_by_id id (students d) with
    | None => (Returned None, d)
    | Some old =>
        let new := {| _id := _id old;
                      created_at := match update !! "created_at" with
                                    | Some v => date_of E v
                                    | None => created_at old
                                    end;
                      fields := update ∪ fields old |} in
        if key_taken (index_key (fields new))
             (filter (fun s => _id s ≠ id) (students d))
        then (Thrown duplicate_key, d)
        else
          (Returned (Some new),
           set_students ((fun s => if decide (_id s = id) then new else s) <$> students d) d)
    end).

(** Modelled from the spec: [deleteById(id)] "removes one record by
    identifier; returns success/NotFound signal";
    [Student.findByIdAndDelete(id)] returns the removed document, or
    [null] when there is none. *)
Definition Student_findByIdAndDelete (E : env) (id : N) : M (option student_doc) :=
  await E StudentFindByIdAndDelete (fun d =>
    match find_by_id id (students d) with
    | None => (Returned None, d)
    | Some old =>
        (Returned (Some old), set_students (filter (fun s => _id s ≠ id) (students d)) d)
    end).

End Mongo.

Infix "|||" := JS.or (at level 50, left associativity).

(* ===================================================================== *)
(** * src/server.js *)
(* ===================================================================== *)

Module Server.
Import JS Mongo.

(** ** Requests and responses *)

(** [req.file] as multer's memory storage fills it in. *)
Record file : Type := {
  originalname : string;
  mimetype : string;
  buffer : list Byte.byte
}.

Definition size (f : file) : Z := Z.of_nat (length (buffer f)).

(** The record the row mappers build. *)
Record student : Type := {
  student_id : string;
  student_name : string;
  total_marks : number;
  marks_obtained : number;
  percentage : number
}.

(** The same record as the object handed to [insertMany]. *)
Definition student_object (s : student) : gmap string value :=
  <["student_id" := VString (student_id s)]>
  (<["student_name" := VString (student_name s)]>
  (<["total_marks" := VNumber (total_marks s)]>
  (<["marks_obtained" := VNumber (marks_obtained s)]>
  (<["percentage" := VNumber (percentage s)]> ∅)))).

Inductive body : Type :=
  | ErrorBody (error : string) (details : option string)
  | ConnectionErrorBody (error : string) (mongoStatus : Z)
  | UploadedBody (message : string) (count : Z) (students : list student)
  | StudentsBody (students : list student_doc)
  | HistoryBody (history : list history_doc)
  | StudentBody (student : option student_doc)
  | MessageBody (message : string).

Record response : Type := { status : Z; json : body }.

(** [res.status(code).json(b)]; [res.json(b)] answers 200. *)
Definition res_status_json (code : Z) (b : body) : response := {| status := code; json := b |}.
Definition res_json (b : body) : response := res_status_json 200 b.

(** ** Multer *)

Definition allowedTypes : list string :=
  [ "application/vnd.openxmlformats-officedocument.spreadsheetml.sheet";
    "text/csv";
    "application/vnd.ms-excel" ].

(** [allowedTypes.includes(file.mimetype)] *)
Definition array_includes (xs : list string) (x : string) : bool :=
  existsb (String.eqb x) xs.

(** Lines 114-125: [cb(null, true)], or [cb(new Error(...))]. *)
Definition fileFilter (f : file) : outcome bool :=
  if array_includes allowedTypes (mimetype f) then Returned true
  else Thrown "Invalid file type. Only Excel and CSV files allowed.".

Definition fileSize : Z := 5 * 1024 * 1024.

(** [upload.single('file')]: [req.file] for the route handler, or the error
    passed to [next]. The part is filtered on its declared type before its
    bytes are counted against the limit. *)
Definition upload_single (part : option file) : outcome (option file) :=
  match part with
  | None => Returned None
  | Some f =>
      _ ← fileFilter f;
      if fileSize <? size f then Thrown "File too large" else Returned (Some f)
  end.

(** ** The row mappers *)

Definition hundred : number := num_of_Z 100.

(** The arrow function mapped over the sheet's rows, lines 136-147. *)
Definition excel_row (row : gmap string value) : student :=
  let totalMarks :=
    Number_ (get row "Total_Marks" ||| get row "total_marks" ||| get row "Total Marks") in
  let marksObtained :=
    Number_ (get row "Marks_Obtained" ||| get row "marks_obtained" ||| get row "Marks Obtained") in
  {| student_id := String_ (get row "Student_ID" ||| get row "student_id" ||| get row "Student ID");
     student_name := String_ (get row "Student_Name" ||| get row "student_name" ||| get row "Student Name");
     total_marks := totalMarks;
     marks_obtained := marksObtained;
     percentage :=
       Number_ (VString (toFixed (num_mul (num_div marksObtained totalMarks) hundred) 2)) |}.

(** The arrow function mapped over the CSV rows, lines 160-171. *)
Definition csv_row (row : gmap string value) : student :=
  let totalMarks :=
    Number_ (get row "Total_Marks" ||| get row "total_marks" ||| get row "Total Marks") in
  let marksObtained :=
    Number_ (get row "Marks_Obtained" ||| get row "marks_obtained" ||| get row "Marks Obtained") in
  {| student_id := String_ (get row "Student_ID" ||| get row "student_id" ||| get row "Student ID");
     student_name := String_ (get row "Student_Name" ||| get row "student_name" ||| get row "Student Name");
     total_marks := totalMarks;
     marks_obtained := marksObtained;
     percentage :=
       Number_ (VString (toFixed (num_mul (num_div marksObtained totalMarks) hundred) 2)) |}.

Section Parsers.

(** The two parsing libraries. A call returns the parsed value or throws;
    rows are objects keyed by the header cells. *)
Context {worksheet : Type}.

Record workbook : Type := {
  SheetNames : list string;
  Sheets : gmap string worksheet
}.

(** [xlsx.read(buffer, { type: 'buffer' })] *)
Variable xlsx_read : list Byte.byte → outcome workbook.
(** [xlsx.utils.sheet_to_json(worksheet)], [None] for [undefined] *)
Variable sheet_to_json : option worksheet → outcome (list (gmap string value)).
(** [Papa.parse(csvData, { header: true, skipEmptyLines: true }).data] *)
Variable Papa_parse : string → outcome (list (gmap string value)).

(** Lines 131-134: the rows of the first sheet. *)
Definition sheet_rows (buffer : list Byte.byte) : outcome (list (gmap string value)) :=
  workbook ← xlsx_read buffer;
  let sheetName := default "undefined" (SheetNames workbook !! 0%nat) in
  let worksheet := Sheets workbook !! sheetName in
  sheet_to_json worksheet.

(** Lines 157-158: the rows of the CSV text. *)
Definition csv_rows (buffer : list Byte.byte) : outcome (list (gmap string value)) :=
  let csvData := string_of_list_byte buffer in
  Papa_parse csvData.

(** Lines 129-152. *)
Definition processExcelFile (buffer : list Byte.byte) : outcome (list student) :=
  try_pure
    (workbook ← xlsx_read buffer;
     (* [SheetNames[0]] of an empty list is [undefined], the key "undefined" *)
     let sheetName := default "undefined" (SheetNames workbook !! 0%nat) in
     let worksheet := Sheets workbook !! sheetName in
     data ← sheet_to_json worksheet;
     Returned (map excel_row data))
    (fun error => Thrown "Failed to process Excel file").

(** Lines 155-176. *)
Definition processCSVFile (buffer : list Byte.byte) : outcome (list student) :=
  try_pure
    (let csvData := string_of_list_byte buffer in
     data ← Papa_parse csvData;
     Returned (map csv_row data))
    (fun error => Thrown "Failed to process CSV file").

(** ** POST /api/upload *)

Definition file_type_of (f : file) : string :=
  if includes (mimetype f) "csv" then "CSV" else "Excel".

(** The object of lines 217-223. *)
Definition success_entry (f : file) (studentsData : list student) : history_entry :=
  {| entry_filename := originalname f;
     entry_file_type := file_type_of f;
     entry_students_count := Z.of_nat (length studentsData);
     entry_file_size := size f;
     entry_status := "success" |}.

(** The object of lines 238-244. *)
Definition error_entry (f : file) : history_entry :=
  {| entry_filename := originalname f;
     entry_file_type := file_type_of f;
     entry_students_count := 0;
     entry_file_size := size f;
     entry_status := "error" |}.

(** Lines 206-231: what follows the normalisation. *)
Definition replace_and_record (E : env) (f : file) (studentsData : list student) : M response :=
  (if readyState E =? 1 then ret () else throw "Database not connected");;
  Student_deleteMany E;;
  Student_insertMany E (student_object <$> studentsData);;
  UploadHistory_create E HistoryCreateOnSuccess (success_entry f studentsData);;
  ret (res_json (UploadedBody "File uploaded successfully"
                   (Z.of_nat (length studentsData)) studentsData)).

(** The route handler, lines 181-255; [req_file] is [req.file]. *)
Definition upload_handler (E : env) (req_file : option file) : M response :=
  try_catch
    (match req_file with
     | None => ret (res_status_json 400 (ErrorBody "No file uploaded" None))
     | Some f =>
         if includes (mimetype f) "sheet" || includes (mimetype f) "excel" then
           studentsData ← lift (processExcelFile (buffer f));
           replace_and_record E f studentsData
         else if includes (mimetype f) "csv" then
           studentsData ← lift (processCSVFile (buffer f));
           replace_and_record E f studentsData
         else ret (res_status_json 400 (ErrorBody "Unsupported file format" None))
     end)
    (fun error =>
       match req_file with
       | Some f =>
           try_catch
             (UploadHistory_create E HistoryCreateOnError (error_entry f))
             (fun historyError => ret ())
       | None => ret ()
       end;;
       ret (res_status_json 500 (ErrorBody "Failed to process file" (Some error)))).

(** The error handling middleware, lines 357-364. *)
Definition error_middleware (error : string) : M response :=
  ret (res_status_json 500 (ErrorBody "Internal server error" (Some error))).

(** [app.post('/api/upload', upload.single('file'), handler)] for a request
    whose multipart body carries [part] in its field [file]. *)
Definition post_api_upload (E : env) (part : option file) : M response :=
  match upload_single part with
  | Thrown error => error_middleware error
  | Returned req_file => upload_handler E req_file
  end.

End Parsers.

(** ** GET /api/students, GET /api/upload-history *)

(** Lines 258-281. *)
Definition get_api_students (E : env) : M response :=
  try_catch
    (if negb (readyState E =? 1) then
       ret (res_status_json 500 (ConnectionErrorBody "Database connection error" (readyState E)))
     else
       students ← Student_find_sorted E;
       ret (res_json (StudentsBody students)))
    (fun error => ret (res_status_json 500 (ErrorBody "Failed to fetch students" (Some error)))).

(** Lines 284-307. *)
Definition get_api_upload_history (E : env) : M response :=
  try_catch
    (if negb (readyState E =? 1) then
       ret (res_status_json 500 (ConnectionErrorBody "Database connection error" (readyState E)))
     else
       history ← UploadHistory_find_sorted_limit E 10;
       ret (res_json (HistoryBody history)))
    (fun error => ret (res_status_json 500 (ErrorBody "Failed to fetch upload history" (Some error)))).

(** ** PUT /api/students/:id, DELETE /api/students/:id *)

(** Lines 310-336. [marks_obtained / total_marks] applies ToNumber to both
    operands; [{ ...req.body, percentage }] is the body with its
    percentage key set to the computed number. *)
Definition put_api_students (E : env) (id : N) (req_body : gmap string value) : M response :=
  try_catch
    (let total_marks := get req_body "total_marks" in
     let marks_obtained := get req_body "marks_obtained" in
     let percentage :=
       Number_ (VString (toFixed
         (num_mul (num_div (ToNumber marks_obtained) (ToNumber total_marks)) hundred) 2)) in
     student ← Student_findByIdAndUpdate E id (<["percentage" := VNumber percentage]> req_body);
     match student with
     | None => ret (res_status_json 404 (ErrorBody "Student not found" None))
     | Some _ => ret (res_json (StudentBody student))
     end)
    (fun error => ret (res_status_json 500 (ErrorBody "Failed to update student" (Some error)))).

(** Lines 339-355. *)
Definition delete_api_students (E : env) (id : N) : M response :=
  try_catch
    (student ← Student_findByIdAndDelete E id;
     match student with
     | None => ret (res_status_json 404 (ErrorBody "Student not found" None))
     | Some _ => ret (res_json (MessageBody "Student deleted successfully"))
     end)
    (fun error => ret (res_status_json 500 (ErrorBody "Failed to delete student" (Some error)))).

End Server.

(* ===================================================================== *)
(** * The older server file: PUT and DELETE *)
(* ===================================================================== *)

Module Legacy.
Import JS Mongo Server.

(** [app.put('/api/students/:id', ...)], lines 116-134 of the older file. *)
Definition put_api_students (E : env) (id : N) (req_body : gmap string value) : M response :=
  try_catch
    (let total_marks := get req_body "total_marks" in
     let marks_obtained := get req_body "marks_obtained" in
     let percentage :=
       Number_ (VString (toFixed
         (num_mul (num_div (ToNumber marks_obtained) (ToNumber total_marks)) hundred) 2)) in
     student ← Student_findByIdAndUpdate E id (<["percentage" := VNumber percentage]> req_body);
     ret (res_json (StudentBody student)))
    (fun error => ret (res_status_json 500 (ErrorBody "Failed to update student" None))).

(** [app.delete('/api/students/:id', ...)], lines 137-144 of the older file. *)
Definition delete_api_students (E : env) (id : N) : M response :=
  try_catch
    (Student_findByIdAndDelete E id;;
     ret (res_json (MessageBody "Student deleted successfully")))
    (fun error => ret (res_status_json 500 (ErrorBody "Failed to delete student" None))).

End Legacy.

(* ===================================================================== *)
(** * Stand-ins for the parsing libraries, for the worked examples *)
(* ===================================================================== *)

Module Fixtures.
Import JS Mongo Server.

Fixpoint split_on (sep : ascii) (cs : list ascii) (cur : list ascii) : list string :=
  match cs with
  | [] => [str (rev cur)]
  | c :: cs' =>
      if Ascii.eqb c sep then str (rev cur) :: split_on sep cs' []
      else split_on sep cs' (c :: cur)
  end.

Definition cells (line : string) : list string := split_on ","%char (chars line) [].
Definition lines (text : string) : list string :=
  filter (fun l => l ≠ "") (split_on (ascii_of_nat 10) (chars text) []).

(** Comma separated text without quoting, first line the header, empty
    lines skipped, every cell a string. *)
Definition csv_parse (text : string) : outcome (list (gmap string value)) :=
  match lines text with
  | [] => Returned []
  | header :: rows =>
      Returned (map (fun line =>
        list_to_map (zip (cells header) (VString <$> cells line))) rows)
  end.

(** A sheet cell: a number when the text reads as one, a string otherwise;
    an empty cell leaves no key in the row. *)
Definition sheet_cell (key text : string) : list (string * value) :=
  if String.eqb text "" then []
  else if is_nan (StringToNumber text) then [(key, VString text)]
  else [(key, VNumber (StringToNumber text))].

(** A workbook stand-in: the bytes are the text of one sheet, [Sheet1],
    which is empty for an empty buffer. The stand-in opens no archives:
    bytes that begin with the signature of one, [PK 03 04], are to it an
    archive without a workbook inside. *)
Definition xlsx_read (buffer : list Byte.byte) : outcome (@workbook string) :=
  match buffer with
  | Byte.x50 :: Byte.x4b :: Byte.x03 :: Byte.x04 :: _ => Thrown "Unsupported ZIP file"
  | _ => Returned {| SheetNames := ["Sheet1"];
                     Sheets := {[ "Sheet1" := string_of_list_byte buffer ]} |}
  end.

Definition sheet_to_json (worksheet : option string) : outcome (list (gmap string value)) :=
  match worksheet with
  | None => Returned []
  | Some text =>
      match lines text with
      | [] => Returned []
      | header :: rows =>
          Returned (map (fun line =>
            list_to_map (mjoin (zip_with sheet_cell (cells header) (cells line)))) rows)
      end
  end.

Definition bytes (s : string) : list Byte.byte := list_byte_of_string s.

Definition newline : string := String (ascii_of_nat 10) "".

(** A Date stand-in: a number is a time in milliseconds, its fraction
    dropped; anything else gives [null]. *)
Definition milliseconds (v : value) : option Z :=
  match v with
  | VNumber (S754_zero _) => Some 0
  | VNumber (S754_finite neg m e) =>
      let '(p, q) := fraction_of m e in
      Some (if neg then - (p / q) else p / q)
  | _ => None
  end.

Definition connected : env :=
  {| readyState := 1; now := 1000; fault := fun _ => None; date_of := milliseconds |}.

Definition empty_db : db := {| students := []; uploadhistories := []; next_id := 0 |}.

Definition upload (E : env) (part : option file) : M response :=
  post_api_upload xlsx_read sheet_to_json csv_parse E part.

(** The two-row file of the specification's end-to-end example. *)
Definition grades_csv : file :=
  {| originalname := "grades.csv";
     mimetype := "text/csv";
     buffer := bytes ("Student_ID,Student_Name,Total_Marks,Marks_Obtained" +:+ newline +:+
                      "S1,Alice,100,80" +:+ newline +:+
                      "S2,Bob,50,40" +:+ newline) |}.

(** A sheet whose second row has a total of zero and no identifier, and
    whose first row has zero marks under the spaced spelling. *)
Definition grades_sheet : file :=
  {| originalname := "grades.xls";
     mimetype := "application/vnd.ms-excel";
     buffer := bytes ("Student ID,Student Name,Total Marks,Marks Obtained" +:+ newline +:+
                      "7,Al,100,0" +:+ newline +:+
                      ",Bo,0,40") |}.

Definition notes_pdf : file :=
  {| originalname := "notes.pdf";
     mimetype := "application/pdf";
     buffer := bytes "%PDF-1.7" |}.

Definition num (z : Z) : value := VNumber (num_of_Z z).

(** A collection holding one student from an earlier upload. *)
Definition one_student : db :=
  {| students :=
       [ {| _id := 0; created_at := Some 500;
            fields := <["student_id" := VString "S0"]>
                      (<["student_name" := VString "Zed"]>
                      (<["total_marks" := num 100]>
                      (<["marks_obtained" := num 80]>
                      (<["percentage" := num 80]> ∅)))) |} ];
     uploadhistories := [];
     next_id := 1 |}.

(** The database is unreachable: the handler sees it is not connected,
    and the write of the error entry fails as well. *)
Definition disconnected : env :=
  {| readyState := 0; now := 1000;
     fault := fun c => match c with
                       | HistoryCreateOnError => Some "Operation buffering timed out"
                       | _ => None
                       end;
     date_of := milliseconds |}.

(** A row with everything but the marks, to which the marks are added
    under one spelling or another. *)
Definition alice_without_marks : gmap string value :=
  <["Student_ID" := VString "S1"]>
  (<["Student_Name" := VString "Alice"]>
  (<["Total_Marks" := num 100]> ∅)).

(** A CSV row whose identifier cell, under the spaced header, is empty. *)
Definition empty_identifier : gmap string value :=
  <["Student ID" := VString ""]>
  (<["Student Name" := VString "Bob"]>
  (<["Total Marks" := VString "50"]>
  (<["Marks Obtained" := VString "40"]> ∅))).

(** A request body that carries a percentage of its own. *)
Definition update_body : gmap string value :=
  <["total_marks" := num 50]>
  (<["marks_obtained" := num 25]>
  (<["percentage" := num 99]> ∅)).

End Fixtures.

(* ===================================================================== *)
(** * The specification's words *)
(* ===================================================================== *)

Module Spec.
Import JS Mongo Server.

(** "Rounded to 2 decimal places": for a finite number below [10^21] in
    magnitude, the number nearest to [n / 100], where [n] is the integer
    nearest to a hundred times its magnitude (the larger of two), with its
    sign; infinities and NaN stay, both zeros give [+0]. From [10^21] on a
    number has no decimals to drop: it is written out with its shortest
    digits and read back. *)
Definition round_to_2_places (x : number) : number :=
  match x with
  | S754_nan => NaN
  | S754_infinity neg => S754_infinity neg
  | S754_zero _ => pos_zero
  | S754_finite neg m e =>
      let '(p, q) := fraction_of m e in
      if 10 ^ 21 * q <=? p then
        StringToNumber
          (str ((if neg then ["-"%char] else []) ++ chars (NumberToString (S754_finite false m e))))
      else num_of_decimal neg (round_half_up p q 2) (-2)
  end.

(** [percentage = round(marks_obtained / total_marks * 100, 2)] *)
Definition percentage_of (marks_obtained total_marks : number) : number :=
  round_to_2_places (num_mul (num_div marks_obtained total_marks) hundred).

Definition is_positive (x : number) : Prop := num_ltb pos_zero x = true.

(** The four logical fields and their accepted spellings, in priority
    order, the canonical spelling first. *)
Inductive field : Type := Student_ID | Student_Name | Total_Marks | Marks_Obtained.

Definition spellings (f : field) : list string :=
  match f with
  | Student_ID => ["Student_ID"; "student_id"; "Student ID"]
  | Student_Name => ["Student_Name"; "student_name"; "Student Name"]
  | Total_Marks => ["Total_Marks"; "total_marks"; "Total Marks"]
  | Marks_Obtained => ["Marks_Obtained"; "marks_obtained"; "Marks Obtained"]
  end.

Definition canonical (f : field) : string :=
  match f with
  | Student_ID => "Student_ID"
  | Student_Name => "Student_Name"
  | Total_Marks => "Total_Marks"
  | Marks_Obtained => "Marks_Obtained"
  end.

#[global] Instance field_eq_dec : EqDecision field.
Proof. solve_decision. Defined.

Definition last_spelling (f : field) : string :=
  match f with
  | Student_ID => "Student ID"
  | Student_Name => "Student Name"
  | Total_Marks => "Total Marks"
  | Marks_Obtained => "Marks Obtained"
  end.

(** The text a record holds for a field, for the two text fields. *)
Definition text_of (f : field) (r : student) : option string :=
  match f with
  | Student_ID => Some (student_id r)
  | Student_Name => Some (student_name r)
  | Total_Marks | Marks_Obtained => None
  end.

(** The first value that counts as a match; when none does, the last one. *)
Fixpoint first_match (vs : list value) : value :=
  match vs with
  | [] => VUndefined
  | [v] => v
  | v :: vs' => if ToBoolean v then v else first_match vs'
  end.

(** The value a row supplies for a field. *)
Definition resolve (f : field) (row : gmap string value) : value :=
  first_match (get row <$> spellings f).

(** The record of a row, field by field. *)
Definition normalize (row : gmap string value) : student :=
  let total := Number_ (resolve Total_Marks row) in
  let marks := Number_ (resolve Marks_Obtained row) in
  {| student_id := String_ (resolve Student_ID row);
     student_name := String_ (resolve Student_Name row);
     total_marks := total;
     marks_obtained := marks;
     percentage := percentage_of marks total |}.

(** A row that supplies [v] for field [f] under the spelling [key] and
    under no other spelling of [f]. *)
Definition supply (f : field) (key : string) (v : value) (row : gmap string value)
  : gmap string value :=
  <[key := v]> (foldr delete row (spellings f)).

(** A value that is zero or missing. *)
Definition zero_or_missing (v : value) : Prop :=
  v = VUndefined ∨ is_zero (ToNumber v) = true.

(** The upload history after a request holds one more entry, [h]. *)
Definition appended (d d' : db) (h : history_doc) : Prop :=
  uploadhistories d' = uploadhistories d ++ [h].

(** The same environment, except that the driver call [c] throws or
    not as [o] says. *)
Definition with_fault (E : env) (c : call) (o : option string) : env :=
  {| readyState := readyState E;
     now := now E;
     fault := fun c' => if decide (c' = c) then o else fault E c';
     date_of := date_of E |}.

(** The failure path of the upload handler for a received file: the
    error entry is attempted, the answer is 500 either way. *)
Definition failure_path (E : env) (f : file) (error : string) (d : db)
  : outcome response * db :=
  (Returned (res_status_json 500 (ErrorBody "Failed to process file" (Some error))),
   match fault E HistoryCreateOnError with
   | None => record_history E (error_entry f) d
   | Some _ => d
   end).

(** Every stored identifier was handed out by the counter. *)
Definition ids_below (d : db) : Prop :=
  Forall (fun s => (_id s < next_id d)%N) (students d).

End Spec.

(* ===================================================================== *)
(** * The two normalisation paths, side by side *)
(* ===================================================================== *)

Module Paths.
Import JS Mongo Server.

Inductive path : Type := Excel | CSV.

Section Parsers.
Context {worksheet : Type}.
Variable xlsx_read : list Byte.byte → outcome (@workbook worksheet).
Variable sheet_to_json : option worksheet → outcome (list (gmap string value)).
Variable Papa_parse : string → outcome (list (gmap string value)).

(** What the parsing library makes of the buffer. *)
Definition parsed (p : path) (buffer : list Byte.byte) : outcome (list (gmap string value)) :=
  match p with
  | Excel => sheet_rows xlsx_read sheet_to_json buffer
  | CSV => csv_rows Papa_parse buffer
  end.

Definition processFile (p : path) (buffer : list Byte.byte) : outcome (list student) :=
  match p with
  | Excel => processExcelFile xlsx_read sheet_to_json buffer
  | CSV => processCSVFile Papa_parse buffer
  end.

(** The path the route handler takes for an accepted file, and the rows
    it normalizes. *)
Definition path_of (f : file) : path :=
  if includes (mimetype f) "sheet" || includes (mimetype f) "excel" then Excel else CSV.

Definition normalized (f : file) : outcome (list student) :=
  processFile (path_of f) (buffer f).

End Parsers.

Definition row_mapper (p : path) : gmap string value → student :=
  match p with
  | Excel => excel_row
  | CSV => csv_row
  end.

(** The two files that define the PUT and DELETE routes. *)
Inductive source_file : Type := server_js | older_server.

Definition put_handler (v : source_file)
  : env → N → gmap string value → M response :=
  match v with
  | server_js => Server.put_api_students
  | older_server => Legacy.put_api_students
  end.

Definition delete_handler (v : source_file) : env → N → M response :=
  match v with
  | server_js => Server.delete_api_students
  | older_server => Legacy.delete_api_students
  end.

Definition generic_message (p : path) : string :=
  match p with
  | Excel => "Failed to process Excel file"
  | CSV => "Failed to process CSV file"
  end.

End Paths.

(* ===================================================================== *)
(** * The older server file: normalizers, upload and list routes *)
(* ===================================================================== *)

Module Older.
Import JS Mongo.

(** The object the older row mappers build: the two text fields hold the
    cell as it is, without [String(...)]. *)
Record student : Type := {
  student_id : value;
  student_name : value;
  total_marks : number;
  marks_obtained : number;
  percentage : number
}.

(** The same record as the object handed to [insertMany]. *)
Definition student_object (s : student) : gmap string value :=
  <["student_id" := student_id s]>
  (<["student_name" := student_name s]>
  (<["total_marks" := VNumber (total_marks s)]>
  (<["marks_obtained" := VNumber (marks_obtained s)]>
  (<["percentage" := VNumber (percentage s)]> ∅)))).

(** What the older file answers with: its own JSON bodies, and the page
    express answers with when an error is passed to [next] and the
    application has no error handling middleware, as the older file has
    none. *)
Inductive body : Type :=
  | ErrorBody (error : string)
  | UploadedBody (message : string) (count : Z) (students : list student)
  | StudentsBody (students : list student_doc)
  | ErrorPage (error : string).

Record response : Type := { status : Z; json : body }.

Definition res_status_json (code : Z) (b : body) : response := {| status := code; json := b |}.
Definition res_json (b : body) : response := res_status_json 200 b.

(** Lines 27-31. *)
Definition allowedTypes : list string :=
  [ "application/vnd.openxmlformats-officedocument.spreadsheetml.sheet";
    "text/csv";
    "application/vnd.ms-excel" ].

(** Lines 26-37: [cb(null, true)], or [cb(new Error(...))]. *)
Definition fileFilter (f : Server.file) : outcome bool :=
  if Server.array_includes allowedTypes (Server.mimetype f) then Returned true
  else Thrown "Invalid file type. Only Excel and CSV files allowed.".

(** [upload.single('file')] of the multer of lines 24-38, which sets no
    limits: [req.file] for the route handler, or the error passed to
    [next]. *)
Definition upload_single (part : option Server.file) : outcome (option Server.file) :=
  match part with
  | None => Returned None
  | Some f => _ ← fileFilter f; Returned (Some f)
  end.

(** The arrow function of lines 48-54; [a / b] applies ToNumber to both
    operands. *)
Definition excel_row (row : gmap string value) : student :=
  {| student_id := get row "Student_ID" ||| get row "student_id";
     student_name := get row "Student_Name" ||| get row "student_name";
     total_marks := Number_ (get row "Total_Marks" ||| get row "total_marks");
     marks_obtained := Number_ (get row "Marks_Obtained" ||| get row "marks_obtained");
     percentage :=
       Number_ (VString (toFixed
         (num_mul
            (num_div (ToNumber (get row "Marks_Obtained" ||| get row "marks_obtained"))
                     (ToNumber (get row "Total_Marks" ||| get row "total_marks")))
            Server.hundred) 2)) |}.

(** The arrow function of lines 62-68. *)
Definition csv_row (row : gmap string value) : student :=
  {| student_id := get row "Student_ID" ||| get row "student_id";
     student_name := get row "Student_Name" ||| get row "student_name";
     total_marks := Number_ (get row "Total_Marks" ||| get row "total_marks");
     marks_obtained := Number_ (get row "Marks_Obtained" ||| get row "marks_obtained");
     percentage :=
       Number_ (VString (toFixed
         (num_mul
            (num_div (ToNumber (get row "Marks_Obtained" ||| get row "marks_obtained"))
                     (ToNumber (get row "Total_Marks" ||| get row "total_marks")))
            Server.hundred) 2)) |}.

Section Parsers.
Context {worksheet : Type}.
Variable xlsx_read : list Byte.byte → outcome (@Server.workbook worksheet).
Variable sheet_to_json : option worksheet → outcome (list (gmap string value)).
Variable Papa_parse : string → outcome (list (gmap string value)).

(** Lines 42-55: no [try]; what the library throws is thrown on. *)
Definition processExcelFile (buffer : list Byte.byte) : outcome (list student) :=
  workbook ← xlsx_read buffer;
  let sheetName := default "undefined" (Server.SheetNames workbook !! 0%nat) in
  let worksheet := Server.Sheets workbook !! sheetName in
  data ← sheet_to_json worksheet;
  Returned (map excel_row data).

(** Lines 58-69. *)
Definition processCSVFile (buffer : list Byte.byte) : outcome (list student) :=
  let csvData := string_of_list_byte buffer in
  data ← Papa_parse csvData;
  Returned (map csv_row data).

(** Lines 90-98: what follows the normalisation. *)
Definition replace (E : env) (studentsData : list student) : M response :=
  Student_deleteMany E;;
  Student_insertMany E (student_object <$> studentsData);;
  ret (res_json (UploadedBody "File uploaded successfully"
                   (Z.of_nat (length studentsData)) studentsData)).

(** The route handler of lines 74-103; [req_file] is [req.file]. *)
Definition upload_handler (E : env) (req_file : option Server.file) : M response :=
  try_catch
    (match req_file with
     | None => ret (res_status_json 400 (ErrorBody "No file uploaded"))
     | Some f =>
         if includes (Server.mimetype f) "sheet" || includes (Server.mimetype f) "excel" then
           studentsData ← lift (processExcelFile (Server.buffer f));
           replace E studentsData
         else if includes (Server.mimetype f) "csv" then
           studentsData ← lift (processCSVFile (Server.buffer f));
           replace E studentsData
         else ret (res_status_json 400 (ErrorBody "Unsupported file format"))
     end)
    (fun error => ret (res_status_json 500 (ErrorBody "Failed to process file"))).

(** [app.post('/api/upload', upload.single('file'), handler)], line 74,
    for a request whose multipart body carries [part] in its field
    [file]; an error of the middleware is answered by express, with
    status 500. *)
Definition post_api_upload (E : env) (part : option Server.file) : M response :=
  match upload_single part with
  | Thrown error => ret (res_status_json 500 (ErrorPage error))
  | Returned req_file => upload_handler E req_file
  end.

End Parsers.

(** Lines 106-113. *)
Definition get_api_students (E : env) : M response :=
  try_catch
    (students ← Student_find_sorted E;
     ret (res_json (StudentsBody students)))
    (fun error => ret (res_status_json 500 (ErrorBody "Failed to fetch students"))).

End Older.

(* ===================================================================== *)
(** * Further notions for the properties of the handlers *)
(* ===================================================================== *)

Module Notions.
Import JS Mongo Server.

(** The file type an upload history entry records for an accepted file. *)
Definition recorded_type (f : file) : string :=
  if String.eqb (mimetype f) "text/csv" then "CSV" else "Excel".

(** The text fields of the older record, coerced as [src/server.js] does. *)
Definition stringified (s : Older.student) : student :=
  {| student_id := String_ (Older.student_id s);
     student_name := String_ (Older.student_name s);
     total_marks := Older.total_marks s;
     marks_obtained := Older.marks_obtained s;
     percentage := Older.percentage s |}.

(** The number a record holds for a field, for the two numeric fields. *)
Definition number_of (f : Spec.field) (r : student) : option number :=
  match f with
  | Spec.Total_Marks => Some (total_marks r)
  | Spec.Marks_Obtained => Some (marks_obtained r)
  | Spec.Student_ID | Spec.Student_Name => None
  end.

(** One of the two older spellings of every field holds a truthy value. *)
Definition older_spellings_suffice (row : gmap string value) : Prop :=
  ∀ f, ∃ key, key ∈ take 2 (Spec.spellings f) ∧ ToBoolean (get row key) = true.

(** Dates that can be compared: times, and times that may be [null],
    which is earlier than every time. *)
Class Dated (D : Type) : Type := no_later : D → D → Prop.

#[global] Instance time_dated : Dated Z := Z.le.

#[global] Instance nullable_time_dated : Dated (option Z) :=
  fun x y =>
    match x with
    | None => True
    | Some a => match y with None => False | Some b => a ≤ b end
    end.

(** [l] lists entries from the newest on. *)
Definition newest_first {A D} `{Dated D} (date : A → D) (l : list A) : Prop :=
  ∀ i j a b, (i < j)%nat → l !! i = Some a → l !! j = Some b → no_later (date b) (date a).

(** No two stored students share an identifier or a [student_id] key. *)
Definition unique_students (d : db) : Prop :=
  NoDup (_id <$> students d) ∧
  NoDup ((fun s => index_key (fields s)) <$> students d).

(** The requests the five routes of [src/server.js] answer. *)
Inductive request : Type :=
  | PostUpload (part : option file)
  | GetStudents
  | GetUploadHistory
  | PutStudent (id : N) (req_body : gmap string value)
  | DeleteStudent (id : N).

Section Parsers.
Context {worksheet : Type}.
Variable xlsx_read : list Byte.byte → outcome (@workbook worksheet).
Variable sheet_to_json : option worksheet → outcome (list (gmap string value)).
Variable Papa_parse : string → outcome (list (gmap string value)).

Definition route (E : env) (r : request) : M response :=
  match r with
  | PostUpload part => post_api_upload xlsx_read sheet_to_json Papa_parse E part
  | GetStudents => get_api_students E
  | GetUploadHistory => get_api_upload_history E
  | PutStudent id req_body => put_api_students E id req_body
  | DeleteStudent id => delete_api_students E id
  end.

(** The collections after a sequence of requests, each served in the
    environment it meets. *)
Fixpoint serve (requests : list (env * request)) (d : db) : db :=
  match requests with
  | [] => d
  | (E, r) :: rest => serve rest (route E r d).2
  end.

End Parsers.

(** How many of the requests are uploads. *)
Fixpoint uploads (requests : list (env * request)) : nat :=
  match requests with
  | [] => 0
  | (_, PostUpload _) :: rest => S (uploads rest)
  | _ :: rest => uploads rest
  end.

End Notions.

(* ===================================================================== *)
(** * More inputs for the worked examples *)
(* ===================================================================== *)

Module MoreFixtures.
Import JS Mongo Server Notions Fixtures.

(** Two rows under the same Student_ID. *)
Definition duplicate_csv : file :=
  {| originalname := "twice.csv";
     mimetype := "text/csv";
     buffer := bytes ("Student_ID,Student_Name,Total_Marks,Marks_Obtained" +:+ newline +:+
                      "S1,Alice,100,80" +:+ newline +:+
                      "S1,Alicia,50,40" +:+ newline) |}.

(** A header and no rows. *)
Definition header_only_csv : file :=
  {| originalname := "empty.csv";
     mimetype := "text/csv";
     buffer := bytes ("Student_ID,Student_Name,Total_Marks,Marks_Obtained" +:+ newline) |}.

(** A sheet the reader cannot open: the signature of an archive and
    nothing behind it. *)
Definition unreadable_sheet : file :=
  {| originalname := "broken.xlsx";
     mimetype := "application/vnd.openxmlformats-officedocument.spreadsheetml.sheet";
     buffer := [Byte.x50; Byte.x4b; Byte.x03; Byte.x04] |}.

(** One byte more than 5 MB. *)
Definition oversized_csv : file :=
  {| originalname := "big.csv";
     mimetype := "text/csv";
     buffer := replicate (Z.to_nat (5 * 1024 * 1024 + 1)) Byte.x30 |}.

(** Everything works but the write of the success entry. *)
Definition history_fails : env :=
  {| readyState := 1; now := 1000;
     fault := fun c => match c with
                       | HistoryCreateOnSuccess => Some "history write failed"
                       | _ => None
                       end;
     date_of := milliseconds |}.

(** A collection holding two students. *)
Definition two_students : db :=
  {| students :=
       [ {| _id := 0; created_at := Some 500;
            fields := <["student_id" := VString "S0"]>
                      (<["student_name" := VString "Zed"]>
                      (<["total_marks" := num 100]>
                      (<["marks_obtained" := num 80]>
                      (<["percentage" := num 80]> ∅)))) |};
         {| _id := 1; created_at := Some 600;
            fields := <["student_id" := VString "S1"]>
                      (<["student_name" := VString "Amy"]>
                      (<["total_marks" := num 50]>
                      (<["marks_obtained" := num 20]>
                      (<["percentage" := num 40]> ∅)))) |} ];
     uploadhistories := [];
     next_id := 2 |}.

(** A request body that renames the student to S1. *)
Definition rename_body : gmap string value :=
  <["student_id" := VString "S1"]> update_body.

(** Alice with zero marks, under the canonical spelling. *)
Definition alice_with_zero_marks : gmap string value :=
  <["Marks_Obtained" := num 0]> alice_without_marks.

(** Alice with 80 marks, all four fields under the canonical spelling. *)
Definition alice_with_marks : gmap string value :=
  <["Marks_Obtained" := num 80]> alice_without_marks.

(** An upload, an update of the first new student and a deletion. *)
Definition a_session : list (env * request) :=
  [ (connected, PostUpload (Some grades_csv));
    (connected, PutStudent 1 update_body);
    (history_fails, PostUpload (Some duplicate_csv));
    (connected, DeleteStudent 4) ].

End MoreFixtures.

(* ===================================================================== *)
(** * Printing a number with two decimals and reading it back *)
(* ===================================================================== *)

Module ToFixedFacts.
Import JS Spec.

Lemma digit_char_spec d :
  0 <= d < 10 → is_digit (digit_char d) = true ∧ digit_val (digit_char d) = d.
Proof.
  intros Hd.
  assert (Hc : d = 0 ∨ d = 1 ∨ d = 2 ∨ d = 3 ∨ d = 4 ∨ d = 5 ∨ d = 6 ∨ d = 7 ∨ d = 8 ∨ d = 9)
    by lia.
  repeat (destruct Hc as [-> | Hc]; [split; reflexivity |]).
  subst d. split; reflexivity.
Qed.

Lemma digits_value_snoc cs c :
  digits_value (cs ++ [c]) = 10 * digits_value cs + digit_val c.
Proof. unfold digits_value. by rewrite fold_left_app. Qed.

Lemma digits_go_acc fuel : ∀ n acc, digits_go fuel n acc = digits_go fuel n [] ++ acc.
Proof.
  induction fuel as [| fuel IH]; intros n acc; simpl; [done |].
  destruct (n <? 10); [done |].
  rewrite (IH _ [_]), (IH _ (_ :: acc)), <- app_assoc. done.
Qed.

Lemma digits_go_spec fuel : ∀ n,
  0 <= n < 2 ^ Z.of_nat fuel →
  all_digits (digits_go fuel n []) ∧ digits_value (digits_go fuel n []) = n.
Proof.
  induction fuel as [| fuel IH]; intros n Hn.
  - simpl in *. assert (n = 0) by lia. subst. split; [constructor | reflexivity].
  - simpl digits_go.
    assert (Hmod : 0 <= n mod 10 < 10) by (apply Z.mod_pos_bound; lia).
    destruct (digit_char_spec _ Hmod) as [Hd Hv].
    destruct (Z.ltb_spec n 10) as [Hlt | Hge].
    + split; [by repeat constructor |].
      unfold digits_value; simpl. rewrite Hv. rewrite Z.mod_small by lia. done.
    + rewrite digits_go_acc.
      assert (Hq : 0 <= n / 10 < 2 ^ Z.of_nat fuel).
      { split; [apply Z.div_pos; lia |].
        apply Z.div_lt_upper_bound; [lia |].
        rewrite Nat2Z.inj_succ, Z.pow_succ_r in Hn by lia. lia. }
      destruct (IH _ Hq) as [Hall Hval].
      split.
      * apply Forall_app; split; [done | by repeat constructor].
      * rewrite digits_value_snoc, Hval, Hv.
        pose proof (Z.div_mod n 10). lia.
Qed.

Lemma digits_of_spec n :
  0 <= n → all_digits (digits_of n) ∧ digits_value (digits_of n) = n.
Proof.
  intros Hn. unfold digits_of. apply digits_go_spec.
  split; [done |].
  destruct (Z.eq_dec n 0) as [-> | Hnz]; [reflexivity |].
  rewrite Nat2Z.inj_succ, Z2Nat.id by apply Z.log2_nonneg.
  apply Z.log2_spec. lia.
Qed.

Lemma digits_of_nonempty n : digits_of n ≠ [].
Proof.
  unfold digits_of. simpl. destruct (n <? 10); [done |].
  rewrite digits_go_acc. by destruct (digits_go _ _ []).
Qed.

Lemma zeros_all_digits k : all_digits (zeros k).
Proof. induction k; simpl; constructor; done. Qed.

Lemma digits_value_zeros k cs : digits_value (zeros k ++ cs) = digits_value cs.
Proof.
  unfold digits_value. rewrite fold_left_app. f_equal.
  induction k as [| k IH]; [done |].
  replace (zeros (S k)) with (zeros k ++ ["0"%char]).
  - rewrite fold_left_app, IH. reflexivity.
  - unfold zeros. by rewrite <- repeat_cons.
Qed.

Lemma span_digits_app ds rest :
  all_digits ds →
  match rest with [] => True | c :: _ => is_digit c = false end →
  span_digits (ds ++ rest) = (ds, rest).
Proof.
  intros Hds Hrest. induction Hds as [| d ds Hd _ IH]; simpl.
  - destruct rest as [| c rest]; [done |]. simpl. by rewrite Hrest.
  - by rewrite Hd, IH.
Qed.


(** What a digit is not. *)
Lemma digit_class c :
  is_digit c = true →
  (is_whitespace [c] = false ∧ (nat_of_ascii c < 128)%nat) ∧
  Ascii.eqb c "-" = false ∧ Ascii.eqb c "+" = false ∧ Ascii.eqb c "." = false ∧
  Ascii.eqb c "I" = false ∧
  (Ascii.eqb c "x" || Ascii.eqb c "X")%bool = false ∧
  (Ascii.eqb c "o" || Ascii.eqb c "O")%bool = false ∧
  (Ascii.eqb c "b" || Ascii.eqb c "B")%bool = false.
Proof.
  destruct c as [[] [] [] [] [] [] [] []]; intros H; vm_compute in H;
    try discriminate H;
    (split; [split; [reflexivity | apply Nat.ltb_lt; reflexivity] | repeat split]).
Qed.

(** A byte of the ASCII range neither begins nor ends a white space
    character of more than one byte. *)
Lemma ascii_no_whitespace c :
  (nat_of_ascii c < 128)%nat →
  (∀ b, is_whitespace [c; b] = false) ∧ (∀ b d, is_whitespace [c; b; d] = false) ∧
  (∀ a, is_whitespace [a; c] = false) ∧ (∀ a b, is_whitespace [a; b; c] = false).
Proof.
  intros Hc. unfold is_whitespace. cbn [fmap list_fmap].
  repeat split; intros; apply not_true_is_false;
    repeat first [rewrite orb_true_iff | rewrite andb_true_iff
                 | rewrite Nat.eqb_eq | rewrite Nat.leb_le];
    lia.
Qed.

Lemma trim_left_keep c cs :
  is_whitespace [c] = false ∧ (nat_of_ascii c < 128)%nat → trim_left (c :: cs) = c :: cs.
Proof.
  intros [H Hc]. destruct (ascii_no_whitespace c Hc) as (H2 & H3 & _).
  cbn [trim_left]. rewrite H.
  destruct cs as [| b cs]; [done |]. rewrite H2.
  destruct cs as [| d cs]; [done |]. by rewrite H3.
Qed.

Lemma trim_right_keep c rs :
  is_whitespace [c] = false ∧ (nat_of_ascii c < 128)%nat → trim_right (c :: rs) = c :: rs.
Proof.
  intros [H Hc]. destruct (ascii_no_whitespace c Hc) as (_ & _ & H2 & H3).
  cbn [trim_right]. rewrite H.
  destruct rs as [| b rs]; [done |]. rewrite H2.
  destruct rs as [| a rs]; [done |]. by rewrite H3.
Qed.

Lemma trim_keep c cs d :
  is_whitespace [c] = false ∧ (nat_of_ascii c < 128)%nat →
  is_whitespace [d] = false ∧ (nat_of_ascii d < 128)%nat →
  trim (c :: cs ++ [d]) = c :: cs ++ [d].
Proof.
  intros Hc Hd. unfold trim. rewrite trim_left_keep by done.
  change (c :: cs ++ [d]) with ((c :: cs) ++ [d]).
  rewrite rev_app_distr.
  change (rev [d] ++ rev (c :: cs)) with (d :: rev (c :: cs)).
  rewrite trim_right_keep by done.
  change (d :: rev (c :: cs)) with (rev [d] ++ rev (c :: cs)).
  by rewrite <- rev_app_distr, rev_involutive.
Qed.

Lemma chars_str cs : chars (str cs) = cs.
Proof. apply list_ascii_of_string_of_list_ascii. Qed.

Lemma parse_unsigned_fixed ip fp :
  all_digits ip → all_digits fp → ip ≠ [] →
  parse_unsigned_decimal (ip ++ "."%char :: fp)
  = Some (digits_value (ip ++ fp), - Z.of_nat (length fp)).
Proof.
  intros Hip Hfp Hne. unfold parse_unsigned_decimal.
  rewrite (span_digits_app ip ("."%char :: fp)) by done.
  change (Ascii.eqb "."%char "."%char) with true. cbv iota.
  rewrite <- (app_nil_r fp) at 1. rewrite (span_digits_app fp []) by done.
  destruct ip as [| i ip]; [done |]. simpl. done.
Qed.

Lemma not_infinity d cs : is_digit d = true → chars_eqb (d :: cs) (chars "Infinity") = false.
Proof.
  intros Hd. destruct (digit_class d Hd) as (_ & _ & _ & _ & HI & _).
  unfold chars_eqb. simpl. by rewrite HI.
Qed.

Lemma parse_decimal_minus body :
  parse_decimal ("-"%char :: body)
  = if chars_eqb body (chars "Infinity") then S754_infinity true
    else match parse_unsigned_decimal body with
         | Some (m, e) => num_of_decimal true m e
         | None => NaN
         end.
Proof. reflexivity. Qed.

Lemma parse_decimal_unsigned c body :
  Ascii.eqb c "-" = false → Ascii.eqb c "+" = false →
  parse_decimal (c :: body)
  = if chars_eqb (c :: body) (chars "Infinity") then S754_infinity false
    else match parse_unsigned_decimal (c :: body) with
         | Some (m, e) => num_of_decimal false m e
         | None => NaN
         end.
Proof. intros Hm Hp. unfold parse_decimal. by rewrite Hm, Hp. Qed.

Lemma parse_decimal_fixed (neg : bool) ip fp :
  all_digits ip → all_digits fp → ip ≠ [] →
  parse_decimal ((if neg then ["-"%char] else []) ++ ip ++ "."%char :: fp)
  = num_of_decimal neg (digits_value (ip ++ fp)) (- Z.of_nat (length fp)).
Proof.
  intros Hip Hfp Hne.
  destruct ip as [| i ip]; [done |].
  pose proof (Forall_inv Hip) as Hi. simpl in Hi.
  destruct (digit_class i Hi) as (_ & Hm & Hp & _).
  destruct neg.
  - change (["-"%char] ++ (i :: ip) ++ "."%char :: fp)
      with ("-"%char :: (i :: ip) ++ "."%char :: fp).
    rewrite parse_decimal_minus, parse_unsigned_fixed by done.
    change ((i :: ip) ++ "."%char :: fp) with (i :: ip ++ "."%char :: fp).
    by rewrite not_infinity.
  - change ([] ++ (i :: ip) ++ "."%char :: fp) with (i :: ip ++ "."%char :: fp).
    rewrite parse_decimal_unsigned, not_infinity by done.
    change (i :: ip ++ "."%char :: fp) with ((i :: ip) ++ "."%char :: fp).
    by rewrite parse_unsigned_fixed.
Qed.

Lemma parse_non_decimal_fixed (neg : bool) ip fp :
  all_digits ip → ip ≠ [] →
  parse_non_decimal ((if neg then ["-"%char] else []) ++ ip ++ "."%char :: fp) = None.
Proof.
  intros Hip Hne. destruct ip as [| i ip]; [done |].
  destruct neg; simpl app.
  - unfold parse_non_decimal. by destruct (ip ++ "."%char :: fp).
  - unfold parse_non_decimal.
    destruct ip as [| j ip]; simpl app.
    + destruct fp; [done |]. destruct (Ascii.eqb i "0"); done.
    + assert (Hj : is_digit j = true) by (by inversion Hip as [| ? ? ? Hr]; inversion Hr).
      destruct (digit_class j Hj) as (_ & _ & _ & _ & _ & Hx & Ho & Hb).
      destruct (ip ++ "."%char :: fp) eqn:Heq.
      * by destruct ip.
      * rewrite Hx, Ho, Hb. by destruct (Ascii.eqb i "0").
Qed.

Lemma StringToNumber_fixed (neg : bool) ip fp :
  all_digits ip → all_digits fp → ip ≠ [] → fp ≠ [] →
  StringToNumber (str ((if neg then ["-"%char] else []) ++ ip ++ "."%char :: fp))
  = num_of_decimal neg (digits_value (ip ++ fp)) (- Z.of_nat (length fp)).
Proof.
  intros Hip Hfp Hine Hfne. unfold StringToNumber. rewrite chars_str.
  assert (Htrim : trim ((if neg then ["-"%char] else []) ++ ip ++ "."%char :: fp)
                  = (if neg then ["-"%char] else []) ++ ip ++ "."%char :: fp).
  { destruct (exists_last Hfne) as (fp' & d & ->).
    assert (Hd : is_digit d = true).
    { apply Forall_app in Hfp as [_ Hd]. by inversion Hd. }
    destruct (digit_class d Hd) as (Hwd & _).
    destruct ip as [| i ip]; [done |].
    pose proof (Forall_inv Hip) as Hi. simpl in Hi.
    destruct (digit_class i Hi) as (Hwi & _).
    destruct neg; simpl app.
    - replace ("-"%char :: i :: ip ++ "."%char :: fp' ++ [d])
        with ("-"%char :: (i :: ip ++ "."%char :: fp') ++ [d])
        by (simpl; by rewrite <- app_assoc).
      apply trim_keep; [split; [reflexivity | apply Nat.ltb_lt; reflexivity] | done].
    - replace (i :: ip ++ "."%char :: fp' ++ [d])
        with (i :: (ip ++ "."%char :: fp') ++ [d])
        by (simpl; by rewrite <- app_assoc).
      by apply trim_keep. }
  rewrite Htrim.
  rewrite parse_non_decimal_fixed by done.
  rewrite <- parse_decimal_fixed by done.
  destruct neg; [done |]. destruct ip; done.
Qed.

Lemma fixed_digits_split n f :
  0 <= n → 0 < f →
  ∃ ip fp, fixed_digits n f = ip ++ "."%char :: fp ∧
           all_digits ip ∧ all_digits fp ∧ ip ≠ [] ∧
           Z.of_nat (length fp) = f ∧ digits_value (ip ++ fp) = n.
Proof.
  intros Hn Hf. unfold fixed_digits.
  destruct (Z.eqb_spec f 0) as [-> | _]; [lia |].
  destruct (digits_of_spec n Hn) as [Hall Hval].
  pose proof (digits_of_nonempty n) as Hne.
  set (m0 := digits_of n) in *.
  set (m := if Z.of_nat (length m0) <=? f
            then zeros (Z.to_nat (f + 1 - Z.of_nat (length m0))) ++ m0 else m0).
  assert (Hm : all_digits m ∧ digits_value m = n ∧ f < Z.of_nat (length m)).
  { subst m. destruct (Z.leb_spec (Z.of_nat (length m0)) f).
    - split; [| split].
      + apply Forall_app; split; [apply zeros_all_digits | done].
      + by rewrite digits_value_zeros.
      + rewrite length_app. unfold zeros. rewrite repeat_length. lia.
    - done. }
  destruct Hm as (Hmall & Hmval & Hmlen).
  set (i := Z.to_nat (Z.of_nat (length m) - f)).
  exists (take i m), (drop i m).
  split; [done |].
  split; [by apply Forall_take |].
  split; [by apply Forall_drop |].
  split.
  { intros Habs. apply (f_equal (@length _)) in Habs.
    rewrite length_take in Habs. simpl in Habs. lia. }
  split; [rewrite length_drop; lia |].
  by rewrite take_drop.
Qed.

Lemma fraction_of_pos m e p q : fraction_of m e = (p, q) → 0 < p ∧ 0 < q.
Proof.
  unfold fraction_of. destruct (Z.leb_spec 0 e); intros [= <- <-].
  - split; [| lia]. apply Z.mul_pos_pos; [lia |]. apply Z.pow_pos_nonneg; lia.
  - split; [lia |]. apply Z.pow_pos_nonneg; lia.
Qed.

Lemma round_half_up_nonneg p q f : 0 < p → 0 < q → 0 <= f → 0 <= round_half_up p q f.
Proof.
  intros Hp Hq Hf. unfold round_half_up. apply Z.div_pos; [| lia].
  pose proof (Z.pow_pos_nonneg 10 f). nia.
Qed.

(** [round_half_up p q f] is the integer nearest to [p/q * 10^f], the
    larger one of two. *)
Lemma round_half_up_nearest p q f :
  0 < q →
  let n := round_half_up p q f in
  2 * q * n - q <= 2 * p * 10 ^ f < 2 * q * n + q.
Proof.
  intros Hq n. subst n. unfold round_half_up.
  pose proof (Z.div_mod (2 * p * 10 ^ f + q) (2 * q)) as Hdiv.
  pose proof (Z.mod_pos_bound (2 * p * 10 ^ f + q) (2 * q)) as Hmod.
  lia.
Qed.

(** Reading back what [toFixed] printed. *)
Lemma toFixed_2_read_back x : Number_ (VString (toFixed x 2)) = round_to_2_places x.
Proof.
  destruct x as [s | s | | neg m e]; simpl.
  - destruct s; reflexivity.
  - destruct s; reflexivity.
  - reflexivity.
  - unfold toFixed, round_to_2_places.
    destruct (fraction_of m e) as [p q] eqn:Hpq.
    destruct (10 ^ 21 * q <=? p); [reflexivity |].
    assert (Hn : 0 <= round_half_up p q 2)
      by (apply round_half_up_nonneg; [apply (fraction_of_pos m e _ _ Hpq).. | lia]).
    destruct (fixed_digits_split _ 2 Hn) as (ip & fp & -> & Hip & Hfp & Hine & Hlen & Hval);
      [lia |].
    rewrite StringToNumber_fixed; [| done | done | done | by destruct fp].
    by rewrite Hval, Hlen.
Qed.

End ToFixedFacts.

(* ===================================================================== *)
(** * The record normalizer *)
(* ===================================================================== *)

Module NormalizerFacts.
Import JS Mongo Server Spec Paths ToFixedFacts.

Lemma or_chain a b c : a ||| b ||| c = first_match [a; b; c].
Proof.
  unfold JS.or. simpl.
  destruct (ToBoolean a) eqn:Ha; [by rewrite Ha |].
  reflexivity.
Qed.

Lemma excel_row_normalize row : excel_row row = normalize row.
Proof.
  unfold excel_row, normalize, resolve, percentage_of. simpl fmap.
  rewrite !or_chain, toFixed_2_read_back. reflexivity.
Qed.

Lemma csv_row_normalize row : csv_row row = normalize row.
Proof.
  unfold csv_row, normalize, resolve, percentage_of. simpl fmap.
  rewrite !or_chain, toFixed_2_read_back. reflexivity.
Qed.

Lemma row_mapper_normalize p row : row_mapper p row = normalize row.
Proof. destruct p; [apply excel_row_normalize | apply csv_row_normalize]. Qed.

Lemma normalize_percentage row :
  percentage (normalize row)
  = percentage_of (marks_obtained (normalize row)) (total_marks (normalize row)).
Proof. reflexivity. Qed.

(** The first match is one of the candidates. *)
Lemma first_match_in v vs : first_match (v :: vs) ∈ v :: vs.
Proof.
  revert v. induction vs as [| w vs IH]; intros v; simpl.
  - apply list_elem_of_here.
  - destruct (ToBoolean v); [apply list_elem_of_here |].
    apply list_elem_of_further, IH.
Qed.

(** A truthy value wins over what follows it, and a falsy one is passed
    over when something follows. *)
Lemma first_match_truthy v vs : ToBoolean v = true → first_match (v :: vs) = v.
Proof. intros H. destruct vs; simpl; [done | by rewrite H]. Qed.

Lemma first_match_falsy v w vs :
  ToBoolean v = false → first_match (v :: w :: vs) = first_match (w :: vs).
Proof. intros H. simpl. by rewrite H. Qed.

(** ** Division by a zero or missing total *)

Lemma hundred_finite : hundred = S754_finite false 7036874417766400 (-46).
Proof. reflexivity. Qed.

Lemma percentage_of_zero_total m t :
  is_zero t = true ∨ is_nan t = true → is_finite (percentage_of m t) = false.
Proof.
  unfold percentage_of. rewrite hundred_finite.
  intros [Ht | Ht]; destruct t as [st | st | | st mt et]; try discriminate Ht;
    destruct m as [sm | sm | | sm mm em]; try reflexivity;
    destruct sm, st; reflexivity.
Qed.

Lemma total_zero_or_nan row :
  (∀ key, key ∈ spellings Total_Marks → zero_or_missing (get row key)) →
  is_zero (total_marks (normalize row)) = true ∨
  is_nan (total_marks (normalize row)) = true.
Proof.
  intros Hall. simpl. unfold resolve.
  assert (Hin : first_match (get row <$> spellings Total_Marks)
                ∈ get row <$> spellings Total_Marks) by apply first_match_in.
  apply list_elem_of_fmap in Hin as (key & -> & Hkey).
  destruct (Hall key Hkey) as [-> | Hz]; [by right | by left].
Qed.

(** ** Resolution of a field *)

Local Ltac in_spellings :=
  simpl; repeat first [apply list_elem_of_here | apply list_elem_of_further].

(** Lookups of literal keys under inserts and deletes of literal keys. *)
Local Ltac lookup_spelling :=
  repeat first
    [ rewrite lookup_delete_eq
    | rewrite lookup_delete_ne by discriminate
    | rewrite lookup_insert_eq
    | rewrite lookup_insert_ne by discriminate ].

(** Case analysis on a membership in one of the spelling lists. *)
Local Ltac spelling_cases H :=
  simpl in H;
  repeat (apply elem_of_cons in H as [H | H]; [subst |]);
  [.. | by apply elem_of_nil in H].

Lemma first_match_first_truthy vs i v :
  vs !! i = Some v → ToBoolean v = true →
  (∀ j w, (j < i)%nat → vs !! j = Some w → ToBoolean w = false) →
  first_match vs = v.
Proof.
  revert i. induction vs as [| w vs IH]; intros i Hi Hv Hbefore; [done |].
  destruct i as [| i]; simpl in Hi.
  - injection Hi as ->. by apply first_match_truthy.
  - destruct vs as [| w' vs]; [done |].
    rewrite first_match_falsy by (apply (Hbefore 0%nat); [lia | done]).
    apply (IH i); [done | done |].
    intros j u Hj Hu. apply (Hbefore (S j)); [lia | done].
Qed.

Lemma resolve_first_truthy row g i k :
  spellings g !! i = Some k →
  ToBoolean (get row k) = true →
  (∀ j k', (j < i)%nat → spellings g !! j = Some k' → ToBoolean (get row k') = false) →
  resolve g row = get row k.
Proof.
  intros Hk Hv Hbefore. unfold resolve.
  apply (first_match_first_truthy _ i).
  - by rewrite list_lookup_fmap, Hk.
  - done.
  - intros j w Hj Hw. rewrite list_lookup_fmap in Hw.
    destruct (spellings g !! j) as [k' |] eqn:Hk'; [| done].
    injection Hw as <-. by apply (Hbefore j).
Qed.

Lemma resolve_all_falsy f row :
  (∀ key, key ∈ spellings f → ToBoolean (get row key) = false) →
  resolve f row = get row (last_spelling f).
Proof.
  intros Hall. unfold resolve.
  destruct f; simpl; rewrite !Hall by in_spellings; reflexivity.
Qed.

Lemma get_supply_same f key v row : get (supply f key v row) key = v.
Proof. unfold get, supply. by rewrite lookup_insert_eq. Qed.

Lemma get_supply_other_spelling f key v row k :
  k ∈ spellings f → k ≠ key → get (supply f key v row) k = VUndefined.
Proof.
  intros Hk Hne. unfold get, supply. rewrite lookup_insert_ne by done.
  destruct f; spelling_cases Hk; simpl; by lookup_spelling.
Qed.

Lemma get_supply_other_field f g key v row k :
  f ≠ g → key ∈ spellings f → k ∈ spellings g →
  get (supply f key v row) k = get row k.
Proof.
  intros Hfg Hkey Hk. unfold get, supply.
  destruct f, g; try done; spelling_cases Hkey; spelling_cases Hk; simpl;
    by lookup_spelling.
Qed.

Lemma resolve_supply_same f key v row :
  key ∈ spellings f → ToBoolean v = true → resolve f (supply f key v row) = v.
Proof.
  intros Hkey Hv.
  apply list_elem_of_lookup in Hkey as [i Hi].
  rewrite (resolve_first_truthy _ f i key Hi); rewrite ?get_supply_same; [done | done |].
  intros j k' Hj Hk'. rewrite get_supply_other_spelling; [done | | ].
  - apply list_elem_of_lookup. eauto.
  - intros ->. destruct f; simpl in *;
      repeat (destruct i as [| i]; [| try done]); repeat (destruct j as [| j]; [| try done]);
      simpl in *; try lia; congruence.
Qed.

Lemma resolve_supply_other f g key v row :
  f ≠ g → key ∈ spellings f → resolve g (supply f key v row) = resolve g row.
Proof.
  intros Hfg Hkey. unfold resolve. f_equal.
  apply list_fmap_ext. intros i k Hk.
  apply (get_supply_other_field f g); [done | done |].
  apply list_elem_of_lookup. eauto.
Qed.

Lemma normalize_supply f key key' v row :
  key ∈ spellings f → key' ∈ spellings f → ToBoolean v = true →
  normalize (supply f key v row) = normalize (supply f key' v row).
Proof.
  intros Hkey Hkey' Hv.
  assert (Hres : ∀ g, resolve g (supply f key v row) = resolve g (supply f key' v row)).
  { intros g. destruct (decide (f = g)) as [<- | Hne].
    - by rewrite !resolve_supply_same.
    - by rewrite !resolve_supply_other. }
  unfold normalize. by rewrite !Hres.
Qed.

Section Parsers.
Context {worksheet : Type}.
Variable xlsx_read : list Byte.byte → outcome (@workbook worksheet).
Variable sheet_to_json : option worksheet → outcome (list (gmap string value)).
Variable Papa_parse : string → outcome (list (gmap string value)).

Local Abbreviation parsed := (parsed xlsx_read sheet_to_json Papa_parse).
Local Abbreviation processFile := (processFile xlsx_read sheet_to_json Papa_parse).

(** The normalizer is the parse followed by the row mapper, and any
    throw of the parse is replaced by the generic message. *)
Lemma processFile_unfold p buffer :
  processFile p buffer
  = match parsed p buffer with
    | Returned data => Returned (row_mapper p <$> data)
    | Thrown _ => Thrown (generic_message p)
    end.
Proof.
  destruct p; simpl.
  - unfold processExcelFile, sheet_rows.
    destruct (xlsx_read buffer) as [wb |]; simpl; [| done].
    by destruct (sheet_to_json _).
  - unfold processCSVFile, csv_rows.
    by destruct (Papa_parse _).
Qed.

Lemma processFile_returned p buffer data :
  parsed p buffer = Returned data →
  processFile p buffer = Returned (row_mapper p <$> data).
Proof. intros H. by rewrite processFile_unfold, H. Qed.

(** C1. For every parsed row whose total_marks value is a positive number,
    the normalizer — on the Excel path and on the CSV path alike — returns
    a record for it whose percentage is marks_obtained / total_marks * 100
    rounded to 2 decimal places, where total_marks and marks_obtained are
    the numbers the row holds for these two fields: Number(...) of the
    value it supplies under their spellings. (The equation holds for
    every row; the claim asks for it where total_marks is positive.) *)
Theorem percentage_is_rounded_quotient p buffer data :
  parsed p buffer = Returned data →
  processFile p buffer = Returned (row_mapper p <$> data) ∧
  ∀ i row, data !! i = Some row →
    ∃ r, (row_mapper p <$> data) !! i = Some r ∧
         total_marks r = Number_ (resolve Total_Marks row) ∧
         marks_obtained r = Number_ (resolve Marks_Obtained row) ∧
         (is_positive (Number_ (resolve Total_Marks row)) →
          percentage r
          = percentage_of (Number_ (resolve Marks_Obtained row))
                          (Number_ (resolve Total_Marks row))).
Proof.
  intros Hparsed. split; [by apply processFile_returned |].
  intros i row Hrow. exists (row_mapper p row).
  split; [by rewrite list_lookup_fmap, Hrow |].
  rewrite row_mapper_normalize. split; [reflexivity |]. split; [reflexivity |].
  intros _. apply normalize_percentage.
Qed.

(** C8. The normalizer throws exactly when the parse of the buffer throws,
    and what it throws then is the generic message of the file type,
    whatever the parse threw. *)
Theorem generic_error_iff_parse_fails p buffer :
  (processFile p buffer = Thrown (generic_message p) ↔
   ∃ error, parsed p buffer = Thrown error) ∧
  (∀ message, processFile p buffer = Thrown message → message = generic_message p).
Proof.
  rewrite processFile_unfold.
  destruct (parsed p buffer) as [data | error]; split.
  - split; [discriminate | intros [? ?]; discriminate].
  - discriminate.
  - split; [eauto | done].
  - by intros ? [= <-].
Qed.

(** C9. A row whose total_marks is zero or missing under every accepted
    spelling is not rejected: the normalizer returns a record for it, and
    that record's percentage is NaN or an infinity. *)
Theorem zero_or_missing_total_is_not_finite p buffer data :
  parsed p buffer = Returned data →
  processFile p buffer = Returned (row_mapper p <$> data) ∧
  ∀ i row, data !! i = Some row →
    (∀ key, key ∈ spellings Total_Marks → zero_or_missing (get row key)) →
    ∃ r, (row_mapper p <$> data) !! i = Some r ∧ is_finite (percentage r) = false.
Proof.
  intros Hparsed. split; [by apply processFile_returned |].
  intros i row Hrow Hzero. exists (row_mapper p row).
  split; [by rewrite list_lookup_fmap, Hrow |].
  rewrite row_mapper_normalize. simpl.
  apply percentage_of_zero_total, total_zero_or_nan, Hzero.
Qed.

End Parsers.

(** C5, as amended. Each field is resolved from its accepted spellings in
    fixed priority order, the first spelling holding a truthy value
    winning (the last spelling when none does); and a row that supplies a
    truthy value under any one accepted spelling normalizes to the same
    record as the row supplying it under the canonical spelling. *)
Theorem truthy_value_under_any_spelling p f key v row :
  key ∈ spellings f →
  ToBoolean v = true →
  row_mapper p row = normalize row ∧
  (∀ g i k, spellings g !! i = Some k →
     ToBoolean (get row k) = true →
     (∀ j k', (j < i)%nat → spellings g !! j = Some k' → ToBoolean (get row k') = false) →
     resolve g row = get row k) ∧
  row_mapper p (supply f key v row) = row_mapper p (supply f (canonical f) v row).
Proof.
  intros Hkey Hv. split; [apply row_mapper_normalize |]. split.
  - intros g i k. apply resolve_first_truthy.
  - rewrite !row_mapper_normalize. apply normalize_supply; [done | | done].
    destruct f; apply list_elem_of_here.
Qed.

(** C10, as amended. When no accepted spelling of Student_ID (of
    Student_Name) holds a truthy value, the normalizer still returns a
    record; its student_id (student_name) is the text of whatever the last
    spelling holds — the literal "undefined" when that key is absent — so
    two such rows without that key receive the same text. *)
Theorem no_truthy_spelling_takes_the_last p f row s :
  text_of f (row_mapper p row) = Some s →
  (∀ key, key ∈ spellings f → ToBoolean (get row key) = false) →
  s = String_ (get row (last_spelling f)) ∧
  (row !! last_spelling f = None → s = "undefined") ∧
  (∀ row' s',
     text_of f (row_mapper p row') = Some s' →
     (∀ key, key ∈ spellings f → ToBoolean (get row' key) = false) →
     row !! last_spelling f = None → row' !! last_spelling f = None →
     s = s').
Proof.
  intros Hs Hfalsy.
  assert (Hlast : ∀ r t, text_of f (row_mapper p r) = Some t →
            (∀ key, key ∈ spellings f → ToBoolean (get r key) = false) →
            t = String_ (get r (last_spelling f))).
  { intros r t Ht Hr. rewrite row_mapper_normalize in Ht.
    rewrite <- (resolve_all_falsy f r Hr).
    destruct f; simpl in Ht; congruence. }
  assert (Hundef : ∀ r t, t = String_ (get r (last_spelling f)) →
            r !! last_spelling f = None → t = "undefined").
  { intros r t -> Hnone. unfold get. by rewrite Hnone. }
  split; [by apply Hlast |]. split; [by eauto |].
  intros row' s' Hs' Hfalsy' Hnone Hnone'.
  rewrite (Hundef row s), (Hundef row' s'); eauto.
Qed.

End NormalizerFacts.

(* ===================================================================== *)
(** * The collections under the driver calls *)
(* ===================================================================== *)

Module MongoFacts.
Import JS Mongo.

Lemma insert_ordered_history E records :
  ∀ d o d', insert_ordered E records d = (o, d') → uploadhistories d' = uploadhistories d.
Proof.
  induction records as [| r records IH]; intros d o d' H; simpl in H.
  - by injection H as _ <-.
  - destruct (key_taken _ _); [by injection H as _ <- |].
    by apply IH in H.
Qed.

(** A bulk insert that returns has appended one document per record, in
    order, each under an identifier the counter had not yet handed out. *)
Lemma insert_ordered_returned E records :
  ∀ d d', insert_ordered E records d = (Returned (), d') →
    ∃ docs, students d' = students d ++ docs ∧
            fields <$> docs = records ∧
            Forall (fun s => (next_id d <= _id s)%N) docs.
Proof.
  induction records as [| r records IH]; intros d d' H; simpl in H.
  - injection H as <-. exists []. by rewrite app_nil_r.
  - destruct (key_taken _ _); [discriminate |].
    apply IH in H as (docs & Hst & Hf & Hid). simpl in *.
    eexists (_ :: docs). split; [by rewrite Hst, <- app_assoc |].
    split; [rewrite fmap_cons; by rewrite Hf |].
    constructor; [simpl; lia |].
    eapply Forall_impl; [exact Hid |]. simpl. intros. lia.
Qed.

(** The counter stays ahead of the stored identifiers through a bulk
    insert, however it ends. *)
Lemma insert_ordered_ids_below E records :
  ∀ d o d', Spec.ids_below d → insert_ordered E records d = (o, d') →
    Spec.ids_below d' ∧ (next_id d <= next_id d')%N.
Proof.
  unfold Spec.ids_below.
  induction records as [| r records IH]; intros d o d' Hd H; simpl in H.
  - injection H as _ <-. split; [done | lia].
  - destruct (key_taken _ _); [injection H as _ <-; split; [done | lia] |].
    apply IH in H as [Hd' Hle]; simpl in *.
    + split; [done | lia].
    + apply Forall_app. split.
      * eapply Forall_impl; [exact Hd |]. simpl. intros. lia.
      * repeat constructor. simpl. lia.
Qed.

Lemma find_by_id_Some id ds s : find_by_id id ds = Some s → _id s = id ∧ s ∈ ds.
Proof.
  unfold find_by_id. destruct (list_find _ ds) as [[i s'] |] eqn:Hfind; [| done].
  intros [= <-]. apply list_find_Some in Hfind as (Hi & Hid & _).
  split; [done |]. by eapply list_elem_of_lookup_2.
Qed.

Lemma find_by_id_None id ds : find_by_id id ds = None → Forall (fun s => _id s ≠ id) ds.
Proof.
  unfold find_by_id. destruct (list_find _ ds) as [[i s'] |] eqn:Hfind; [done |].
  intros _. by apply list_find_None in Hfind.
Qed.

(** After an update the identifier finds the new document. *)
Lemma find_by_id_replaced id new ds :
  _id new = id → is_Some (find_by_id id ds) →
  find_by_id id ((fun s => if decide (_id s = id) then new else s) <$> ds) = Some new.
Proof.
  intros Hnew. unfold find_by_id.
  induction ds as [| s ds IH]; [by intros [? ?] |].
  rewrite fmap_cons. cbn [list_find].
  destruct (decide (_id s = id)) as [Hs | Hs].
  - intros _. by rewrite decide_True.
  - rewrite decide_False by done. intros Hfind.
    destruct (list_find _ ds) as [[i s'] |]; [| by destruct Hfind].
    specialize (IH (mk_is_Some _ _ eq_refl)).
    destruct (list_find _ (_ <$> ds)) as [[j t] |]; [| done]. simpl in *. done.
Qed.

End MongoFacts.

(* ===================================================================== *)
(** * The upload handler *)
(* ===================================================================== *)

Module UploadFacts.
Import JS Mongo Server Spec Paths MongoFacts NormalizerFacts.

(** An accepted type sends the handler down one of its two paths. *)
Lemma accepted_type mt :
  array_includes allowedTypes mt = true →
  (includes mt "sheet" || includes mt "excel") = true ∨
  ((includes mt "sheet" || includes mt "excel") = false ∧ includes mt "csv" = true).
Proof.
  unfold array_includes, allowedTypes. simpl.
  destruct (String.eqb_spec mt "application/vnd.openxmlformats-officedocument.spreadsheetml.sheet")
    as [-> | _]; [by left |].
  destruct (String.eqb_spec mt "text/csv") as [-> | _]; [by right |].
  destruct (String.eqb_spec mt "application/vnd.ms-excel") as [-> | _]; [by left | done].
Qed.

Lemma upload_single_received part f :
  upload_single part = Returned (Some f) →
  part = Some f ∧ array_includes allowedTypes (mimetype f) = true ∧ size f <= fileSize.
Proof.
  destruct part as [g |]; simpl; [| done].
  unfold fileFilter. destruct (array_includes _ _) eqn:Hin; simpl; [| done].
  destruct (Z.ltb_spec fileSize (size g)); [done |].
  intros [= ->]. done.
Qed.

Section Parsers.
Context {worksheet : Type}.
Variable xlsx_read : list Byte.byte → outcome (@workbook worksheet).
Variable sheet_to_json : option worksheet → outcome (list (gmap string value)).
Variable Papa_parse : string → outcome (list (gmap string value)).

Local Abbreviation normalized := (normalized xlsx_read sheet_to_json Papa_parse).
Local Abbreviation upload_handler := (upload_handler xlsx_read sheet_to_json Papa_parse).
Local Abbreviation post_api_upload := (post_api_upload xlsx_read sheet_to_json Papa_parse).

(** The handler on a received file, step by step. *)
Lemma upload_handler_received E f d :
  array_includes allowedTypes (mimetype f) = true →
  upload_handler E (Some f) d =
  match normalized f with
  | Thrown error => failure_path E f error d
  | Returned studentsData =>
      if readyState E =? 1 then
        match fault E StudentDeleteMany with
        | Some error => failure_path E f error d
        | None =>
            match fault E StudentInsertMany with
            | Some error => failure_path E f error (set_students [] d)
            | None =>
                match insert_ordered E (student_object <$> studentsData) (set_students [] d) with
                | (Thrown error, d1) => failure_path E f error d1
                | (Returned _, d1) =>
                    match fault E HistoryCreateOnSuccess with
                    | Some error => failure_path E f error d1
                    | None =>
                        (Returned (res_json (UploadedBody "File uploaded successfully"
                                     (Z.of_nat (length studentsData)) studentsData)),
                         record_history E (success_entry f studentsData) d1)
                    end
                end
            end
        end
      else failure_path E f "Database not connected" d
  end.
Proof.
  intros Hacc.
  assert (Hfail : ∀ d0,
    (match
       (match fault E HistoryCreateOnError with
        | Some message => throw message
        | None => fun d1 => (Returned (), record_history E (error_entry f) d1)
        end) d0
     with
     | (Returned a, d') => (Returned a, d')
     | (Thrown error0, d') => ret () d'
     end) = (Returned (),
             match fault E HistoryCreateOnError with
             | None => record_history E (error_entry f) d0
             | Some _ => d0
             end)).
  { intros d0. by destruct (fault E HistoryCreateOnError). }
  unfold upload_handler, Server.upload_handler, normalized, Paths.normalized, path_of.
  unfold try_catch, replace_and_record, Student_deleteMany, Student_insertMany,
    UploadHistory_create, await, lift, mbind, M_bind, bind, mret, M_ret.
  destruct (accepted_type _ Hacc) as [-> | [-> ->]]; simpl processFile.
  - destruct (processExcelFile _ _ _) as [studentsData | error]; [| by rewrite Hfail].
    destruct (readyState E =? 1); [| unfold throw; by rewrite Hfail].
    unfold ret at 1.
    destruct (fault E StudentDeleteMany); [unfold throw; by rewrite Hfail |].
    destruct (fault E StudentInsertMany); [unfold throw; by rewrite Hfail |].
    destruct (insert_ordered _ _ _) as [[[] | error] d1]; [| by rewrite Hfail].
    destruct (fault E HistoryCreateOnSuccess); [unfold throw; by rewrite Hfail |].
    reflexivity.
  - destruct (processCSVFile _ _) as [studentsData | error]; [| by rewrite Hfail].
    destruct (readyState E =? 1); [| unfold throw; by rewrite Hfail].
    unfold ret at 1.
    destruct (fault E StudentDeleteMany); [unfold throw; by rewrite Hfail |].
    destruct (fault E StudentInsertMany); [unfold throw; by rewrite Hfail |].
    destruct (insert_ordered _ _ _) as [[[] | error] d1]; [| by rewrite Hfail].
    destruct (fault E HistoryCreateOnSuccess); [unfold throw; by rewrite Hfail |].
    reflexivity.
Qed.

Lemma post_api_upload_received E part f d :
  upload_single part = Returned (Some f) →
  post_api_upload E part d = upload_handler E (Some f) d.
Proof. intros H. unfold post_api_upload, Server.post_api_upload. by rewrite H. Qed.

Lemma insert_ordered_with_fault E c o records :
  ∀ d, insert_ordered (with_fault E c o) records d = insert_ordered E records d.
Proof.
  induction records as [| r records IH]; intros d; simpl; [done |].
  destruct (key_taken _ _); [done |]. apply IH.
Qed.

(** Every upload request is answered: the handler and the middleware
    let no exception out. *)
Lemma post_api_upload_answers E part d :
  ∃ resp d', post_api_upload E part d = (Returned resp, d').
Proof.
  unfold post_api_upload, Server.post_api_upload.
  destruct (upload_single part) as [[f |] | error] eqn:Hpart.
  - apply upload_single_received in Hpart as (_ & Hacc & _).
    rewrite (upload_handler_received E f d Hacc). unfold failure_path.
    destruct (normalized f); [| eauto].
    destruct (readyState E =? 1); [| eauto].
    destruct (fault E StudentDeleteMany); [eauto |].
    destruct (fault E StudentInsertMany); [eauto |].
    destruct (insert_ordered _ _ _) as [[[] |] ?]; [| eauto].
    destruct (fault E HistoryCreateOnSuccess); eauto.
  - unfold upload_handler, Server.upload_handler, try_catch, ret. eauto.
  - unfold error_middleware, ret. eauto.
Qed.

(** The upload keeps the counter ahead of the stored identifiers. *)
Lemma post_api_upload_ids_below E part d :
  ids_below d → ids_below (post_api_upload E part d).2.
Proof.
  intros Hd.
  unfold post_api_upload, Server.post_api_upload.
  destruct (upload_single part) as [[f |] | error] eqn:Hpart; [| done | done].
  apply upload_single_received in Hpart as (_ & Hacc & _).
  rewrite (upload_handler_received E f d Hacc).
  assert (Hrecord : ∀ entry d0, ids_below d0 → ids_below (record_history E entry d0)).
  { unfold ids_below. intros entry d0 Hd0. simpl.
    eapply Forall_impl; [exact Hd0 |]. simpl. intros. lia. }
  assert (Hfailure : ∀ error d0, ids_below d0 → ids_below (failure_path E f error d0).2).
  { intros error d0 Hd0. unfold failure_path. simpl.
    destruct (fault E HistoryCreateOnError); [done | by apply Hrecord]. }
  assert (Hempty : ids_below (set_students [] d)) by constructor.
  destruct (normalized f); [| by apply Hfailure].
  destruct (readyState E =? 1); [| by apply Hfailure].
  destruct (fault E StudentDeleteMany); [by apply Hfailure |].
  destruct (fault E StudentInsertMany); [by apply Hfailure |].
  destruct (insert_ordered _ _ _) as [[[] | error] d1] eqn:Hins;
    apply (insert_ordered_ids_below _ _ _ _ _ Hempty) in Hins as [Hd1 _];
    [| by apply Hfailure].
  destruct (fault E HistoryCreateOnSuccess); [by apply Hfailure |].
  simpl. by apply Hrecord.
Qed.

(** Whether the write of the error entry fails has no bearing on the
    response. *)
Lemma upload_response_ignores_error_entry E o f d :
  array_includes allowedTypes (mimetype f) = true →
  (upload_handler (with_fault E HistoryCreateOnError o) (Some f) d).1
  = (upload_handler E (Some f) d).1.
Proof.
  intros Hacc. rewrite !upload_handler_received by done.
  destruct (normalized f); [| done].
  rewrite insert_ordered_with_fault. unfold failure_path, with_fault. simpl.
  destruct (readyState E =? 1); [| done].
  destruct (fault E StudentDeleteMany); [done |].
  destruct (fault E StudentInsertMany); [done |].
  destruct (insert_ordered _ _ _) as [[[] |] ?]; [| done].
  by destruct (fault E HistoryCreateOnSuccess).
Qed.

(** C2. When an upload answers 200 for N normalized rows, the student
    collection afterwards holds exactly those N records, in order, none of
    them a document that was there before, and the list route returns
    those N documents. ([ids_below] holds of the empty database and is
    kept by every handler: [post_api_upload_ids_below] and, for updates
    and deletes, [CrudFacts.crud_ids_below].) *)
Theorem upload_replaces_all_students E part d resp d' :
  ids_below d →
  post_api_upload E part d = (Returned resp, d') →
  Server.status resp = 200 →
  ∃ f studentsData,
    part = Some f ∧
    normalized f = Returned studentsData ∧
    json resp = UploadedBody "File uploaded successfully"
                  (Z.of_nat (length studentsData)) studentsData ∧
    fields <$> students d' = student_object <$> studentsData ∧
    (∀ s, s ∈ students d' → s ∉ students d) ∧
    (∀ E', readyState E' = 1 → fault E' StudentFind = None →
       ∃ listed,
         get_api_students E' d' = (Returned (res_json (StudentsBody listed)), d') ∧
         listed ≡ₚ students d' ∧
         length listed = length studentsData).
Proof.
  intros Hids Hrun Hok.
  unfold post_api_upload, Server.post_api_upload in Hrun.
  destruct (upload_single part) as [[f |] | error] eqn:Hpart.
  - apply upload_single_received in Hpart as (-> & Hacc & _).
    rewrite (upload_handler_received E f d Hacc) in Hrun.
    unfold failure_path in Hrun.
    destruct (normalized f) as [studentsData | error] eqn:Hnorm;
      [| injection Hrun as <- <-; discriminate Hok].
    destruct (readyState E =? 1); [| injection Hrun as <- <-; discriminate Hok].
    destruct (fault E StudentDeleteMany); [injection Hrun as <- <-; discriminate Hok |].
    destruct (fault E StudentInsertMany); [injection Hrun as <- <-; discriminate Hok |].
    destruct (insert_ordered _ _ _) as [[[] | error] d1] eqn:Hins;
      [| injection Hrun as <- <-; discriminate Hok].
    destruct (fault E HistoryCreateOnSuccess); [injection Hrun as <- <-; discriminate Hok |].
    injection Hrun as <- <-.
    apply insert_ordered_returned in Hins as (docs & Hst & Hfields & Hfresh).
    simpl in Hst, Hfresh.
    exists f, studentsData. simpl. rewrite Hst.
    split; [done |]. split; [done |]. split; [done |]. split; [done |]. split.
    + intros s Hnew Hold.
      rewrite Forall_forall in Hfresh. specialize (Hfresh s Hnew).
      unfold ids_below in Hids. rewrite Forall_forall in Hids.
      specialize (Hids s Hold). simpl in *. lia.
    + intros E' Hready Hfind. exists (merge_sort newer_student docs).
      split.
      * unfold get_api_students, try_catch, Student_find_sorted, await,
          mbind, M_bind, bind, mret, M_ret, ret.
        rewrite Hready, Hfind. simpl. by rewrite Hst.
      * split; [apply merge_sort_Permutation |].
        rewrite merge_sort_Permutation.
        by rewrite <- (length_fmap fields), Hfields, length_fmap.
  - unfold upload_handler, Server.upload_handler, try_catch, ret in Hrun.
    injection Hrun as <- <-. discriminate Hok.
  - unfold error_middleware, ret in Hrun. injection Hrun as <- <-. discriminate Hok.
Qed.

(** C4, as amended. For every upload request in which a file was received
    at most one history entry is appended; it is one with status 'success'
    and the number of normalized rows when the request succeeds; when a
    step after the receipt fails the answer is 500, and one entry with
    status 'error' and students_count 0 is appended unless that write
    itself fails, in which case none is appended; a failure of that write
    is swallowed and changes nothing in the response. *)
Theorem one_history_entry_unless_its_write_fails E part f d :
  upload_single part = Returned (Some f) →
  ∃ resp d',
    post_api_upload E part d = (Returned resp, d') ∧
    (uploadhistories d' = uploadhistories d ∨ ∃ h, appended d d' h) ∧
    (Server.status resp = 200 →
       ∃ h studentsData,
         normalized f = Returned studentsData ∧ appended d d' h ∧
         Mongo.status h = "success" ∧
         students_count h = Z.of_nat (length studentsData)) ∧
    (Server.status resp ≠ 200 →
       Server.status resp = 500 ∧
       match fault E HistoryCreateOnError with
       | None => ∃ h, appended d d' h ∧ Mongo.status h = "error" ∧ students_count h = 0
       | Some _ => uploadhistories d' = uploadhistories d
       end) ∧
    (∀ o, (post_api_upload (with_fault E HistoryCreateOnError o) part d).1 = Returned resp).
Proof.
  intros Hpart.
  pose proof (upload_single_received _ _ Hpart) as (_ & Hacc & _).
  assert (Hswallow : ∀ o resp,
            (upload_handler E (Some f) d).1 = Returned resp →
            (post_api_upload (with_fault E HistoryCreateOnError o) part d).1 = Returned resp).
  { intros o resp <-. rewrite (post_api_upload_received _ part f d Hpart).
    by apply upload_response_ignores_error_entry. }
  rewrite (post_api_upload_received E part f d Hpart).
  revert Hswallow. rewrite (upload_handler_received E f d Hacc). intros Hswallow.
  assert (Hfailure : ∀ error d0,
    uploadhistories d0 = uploadhistories d →
    ∃ resp d',
      failure_path E f error d0 = (Returned resp, d') ∧
      (uploadhistories d' = uploadhistories d ∨ ∃ h, appended d d' h) ∧
      (Server.status resp = 200 →
         ∃ h studentsData,
           normalized f = Returned studentsData ∧ appended d d' h ∧
           Mongo.status h = "success" ∧
           students_count h = Z.of_nat (length studentsData)) ∧
      (Server.status resp ≠ 200 →
         Server.status resp = 500 ∧
         match fault E HistoryCreateOnError with
         | None => ∃ h, appended d d' h ∧ Mongo.status h = "error" ∧ students_count h = 0
         | Some _ => uploadhistories d' = uploadhistories d
         end)).
  { intros error d0 Hd0. unfold failure_path, appended.
    do 2 eexists. split; [reflexivity |].
    destruct (fault E HistoryCreateOnError); simpl; rewrite ?Hd0;
      (split; [eauto |]); (split; [discriminate |]); (split; [done | eauto]). }
  destruct (normalized f) as [studentsData | error] eqn:Hnorm.
  2: { destruct (Hfailure error d eq_refl) as (resp & d' & Heq & ? & ? & ?).
       exists resp, d'. rewrite Heq in Hswallow.
       do 4 (split; [done |]). intros o. by apply Hswallow. }
  destruct (readyState E =? 1).
  2: { destruct (Hfailure "Database not connected" d eq_refl) as (resp & d' & Heq & ? & ? & ?).
       exists resp, d'. rewrite Heq in Hswallow.
       do 4 (split; [done |]). intros o. by apply Hswallow. }
  destruct (fault E StudentDeleteMany) as [error |].
  { destruct (Hfailure error d eq_refl) as (resp & d' & Heq & ? & ? & ?).
    exists resp, d'. rewrite Heq in Hswallow.
       do 4 (split; [done |]). intros o. by apply Hswallow. }
  destruct (fault E StudentInsertMany) as [error |].
  { destruct (Hfailure error (set_students [] d) eq_refl) as (resp & d' & Heq & ? & ? & ?).
    exists resp, d'. rewrite Heq in Hswallow.
       do 4 (split; [done |]). intros o. by apply Hswallow. }
  destruct (insert_ordered _ _ _) as [[[] | error] d1] eqn:Hins;
    apply insert_ordered_history in Hins; simpl in Hins.
  2: { destruct (Hfailure error d1 Hins) as (resp & d' & Heq & ? & ? & ?).
       exists resp, d'. rewrite Heq in Hswallow.
       do 4 (split; [done |]). intros o. by apply Hswallow. }
  destruct (fault E HistoryCreateOnSuccess) as [error |].
  { destruct (Hfailure error d1 Hins) as (resp & d' & Heq & ? & ? & ?).
    exists resp, d'. rewrite Heq in Hswallow.
       do 4 (split; [done |]). intros o. by apply Hswallow. }
  do 2 eexists. split; [reflexivity |]. unfold appended. simpl. rewrite Hins.
  split; [eauto |]. split; [eauto 10 |]. split; [done |]. eauto.
Qed.

(** C6, as the code has it. An upload whose file has a media type outside
    the accepted set never reaches the route handler: multer's filter
    passes an error to the error handling middleware, which answers 500;
    no history entry is written and no student is touched. *)
Theorem unsupported_type_answers_500 E f d :
  array_includes allowedTypes (mimetype f) = false →
  post_api_upload E (Some f) d =
  (Returned (res_status_json 500
     (ErrorBody "Internal server error"
        (Some "Invalid file type. Only Excel and CSV files allowed."))), d).
Proof.
  intros Hrejected.
  unfold post_api_upload, Server.post_api_upload, upload_single, fileFilter.
  by rewrite Hrejected.
Qed.

End Parsers.

End UploadFacts.

(* ===================================================================== *)
(** * The update and delete handlers *)
(* ===================================================================== *)

Module CrudFacts.
Import JS Mongo Server Spec Paths MongoFacts ToFixedFacts.

(** What either PUT handler hands to the driver. *)
Lemma update_percentage req_body :
  <["percentage" :=
      VNumber (Number_ (VString (toFixed
        (num_mul (num_div (ToNumber (get req_body "marks_obtained"))
                          (ToNumber (get req_body "total_marks"))) hundred) 2)))]> req_body
  !! "percentage"
  = Some (VNumber (percentage_of (ToNumber (get req_body "marks_obtained"))
                                 (ToNumber (get req_body "total_marks")))).
Proof. rewrite lookup_insert_eq, toFixed_2_read_back. reflexivity. Qed.

(** The driver call behind PUT: when it returns a document, that document
    is stored under the identifier and carries every field of the update. *)
Lemma findByIdAndUpdate_returned E id update d doc d' :
  Student_findByIdAndUpdate E id update d = (Returned (Some doc), d') →
  find_by_id id (students d') = Some doc ∧
  ∀ key v, update !! key = Some v → fields doc !! key = Some v.
Proof.
  unfold Student_findByIdAndUpdate, await.
  destruct (fault E StudentFindByIdAndUpdate); [done |].
  destruct (find_by_id id (students d)) as [old |] eqn:Hold; [| done].
  destruct (key_taken _ _); [done |].
  intros [= <- <-]. simpl. split.
  - apply find_by_id_replaced; [| by rewrite Hold].
    simpl. by apply find_by_id_Some in Hold as [? _].
  - intros key v Hkey. simpl. by apply lookup_union_Some_l.
Qed.

(** Without a document under the identifier the two driver calls change
    nothing, whether they return or throw. *)
Lemma findByIdAndUpdate_missing E id update d :
  find_by_id id (students d) = None →
  Student_findByIdAndUpdate E id update d
  = (match fault E StudentFindByIdAndUpdate with
     | Some error => Thrown error
     | None => Returned None
     end, d).
Proof.
  intros Hnone. unfold Student_findByIdAndUpdate, await.
  destruct (fault E StudentFindByIdAndUpdate); [done |]. by rewrite Hnone.
Qed.

Lemma findByIdAndDelete_missing E id d :
  find_by_id id (students d) = None →
  Student_findByIdAndDelete E id d
  = (match fault E StudentFindByIdAndDelete with
     | Some error => Thrown error
     | None => Returned None
     end, d).
Proof.
  intros Hnone. unfold Student_findByIdAndDelete, await.
  destruct (fault E StudentFindByIdAndDelete); [done |]. by rewrite Hnone.
Qed.

(** Updates and deletes keep the counter ahead of the stored identifiers. *)
Lemma crud_ids_below v E id req_body d :
  ids_below d →
  ids_below (put_handler v E id req_body d).2 ∧
  ids_below (delete_handler v E id d).2.
Proof.
  unfold ids_below. intros Hd.
  assert (Hupdate : ∀ update, Forall (fun s => (_id s < next_id d)%N)
            (students (Student_findByIdAndUpdate E id update d).2)).
  { intros update. unfold Student_findByIdAndUpdate, await, throw.
    destruct (fault E StudentFindByIdAndUpdate); [done |].
    destruct (find_by_id id (students d)) as [old |] eqn:Hold; [| done].
    destruct (key_taken _ _); [done |]. simpl.
    apply find_by_id_Some in Hold as [Hid Hin].
    rewrite Forall_forall in Hd. apply Forall_fmap, Forall_forall.
    intros s Hs. simpl. destruct (decide (_id s = id)); simpl; [| by apply Hd].
    rewrite Hid, <- e. by apply Hd. }
  assert (Hdelete : Forall (fun s => (_id s < next_id d)%N)
            (students (Student_findByIdAndDelete E id d).2)).
  { unfold Student_findByIdAndDelete, await, throw.
    destruct (fault E StudentFindByIdAndDelete); [done |].
    destruct (find_by_id id (students d)); [| done]. simpl.
    rewrite Forall_forall in Hd. apply Forall_forall.
    intros t Ht. apply list_elem_of_filter in Ht as [_ Ht]. by apply Hd. }
  assert (Hnext_update : ∀ update, next_id (Student_findByIdAndUpdate E id update d).2 = next_id d).
  { intros update. unfold Student_findByIdAndUpdate, await, throw.
    destruct (fault E StudentFindByIdAndUpdate); [done |].
    destruct (find_by_id id (students d)); [| done].
    by destruct (key_taken _ _). }
  assert (Hnext_delete : next_id (Student_findByIdAndDelete E id d).2 = next_id d).
  { unfold Student_findByIdAndDelete, await, throw.
    destruct (fault E StudentFindByIdAndDelete); [done |].
    by destruct (find_by_id id (students d)). }
  split; destruct v; simpl;
    unfold Server.put_api_students, Legacy.put_api_students,
      Server.delete_api_students, Legacy.delete_api_students, try_catch,
      mbind, M_bind, bind, mret, M_ret, ret.
  - specialize (Hupdate (<["percentage" := VNumber (Number_ (VString (toFixed
        (num_mul (num_div (ToNumber (get req_body "marks_obtained"))
                          (ToNumber (get req_body "total_marks"))) hundred) 2)))]> req_body)).
    specialize (Hnext_update (<["percentage" := VNumber (Number_ (VString (toFixed
        (num_mul (num_div (ToNumber (get req_body "marks_obtained"))
                          (ToNumber (get req_body "total_marks"))) hundred) 2)))]> req_body)).
    destruct (Student_findByIdAndUpdate _ _ _ _) as [[[?|] | ?] d1]; simpl in *;
      by rewrite Hnext_update.
  - specialize (Hupdate (<["percentage" := VNumber (Number_ (VString (toFixed
        (num_mul (num_div (ToNumber (get req_body "marks_obtained"))
                          (ToNumber (get req_body "total_marks"))) hundred) 2)))]> req_body)).
    specialize (Hnext_update (<["percentage" := VNumber (Number_ (VString (toFixed
        (num_mul (num_div (ToNumber (get req_body "marks_obtained"))
                          (ToNumber (get req_body "total_marks"))) hundred) 2)))]> req_body)).
    destruct (Student_findByIdAndUpdate _ _ _ _) as [[[?|] | ?] d1]; simpl in *;
      by rewrite Hnext_update.
  - destruct (Student_findByIdAndDelete _ _ _) as [[[?|] | ?] d1]; simpl in *;
      by rewrite Hnext_delete.
  - destruct (Student_findByIdAndDelete _ _ _) as [[[?|] | ?] d1]; simpl in *;
      by rewrite Hnext_delete.
Qed.

(** A PUT on an identifier that has a record stores the update, unless
    the driver call throws. *)
Lemma put_updates_existing v E id req_body d old :
  find_by_id id (students d) = Some old →
  ∃ resp d',
    put_handler v E id req_body d = (Returned resp, d') ∧
    (Server.status resp = 200 → ∃ doc, json resp = StudentBody (Some doc)).
Proof.
  intros Hold.
  destruct v; simpl;
    unfold Server.put_api_students, Legacy.put_api_students, try_catch,
      mbind, M_bind, bind, mret, M_ret, ret;
    unfold Student_findByIdAndUpdate, await, throw;
    destruct (fault E StudentFindByIdAndUpdate);
    rewrite ?Hold; try destruct (key_taken _ _);
    do 2 eexists; (split; [reflexivity |]); simpl; first [discriminate | eauto].
Qed.

(** A key that no document of the collection is filed under is free. *)
Lemma key_taken_free key ds :
  (∀ s, s ∈ ds → index_key (fields s) ≠ key) → key_taken key ds = false.
Proof.
  unfold key_taken. induction ds as [| s ds IH]; intros Hfree; [done |].
  simpl. apply orb_false_intro.
  - apply String.eqb_neq, Hfree, list_elem_of_here.
  - apply IH. intros t Ht. by apply Hfree, list_elem_of_further.
Qed.

(** The percentage of the update has no part in the key of the unique
    index. *)
Lemma index_key_update (p : value) (req_body old_fields : gmap string value) :
  index_key (<["percentage" := p]> req_body ∪ old_fields)
  = index_key (req_body ∪ old_fields).
Proof. unfold index_key, get. by rewrite !lookup_union, lookup_insert_ne. Qed.

(** C3. A PUT for a stored identifier — in [src/server.js] and in the
    older file alike — stores the update, unless the driver call throws or
    the unique index on student_id refuses it: the answer is 200 with the
    updated record, that record is the one stored under the identifier
    afterwards, and its percentage is marks_obtained / total_marks * 100
    rounded to 2 decimal places, computed from the two submitted values;
    a percentage field of the request body has no part in it. (This holds
    for every body; the claim asks for it where the body has both
    values.) *)
Theorem update_stores_recomputed_percentage v E id req_body d old :
  find_by_id id (students d) = Some old →
  fault E StudentFindByIdAndUpdate = None →
  (∀ other, other ∈ students d → _id other ≠ id →
            index_key (fields other) ≠ index_key (req_body ∪ fields old)) →
  ∃ doc d',
    put_handler v E id req_body d
    = (Returned (res_json (StudentBody (Some doc))), d') ∧
    find_by_id id (students d') = Some doc ∧
    fields doc !! "percentage"
    = Some (VNumber (percentage_of (ToNumber (get req_body "marks_obtained"))
                                   (ToNumber (get req_body "total_marks")))).
Proof.
  intros Hold Hfault Hfree.
  assert (Htaken : ∀ p, key_taken (index_key (<["percentage" := p]> req_body ∪ fields old))
                          (filter (fun s => _id s ≠ id) (students d)) = false).
  { intros p. rewrite index_key_update. apply key_taken_free.
    intros s Hs. apply list_elem_of_filter in Hs as [Hne Hin]. by apply Hfree. }
  pose proof (find_by_id_Some _ _ _ Hold) as [Hid _].
  destruct v; simpl;
    unfold Server.put_api_students, Legacy.put_api_students, try_catch,
      mbind, M_bind, bind, mret, M_ret, ret, Student_findByIdAndUpdate, await;
    rewrite Hfault, Hold; simpl; rewrite Htaken;
    do 2 eexists; (split; [reflexivity |]); cbn [students set_students fields];
    (split; [apply find_by_id_replaced; [exact Hid | by rewrite Hold]
            | apply lookup_union_Some_l, update_percentage]).
Qed.

(** The handlers of [src/server.js] on an identifier without a record:
    404 when the driver call returns, and no student created, changed or
    removed either way. *)
Lemma server_js_unknown_id E id req_body d :
  find_by_id id (students d) = None →
  (Server.put_api_students E id req_body d).2 = d ∧
  (Server.delete_api_students E id d).2 = d ∧
  (fault E StudentFindByIdAndUpdate = None →
   Server.put_api_students E id req_body d
   = (Returned (res_status_json 404 (ErrorBody "Student not found" None)), d)) ∧
  (fault E StudentFindByIdAndDelete = None →
   Server.delete_api_students E id d
   = (Returned (res_status_json 404 (ErrorBody "Student not found" None)), d)).
Proof.
  intros Hnone.
  unfold Server.put_api_students, Server.delete_api_students, try_catch,
    mbind, M_bind, bind, mret, M_ret, ret.
  rewrite findByIdAndUpdate_missing, findByIdAndDelete_missing by done.
  destruct (fault E StudentFindByIdAndUpdate), (fault E StudentFindByIdAndDelete);
    repeat split; done.
Qed.

(** C7, as the older file has it. Its DELETE and PUT handlers do not look
    at what the driver found: on an identifier without a record they
    answer 200 — 'Student deleted successfully', respectively [null] —
    instead of 404. No student is created, changed or removed. *)
Theorem older_server_answers_200_for_unknown_id E id req_body d :
  find_by_id id (students d) = None →
  fault E StudentFindByIdAndDelete = None →
  fault E StudentFindByIdAndUpdate = None →
  delete_handler older_server E id d
  = (Returned (res_json (MessageBody "Student deleted successfully")), d) ∧
  put_handler older_server E id req_body d
  = (Returned (res_json (StudentBody None)), d).
Proof.
  intros Hnone Hdelete Hupdate. simpl.
  unfold Legacy.put_api_students, Legacy.delete_api_students, try_catch,
    mbind, M_bind, bind, mret, M_ret, ret.
  rewrite findByIdAndUpdate_missing, findByIdAndDelete_missing by done.
  by rewrite Hdelete, Hupdate.
Qed.

End CrudFacts.

(* ===================================================================== *)
(** * Worked examples *)
(* ===================================================================== *)

Module Examples.
Import JS Mongo Server Spec Paths Fixtures.
Import ToFixedFacts NormalizerFacts MongoFacts UploadFacts CrudFacts.

Local Abbreviation parsed := (parsed xlsx_read sheet_to_json csv_parse).
Local Abbreviation processFile := (processFile xlsx_read sheet_to_json csv_parse).
Local Abbreviation normalized := (normalized xlsx_read sheet_to_json csv_parse).

(** The runtime on some well-known cases. *)
Example toFixed_cases :
  toFixed (StringToNumber "1.005") 2 = "1.00" ∧
  toFixed (StringToNumber "8.345") 2 = "8.35" ∧
  toFixed (StringToNumber "0.125") 2 = "0.13" ∧
  toFixed (StringToNumber "-1.5") 2 = "-1.50" ∧
  toFixed (StringToNumber "-0.001") 2 = "-0.00" ∧
  toFixed (num_div (num_of_Z 1) (num_of_Z 3)) 2 = "0.33" ∧
  toFixed (num_div (num_of_Z 1) (num_of_Z 0)) 2 = "Infinity" ∧
  toFixed (num_div (num_of_Z 0) (num_of_Z 0)) 2 = "NaN" ∧
  toFixed (StringToNumber "1e21") 2 = "1e+21".
Proof. vm_compute. repeat split. Qed.

Example NumberToString_cases :
  NumberToString (StringToNumber "0.1") = "0.1" ∧
  NumberToString (num_mul (StringToNumber "0.07") hundred) = "7.000000000000001" ∧
  NumberToString (num_div (num_of_Z 1) (num_of_Z 3)) = "0.3333333333333333" ∧
  NumberToString (StringToNumber "123456789012345680000") = "123456789012345680000" ∧
  NumberToString (StringToNumber "0.000001") = "0.000001" ∧
  NumberToString (StringToNumber "1e-7") = "1e-7" ∧
  NumberToString (num_of_Z 101) = "101".
Proof. vm_compute. repeat split. Qed.

Example coercion_cases :
  ToNumber VUndefined = NaN ∧ ToNumber VNull = pos_zero ∧
  ToNumber (VString "") = pos_zero ∧ ToNumber (VString " 42 ") = num_of_Z 42 ∧
  ToNumber (VString "12px") = NaN ∧ ToNumber (VArray [VString "5"]) = num_of_Z 5 ∧
  ToString VUndefined = "undefined" ∧ ToString (VArray [num 1; VNull; num 2]) = "1,,2" ∧
  ToBoolean (VString "0") = true ∧ ToBoolean (num 0) = false ∧
  ToBoolean (VString "") = false.
Proof. vm_compute. repeat split. Qed.

(** The quotient and the product are the binary64 ones: 23 marks of 160
    are 14.374999999999998 percent before the rounding, 14.37 after. *)
Example percentage_of_23_of_160 :
  NumberToString (num_mul (num_div (num_of_Z 23) (num_of_Z 160)) hundred)
  = "14.374999999999998" ∧
  percentage_of (num_of_Z 23) (num_of_Z 160) = StringToNumber "14.37".
Proof. vm_compute. split; reflexivity. Qed.

(** The specification's end-to-end example: two rows, both at 80 percent. *)
Example upload_two_rows :
  ∃ alice bob d',
    upload connected (Some grades_csv) empty_db
    = (Returned (res_json (UploadedBody "File uploaded successfully" 2 [alice; bob])), d') ∧
    student_id alice = "S1" ∧ percentage alice = num_of_Z 80 ∧
    student_id bob = "S2" ∧ percentage bob = num_of_Z 80 ∧
    length (students d') = 2%nat ∧ length (uploadhistories d') = 1%nat.
Proof. do 3 eexists. split; [vm_compute; reflexivity |]. repeat split. Qed.

(** [PUT] with [{total_marks: 50, marks_obtained: 25, percentage: 99}]
    stores 50. *)
Example update_to_fifty :
  ∃ doc d',
    Server.put_api_students connected 0 update_body one_student
    = (Returned (res_json (StudentBody (Some doc))), d') ∧
    fields doc !! "percentage" = Some (num 50) ∧
    fields doc !! "student_id" = Some (VString "S0").
Proof. do 2 eexists. split; [vm_compute; reflexivity |]. split; reflexivity. Qed.

(** White space of any kind is trimmed before a number is read: a
    no-break space, U+00A0, before 50 and a thin space, U+2009, after it
    leave 50; inside the digits it leaves no number. *)
Example no_break_space_is_trimmed :
  StringToNumber (str (ascii_of_nat 194 :: ascii_of_nat 160 :: chars "50")) = num_of_Z 50 ∧
  StringToNumber (str (chars "50" ++ [ascii_of_nat 226; ascii_of_nat 128; ascii_of_nat 137]))
  = num_of_Z 50 ∧
  StringToNumber (str (chars "5" ++ [ascii_of_nat 194; ascii_of_nat 160] ++ chars "0")) = NaN.
Proof. vm_compute. repeat split. Qed.

(** A body that names created_at moves the student to that time. *)
Example update_of_created_at :
  ∃ doc d',
    Server.put_api_students connected 0 (<["created_at" := num 700]> update_body) one_student
    = (Returned (res_json (StudentBody (Some doc))), d') ∧
    created_at doc = Some 700.
Proof. do 2 eexists. split; [vm_compute; reflexivity |]. reflexivity. Qed.

Lemma percentage_is_rounded_quotient_witness :
  ∃ data row r,
    parsed CSV (buffer grades_csv) = Returned data ∧
    data !! 0%nat = Some row ∧
    processFile CSV (buffer grades_csv) = Returned (row_mapper CSV <$> data) ∧
    (row_mapper CSV <$> data) !! 0%nat = Some r ∧
    total_marks r = Number_ (resolve Total_Marks row) ∧
    marks_obtained r = Number_ (resolve Marks_Obtained row) ∧
    is_positive (Number_ (resolve Total_Marks row)) ∧
    percentage r
    = percentage_of (Number_ (resolve Marks_Obtained row)) (Number_ (resolve Total_Marks row)) ∧
    percentage r = num_of_Z 80.
Proof.
  eexists.
  destruct (percentage_is_rounded_quotient xlsx_read sheet_to_json csv_parse
              CSV (buffer grades_csv) _ eq_refl) as [Hreturned Hrows].
  eexists.
  destruct (Hrows 0%nat _ eq_refl) as (r & Hr & Htotal & Hmarks & Hpct).
  exists r. split; [reflexivity |]. split; [reflexivity |].
  split; [exact Hreturned |]. split; [exact Hr |].
  split; [exact Htotal |]. split; [exact Hmarks |].
  assert (Hpos : is_positive (Number_ (resolve Total_Marks
            (list_to_map (zip (cells "Student_ID,Student_Name,Total_Marks,Marks_Obtained")
                              (VString <$> cells "S1,Alice,100,80"))))))
    by (vm_compute; reflexivity).
  split; [exact Hpos |]. split; [exact (Hpct Hpos) |].
  vm_compute in Hr. injection Hr as <-. reflexivity.
Defined.

Lemma generic_error_iff_parse_fails_witness :
  (∃ error, parsed Excel [Byte.x50; Byte.x4b; Byte.x03; Byte.x04] = Thrown error) ∧
  processFile Excel [Byte.x50; Byte.x4b; Byte.x03; Byte.x04]
  = Thrown "Failed to process Excel file".
Proof.
  assert (Hfails : ∃ error, parsed Excel [Byte.x50; Byte.x4b; Byte.x03; Byte.x04]
                            = Thrown error) by (eexists; reflexivity).
  split; [exact Hfails |].
  exact (proj2 (proj1 (generic_error_iff_parse_fails xlsx_read sheet_to_json csv_parse
                         Excel [Byte.x50; Byte.x4b; Byte.x03; Byte.x04])) Hfails).
Defined.

(** The second row of [grades_sheet] as the sheet reader returns it. *)
Lemma bo_has_zero_total key :
  key ∈ spellings Total_Marks →
  zero_or_missing (get (<["Student Name" := VString "Bo"]>
                        (<["Total Marks" := num 0]>
                        (<["Marks Obtained" := num 40]> ∅))) key).
Proof.
  intros Hkey. simpl in Hkey.
  repeat (apply elem_of_cons in Hkey as [-> | Hkey]);
    [left; vm_compute; reflexivity | left; vm_compute; reflexivity
    | right; vm_compute; reflexivity | by apply elem_of_nil in Hkey].
Qed.

Lemma zero_or_missing_total_is_not_finite_witness :
  ∃ data row r,
    parsed Excel (buffer grades_sheet) = Returned data ∧
    data !! 1%nat = Some row ∧
    (∀ key, key ∈ spellings Total_Marks → zero_or_missing (get row key)) ∧
    processFile Excel (buffer grades_sheet) = Returned (row_mapper Excel <$> data) ∧
    (row_mapper Excel <$> data) !! 1%nat = Some r ∧
    is_finite (percentage r) = false.
Proof.
  eexists.
  destruct (zero_or_missing_total_is_not_finite xlsx_read sheet_to_json csv_parse
              Excel (buffer grades_sheet) _ eq_refl) as [Hreturned Hrows].
  eexists.
  destruct (Hrows 1%nat _ eq_refl bo_has_zero_total) as (r & Hr & Hnot_finite).
  exists r. split; [reflexivity |]. split; [reflexivity |].
  split; [exact bo_has_zero_total |]. split; [exact Hreturned |].
  split; [exact Hr | exact Hnot_finite].
Defined.

Lemma truthy_value_under_any_spelling_witness :
  "Marks Obtained" ∈ spellings Marks_Obtained ∧
  ToBoolean (num 80) = true ∧
  excel_row (supply Marks_Obtained "Marks Obtained" (num 80) alice_without_marks)
  = excel_row (supply Marks_Obtained "Marks_Obtained" (num 80) alice_without_marks).
Proof.
  assert (Hkey : "Marks Obtained" ∈ spellings Marks_Obtained)
    by (simpl; repeat first [apply list_elem_of_here | apply list_elem_of_further]).
  split; [exact Hkey |]. split; [reflexivity |].
  exact (proj2 (proj2 (truthy_value_under_any_spelling Excel Marks_Obtained
                         "Marks Obtained" (num 80) alice_without_marks Hkey eq_refl))).
Defined.

(** C5, the claim as stated fails: a zero under the spaced spelling is
    read as 0, the same zero under the canonical spelling is passed over
    and the marks come out as NaN. *)
Lemma zero_under_a_variant_differs_from_canonical :
  "Marks Obtained" ∈ spellings Marks_Obtained ∧
  excel_row (supply Marks_Obtained "Marks Obtained" (num 0) alice_without_marks)
  ≠ excel_row (supply Marks_Obtained (canonical Marks_Obtained) (num 0) alice_without_marks).
Proof.
  split; [simpl; repeat first [apply list_elem_of_here | apply list_elem_of_further] |].
  intros Heq. apply (f_equal marks_obtained) in Heq. vm_compute in Heq. discriminate Heq.
Qed.

Lemma no_truthy_spelling_takes_the_last_witness :
  text_of Student_ID (csv_row ∅) = Some "undefined" ∧
  (∀ key, key ∈ spellings Student_ID → ToBoolean (get ∅ key) = false) ∧
  "undefined" = String_ (get ∅ (last_spelling Student_ID)).
Proof.
  assert (Hfalsy : ∀ key, key ∈ spellings Student_ID →
            ToBoolean (get (∅ : gmap string value) key) = false).
  { intros key _. unfold get. by rewrite lookup_empty. }
  split; [reflexivity |]. split; [exact Hfalsy |].
  exact (proj1 (no_truthy_spelling_takes_the_last CSV Student_ID ∅ "undefined"
                  eq_refl Hfalsy)).
Defined.

(** C10, the claim as stated fails: an empty cell under the header
    'Student ID' is no truthy value, and the record's student_id is the
    empty text, not "undefined". *)
Lemma empty_cell_is_not_undefined :
  (∀ key, key ∈ spellings Student_ID → ToBoolean (get empty_identifier key) = false) ∧
  student_id (csv_row empty_identifier) ≠ "undefined" ∧
  student_id (csv_row empty_identifier) = "".
Proof.
  split; [| split; [by vm_compute | by vm_compute]].
  intros key Hkey. simpl in Hkey.
  repeat (apply elem_of_cons in Hkey as [-> | Hkey]);
    [by vm_compute .. | by apply elem_of_nil in Hkey].
Qed.

Lemma upload_replaces_all_students_witness :
  ids_below one_student ∧
  ∃ resp d',
    upload connected (Some grades_csv) one_student = (Returned resp, d') ∧
    Server.status resp = 200 ∧
    ∃ f studentsData,
      Some grades_csv = Some f ∧
      normalized f = Returned studentsData ∧
      json resp = UploadedBody "File uploaded successfully"
                    (Z.of_nat (length studentsData)) studentsData ∧
      fields <$> students d' = student_object <$> studentsData ∧
      (∀ s, s ∈ students d' → s ∉ students one_student) ∧
      (∀ E', readyState E' = 1 → fault E' StudentFind = None →
         ∃ listed,
           get_api_students E' d' = (Returned (res_json (StudentsBody listed)), d') ∧
           listed ≡ₚ students d' ∧
           length listed = length studentsData).
Proof.
  assert (Hids : ids_below one_student) by (repeat constructor).
  split; [exact Hids |].
  destruct (upload connected (Some grades_csv) one_student) as [[resp | error] d'] eqn:Hrun;
    [| vm_compute in Hrun; discriminate Hrun].
  assert (Hok : Server.status resp = 200).
  { vm_compute in Hrun. injection Hrun as <- _. reflexivity. }
  exists resp, d'. split; [reflexivity |]. split; [exact Hok |].
  exact (upload_replaces_all_students xlsx_read sheet_to_json csv_parse
           connected (Some grades_csv) one_student resp d' Hids Hrun Hok).
Defined.

(** No other student stands in the way of an update of the one student. *)
Lemma one_student_has_no_other id (key : string) other :
  other ∈ students one_student → _id other ≠ id →
  id = 0%N → index_key (fields other) ≠ key.
Proof.
  intros Hin Hne ->. apply list_elem_of_singleton in Hin as ->. by destruct Hne.
Qed.

Lemma update_stores_recomputed_percentage_witness :
  ∃ old,
    find_by_id 0 (students one_student) = Some old ∧
    fault connected StudentFindByIdAndUpdate = None ∧
    (∃ doc d',
       put_handler server_js connected 0 update_body one_student
       = (Returned (res_json (StudentBody (Some doc))), d') ∧
       find_by_id 0 (students d') = Some doc ∧
       fields doc !! "percentage"
       = Some (VNumber (percentage_of (ToNumber (get update_body "marks_obtained"))
                                      (ToNumber (get update_body "total_marks"))))) ∧
    (∃ doc d',
       put_handler older_server connected 0 update_body one_student
       = (Returned (res_json (StudentBody (Some doc))), d') ∧
       find_by_id 0 (students d') = Some doc ∧
       fields doc !! "percentage"
       = Some (VNumber (percentage_of (ToNumber (get update_body "marks_obtained"))
                                      (ToNumber (get update_body "total_marks"))))).
Proof.
  eexists.
  assert (Hold : find_by_id 0 (students one_student) = Some _) by reflexivity.
  split; [exact Hold |]. split; [reflexivity |].
  split.
  - exact (update_stores_recomputed_percentage server_js connected 0 update_body
             one_student _ Hold eq_refl
             (fun other Hin Hne => one_student_has_no_other 0 _ other Hin Hne eq_refl)).
  - exact (update_stores_recomputed_percentage older_server connected 0 update_body
             one_student _ Hold eq_refl
             (fun other Hin Hne => one_student_has_no_other 0 _ other Hin Hne eq_refl)).
Defined.

Lemma one_history_entry_unless_its_write_fails_witness :
  upload_single (Some grades_csv) = Returned (Some grades_csv) ∧
  ∃ resp d',
    upload connected (Some grades_csv) empty_db = (Returned resp, d') ∧
    (uploadhistories d' = uploadhistories empty_db ∨ ∃ h, appended empty_db d' h) ∧
    (Server.status resp = 200 →
       ∃ h studentsData,
         normalized grades_csv = Returned studentsData ∧ appended empty_db d' h ∧
         Mongo.status h = "success" ∧
         students_count h = Z.of_nat (length studentsData)) ∧
    (Server.status resp ≠ 200 →
       Server.status resp = 500 ∧
       match fault connected HistoryCreateOnError with
       | None => ∃ h, appended empty_db d' h ∧ Mongo.status h = "error" ∧ students_count h = 0
       | Some _ => uploadhistories d' = uploadhistories empty_db
       end) ∧
    (∀ o, (upload (with_fault connected HistoryCreateOnError o)
             (Some grades_csv) empty_db).1 = Returned resp).
Proof.
  split; [reflexivity |].
  exact (one_history_entry_unless_its_write_fails xlsx_read sheet_to_json csv_parse
           connected (Some grades_csv) grades_csv empty_db eq_refl).
Defined.

(** C4, the claim as stated fails: a file was received, the database is
    unreachable, the write of the error entry fails too and is swallowed:
    no history entry is appended. *)
Lemma no_history_entry_when_its_write_fails :
  upload_single (Some grades_csv) = Returned (Some grades_csv) ∧
  (upload disconnected (Some grades_csv) empty_db).1
  = Returned (res_status_json 500
      (ErrorBody "Failed to process file" (Some "Database not connected"))) ∧
  ¬ ∃ h, appended empty_db (upload disconnected (Some grades_csv) empty_db).2 h.
Proof.
  split; [reflexivity |]. split; [vm_compute; reflexivity |].
  intros [h Hh]. unfold appended in Hh. vm_compute in Hh. discriminate Hh.
Qed.

Lemma unsupported_type_answers_500_witness :
  array_includes allowedTypes (mimetype notes_pdf) = false ∧
  upload connected (Some notes_pdf) one_student
  = (Returned (res_status_json 500
       (ErrorBody "Internal server error"
          (Some "Invalid file type. Only Excel and CSV files allowed."))), one_student).
Proof.
  split; [reflexivity |].
  exact (unsupported_type_answers_500 xlsx_read sheet_to_json csv_parse
           connected notes_pdf one_student eq_refl).
Defined.

Lemma older_server_answers_200_for_unknown_id_witness :
  find_by_id 7 (students one_student) = None ∧
  fault connected StudentFindByIdAndDelete = None ∧
  fault connected StudentFindByIdAndUpdate = None ∧
  delete_handler older_server connected 7 one_student
  = (Returned (res_json (MessageBody "Student deleted successfully")), one_student) ∧
  put_handler older_server connected 7 update_body one_student
  = (Returned (res_json (StudentBody None)), one_student).
Proof.
  split; [reflexivity |]. split; [reflexivity |]. split; [reflexivity |].
  exact (older_server_answers_200_for_unknown_id connected 7 update_body one_student
           eq_refl eq_refl eq_refl).
Defined.

End Examples.

(* ===================================================================== *)
(** * More on the collections *)
(* ===================================================================== *)

Module StoreFacts.
Import JS Mongo Server Spec MongoFacts.

Lemma key_taken_app key ds s :
  key_taken key (ds ++ [s]) = key_taken key ds || String.eqb (index_key (fields s)) key.
Proof. unfold key_taken. rewrite existsb_app. simpl. by rewrite orb_false_r. Qed.

Lemma index_key_student s : index_key (student_object s) = student_id s.
Proof. unfold index_key, get, student_object. by rewrite lookup_insert_eq. Qed.

(** A bulk insert goes through exactly when the records carry pairwise
    different keys, none of them taken in the collection. *)
Lemma insert_ordered_returns_iff E records :
  ∀ d, (∃ d', insert_ordered E records d = (Returned (), d')) ↔
       NoDup (index_key <$> records) ∧
       Forall (fun r => key_taken (index_key r) (students d) = false) records.
Proof.
  induction records as [| r records IH]; intros d; simpl.
  - split; [intros _; split; constructor | eauto].
  - rewrite NoDup_cons, Forall_cons.
    destruct (key_taken (index_key r) (students d)) eqn:Htaken.
    + split; [intros [d' Hd']; discriminate | intros (_ & Hr & _); discriminate].
    + rewrite IH. simpl.
      assert (Hsplit :
        Forall (fun r' => key_taken (index_key r')
                  (students d ++
                   [ {| _id := next_id d; created_at := Some (now E); fields := r |} ])
                = false) records
        ↔ (index_key r ∉ index_key <$> records) ∧
          Forall (fun r' => key_taken (index_key r') (students d) = false) records).
      { rewrite !Forall_forall. split.
        - intros Hall. split.
          + intros Hin. apply list_elem_of_fmap in Hin as (r' & Heq & Hr').
            specialize (Hall r' Hr'). rewrite key_taken_app in Hall. simpl in Hall.
            apply orb_false_elim in Hall as [_ Hne].
            rewrite Heq, String.eqb_refl in Hne. discriminate.
          + intros r' Hr'. specialize (Hall r' Hr'). rewrite key_taken_app in Hall.
            by apply orb_false_elim in Hall as [? _].
        - intros [Hnotin Hall] r' Hr'. rewrite key_taken_app, (Hall r' Hr'). simpl.
          apply String.eqb_neq. intros Heq. apply Hnotin.
          rewrite Heq. apply list_elem_of_fmap. eauto. }
      rewrite Hsplit. tauto.
Qed.

(** However a bulk insert ends, what it appended is a prefix of the
    records, under identifiers not handed out before. *)
Lemma insert_ordered_prefix E records :
  ∀ d o d', insert_ordered E records d = (o, d') →
    ∃ docs, students d' = students d ++ docs ∧
            (fields <$> docs) `prefix_of` records ∧
            Forall (fun s => (next_id d <= _id s)%N) docs.
Proof.
  induction records as [| r records IH]; intros d o d' H; simpl in H.
  - injection H as _ <-. exists []. by rewrite app_nil_r.
  - destruct (key_taken _ _).
    { injection H as _ <-. exists []. rewrite app_nil_r.
      split; [done |]. split; [apply prefix_nil | constructor]. }
    apply IH in H as (docs & Hst & Hpre & Hid). simpl in *.
    eexists (_ :: docs). split; [by rewrite Hst, <- app_assoc |].
    split; [rewrite fmap_cons; by apply prefix_cons |].
    constructor; [simpl; lia |].
    eapply Forall_impl; [exact Hid |]. simpl. intros. lia.
Qed.

End StoreFacts.

(* ===================================================================== *)
(** * More on the upload route *)
(* ===================================================================== *)

Module UploadMore.
Import JS Mongo Server Spec Paths Notions MongoFacts NormalizerFacts UploadFacts StoreFacts.

(** The history entry of an accepted file names its type after the
    declared media type alone. *)
Lemma file_type_of_accepted f :
  array_includes allowedTypes (mimetype f) = true → file_type_of f = recorded_type f.
Proof.
  unfold array_includes, allowedTypes, file_type_of, recorded_type. simpl.
  destruct (String.eqb_spec (mimetype f)
              "application/vnd.openxmlformats-officedocument.spreadsheetml.sheet")
    as [-> | _]; [done |].
  destruct (String.eqb_spec (mimetype f) "text/csv") as [-> | _]; [done |].
  destruct (String.eqb_spec (mimetype f) "application/vnd.ms-excel") as [-> | _]; done.
Qed.

Section Parsers.
Context {worksheet : Type}.
Variable xlsx_read : list Byte.byte → outcome (@workbook worksheet).
Variable sheet_to_json : option worksheet → outcome (list (gmap string value)).
Variable Papa_parse : string → outcome (list (gmap string value)).

Local Abbreviation normalized := (normalized xlsx_read sheet_to_json Papa_parse).
Local Abbreviation upload_handler := (Server.upload_handler xlsx_read sheet_to_json Papa_parse).
Local Abbreviation post_api_upload := (Server.post_api_upload xlsx_read sheet_to_json Papa_parse).
Local Abbreviation received :=
  (upload_handler_received xlsx_read sheet_to_json Papa_parse).

Lemma students_insert_returns_iff E studentsData d :
  (∃ d', insert_ordered E (student_object <$> studentsData) (set_students [] d)
         = (Returned (), d')) ↔
  NoDup (student_id <$> studentsData).
Proof.
  rewrite insert_ordered_returns_iff. simpl.
  rewrite <- list_fmap_compose.
  assert (Hkeys : (index_key ∘ student_object) <$> studentsData = student_id <$> studentsData).
  { apply list_fmap_ext. intros i s _. apply index_key_student. }
  rewrite Hkeys. split; [by intros [? _] |].
  intros Hnodup. split; [done |]. by apply Forall_forall.
Qed.

(** X1. An upload request is answered 400 exactly when it carries no file
    part — with 'No file uploaded' and nothing changed; every other
    request is answered 200 or 500, and 'Unsupported file format' is never
    the answer. *)
Theorem upload_answers_400_only_without_file E part d resp d' :
  post_api_upload E part d = (Returned resp, d') →
  (Server.status resp = 400 ↔ part = None) ∧
  (part = None →
   resp = res_status_json 400 (ErrorBody "No file uploaded" None) ∧ d' = d) ∧
  (part ≠ None → Server.status resp = 200 ∨ Server.status resp = 500) ∧
  json resp ≠ ErrorBody "Unsupported file format" None.
Proof.
  intros Hrun. unfold post_api_upload, Server.post_api_upload in Hrun.
  destruct (upload_single part) as [[f |] | error] eqn:Hpart.
  - apply upload_single_received in Hpart as (-> & Hacc & _).
    rewrite (received E f d Hacc) in Hrun. unfold failure_path in Hrun.
    assert (Hcases : Server.status resp = 200 ∧ (∃ n l, json resp = UploadedBody
                       "File uploaded successfully" n l) ∨
                     Server.status resp = 500 ∧ ∃ e, json resp = ErrorBody
                       "Failed to process file" (Some e)).
    { destruct (normalized f); [| injection Hrun as <- _; eauto].
      destruct (readyState E =? 1); [| injection Hrun as <- _; eauto].
      destruct (fault E StudentDeleteMany); [injection Hrun as <- _; eauto |].
      destruct (fault E StudentInsertMany); [injection Hrun as <- _; eauto |].
      destruct (insert_ordered _ _ _) as [[[] |] ?]; [| injection Hrun as <- _; eauto].
      destruct (fault E HistoryCreateOnSuccess); injection Hrun as <- _; eauto 6. }
    split; [split; [| done] |].
    { intros H400. destruct Hcases as [[H _] | [H _]]; rewrite H in H400; discriminate. }
    split; [done |]. split; [intros _; tauto |].
    destruct Hcases as [[_ (n & l & ->)] | [_ (e & ->)]]; discriminate.
  - destruct part as [f |].
    { simpl in Hpart. destruct (fileFilter f); simpl in Hpart; [| done].
      by destruct (fileSize <? size f). }
    unfold Server.upload_handler, try_catch, ret in Hrun. injection Hrun as <- <-.
    split; [done |]. split; [done |]. split; [done | discriminate].
  - destruct part as [f |]; [| done].
    unfold error_middleware, ret in Hrun. injection Hrun as <- <-.
    split; [split; discriminate |]. split; [discriminate |].
    split; [by right | discriminate].
Qed.

(** X2. An upload is answered 200 exactly when the filter let the file
    through, the parse returned, the database is connected, none of the
    three driver calls on the way threw, and the normalized rows carry
    pairwise different student_id. *)
Theorem upload_succeeds_iff E part d resp d' :
  post_api_upload E part d = (Returned resp, d') →
  (Server.status resp = 200 ↔
   ∃ f studentsData,
     upload_single part = Returned (Some f) ∧
     normalized f = Returned studentsData ∧
     readyState E = 1 ∧
     fault E StudentDeleteMany = None ∧
     fault E StudentInsertMany = None ∧
     fault E HistoryCreateOnSuccess = None ∧
     NoDup (student_id <$> studentsData)).
Proof.
  intros Hrun. unfold post_api_upload, Server.post_api_upload in Hrun.
  destruct (upload_single part) as [[f |] | error] eqn:Hpart.
  - pose proof (upload_single_received _ _ Hpart) as (-> & Hacc & _).
    rewrite (received E f d Hacc) in Hrun. unfold failure_path in Hrun.
    destruct (normalized f) as [studentsData | error] eqn:Hnorm.
    2: { injection Hrun as <- _.
         split; [discriminate | intros (? & ? & [= <-] & ? & _); congruence]. }
    destruct (Z.eqb_spec (readyState E) 1) as [Hready | Hready].
    2: { injection Hrun as <- _.
         split; [discriminate | intros (? & ? & _ & _ & ? & _); done]. }
    destruct (fault E StudentDeleteMany) eqn:Hdel.
    { injection Hrun as <- _.
      split; [discriminate | intros (? & ? & _ & _ & _ & ? & _); done]. }
    destruct (fault E StudentInsertMany) eqn:Hins.
    { injection Hrun as <- _.
      split; [discriminate | intros (? & ? & _ & _ & _ & _ & ? & _); done]. }
    pose proof (students_insert_returns_iff E studentsData d) as Hiff.
    destruct (insert_ordered _ _ _) as [[[] | error] d1] eqn:Hinsert.
    2: { injection Hrun as <- _. split; [discriminate |].
         intros (g & data & [= <-] & Hdata & _ & _ & _ & _ & Hnodup).
         rewrite Hnorm in Hdata. injection Hdata as <-.
         apply Hiff in Hnodup as [? ?]. discriminate. }
    destruct (fault E HistoryCreateOnSuccess) eqn:Hhist.
    { injection Hrun as <- _.
      split; [discriminate | intros (? & ? & _ & _ & _ & _ & _ & ? & _); done]. }
    injection Hrun as <- _. split; [intros _ | done].
    exists f, studentsData. do 6 (split; [done |]). apply Hiff. eauto.
  - unfold Server.upload_handler, try_catch, ret in Hrun. injection Hrun as <- _.
    split; [discriminate | intros (? & ? & ? & _); discriminate].
  - unfold error_middleware, ret in Hrun. injection Hrun as <- _.
    split; [discriminate | intros (? & ? & ? & _); discriminate].
Qed.

(** X3. The replacement is not undone: once [deleteMany] went through,
    an upload that is answered 500 leaves none of the previous students,
    and what it leaves is a leading part of the new records. *)
Theorem failed_replacement_loses_the_previous_students
    E part f d studentsData resp d' :
  ids_below d →
  upload_single part = Returned (Some f) →
  normalized f = Returned studentsData →
  readyState E = 1 →
  fault E StudentDeleteMany = None →
  post_api_upload E part d = (Returned resp, d') →
  Server.status resp = 500 →
  (∀ s, s ∈ students d → s ∉ students d') ∧
  (fields <$> students d') `prefix_of` (student_object <$> studentsData).
Proof.
  intros Hids Hpart Hnorm Hready Hdel Hrun H500.
  pose proof (upload_single_received _ _ Hpart) as (_ & Hacc & _).
  rewrite (post_api_upload_received _ _ _ E part f d Hpart) in Hrun.
  rewrite (received E f d Hacc), Hnorm, Hready, Hdel in Hrun. simpl in Hrun.
  assert (Hfailure : ∀ error d0, students (failure_path E f error d0).2 = students d0).
  { intros error d0. unfold failure_path. simpl.
    by destruct (fault E HistoryCreateOnError). }
  assert (Hgoal : ∀ d1, (∃ docs, students d1 = docs ∧
                         (fields <$> docs) `prefix_of` (student_object <$> studentsData) ∧
                         Forall (fun s => (next_id d <= _id s)%N) docs) →
                        students d' = students d1 →
            (∀ s, s ∈ students d → s ∉ students d') ∧
            (fields <$> students d') `prefix_of` (student_object <$> studentsData)).
  { intros d1 (docs & Hst & Hpre & Hfresh) Heq. rewrite Heq, Hst. split; [| done].
    intros s Hold Hnew.
    rewrite Forall_forall in Hfresh. specialize (Hfresh s Hnew).
    unfold ids_below in Hids. rewrite Forall_forall in Hids.
    specialize (Hids s Hold). simpl in *. lia. }
  destruct (fault E StudentInsertMany).
  { apply (Hgoal (set_students [] d)).
    - exists []. split; [done |]. split; [apply prefix_nil | constructor].
    - pose proof (Hfailure s (set_students [] d)) as Hf.
      unfold failure_path in Hrun. injection Hrun as _ <-. exact Hf. }
  destruct (insert_ordered _ _ _) as [[[] | error] d1] eqn:Hinsert;
    apply insert_ordered_prefix in Hinsert as Hdocs; simpl in Hdocs.
  - destruct (fault E HistoryCreateOnSuccess).
    + apply (Hgoal d1); [exact Hdocs |].
      pose proof (Hfailure s d1) as Hf.
      unfold failure_path in Hrun. injection Hrun as _ <-. exact Hf.
    + injection Hrun as <- _. discriminate H500.
  - apply (Hgoal d1); [exact Hdocs |].
    pose proof (Hfailure error d1) as Hf.
    unfold failure_path in Hrun. injection Hrun as _ <-. exact Hf.
Qed.

(** X4. A failure before [deleteMany] went through — the parse threw, the
    database is not connected, or [deleteMany] itself threw — is answered
    500 with that failure's message as details and leaves every student
    where it was. *)
Theorem early_failure_keeps_the_students E part f d message :
  upload_single part = Returned (Some f) →
  normalized f = Thrown message ∨
  (∃ studentsData, normalized f = Returned studentsData ∧
     (readyState E ≠ 1 ∧ message = "Database not connected" ∨
      readyState E = 1 ∧ fault E StudentDeleteMany = Some message)) →
  ∃ d',
    post_api_upload E part d
    = (Returned (res_status_json 500
         (ErrorBody "Failed to process file" (Some message))), d') ∧
    students d' = students d.
Proof.
  intros Hpart Hcause.
  pose proof (upload_single_received _ _ Hpart) as (_ & Hacc & _).
  rewrite (post_api_upload_received _ _ _ E part f d Hpart), (received E f d Hacc).
  assert (Hfailure : ∀ d0, ∃ d',
            failure_path E f message d0
            = (Returned (res_status_json 500
                 (ErrorBody "Failed to process file" (Some message))), d') ∧
            students d' = students d0).
  { intros d0. unfold failure_path. eexists. split; [reflexivity |].
    by destruct (fault E HistoryCreateOnError). }
  destruct Hcause as [-> | (studentsData & -> & [[Hready ->] | [Hready Hdel]])].
  - apply Hfailure.
  - destruct (Z.eqb_spec (readyState E) 1); [done | apply Hfailure].
  - rewrite Hready, Hdel. apply Hfailure.
Qed.

(** X5. When only the write of the success entry fails, the answer is 500
    although the collection already holds all the new records. *)
Theorem history_failure_after_replacement E part f d studentsData message :
  upload_single part = Returned (Some f) →
  normalized f = Returned studentsData →
  NoDup (student_id <$> studentsData) →
  readyState E = 1 →
  fault E StudentDeleteMany = None →
  fault E StudentInsertMany = None →
  fault E HistoryCreateOnSuccess = Some message →
  ∃ d',
    post_api_upload E part d
    = (Returned (res_status_json 500
         (ErrorBody "Failed to process file" (Some message))), d') ∧
    fields <$> students d' = student_object <$> studentsData ∧
    (fault E HistoryCreateOnError = None →
     ∃ h, appended d d' h ∧ Mongo.status h = "error" ∧ students_count h = 0).
Proof.
  intros Hpart Hnorm Hnodup Hready Hdel Hins Hhist.
  pose proof (upload_single_received _ _ Hpart) as (_ & Hacc & _).
  rewrite (post_api_upload_received _ _ _ E part f d Hpart), (received E f d Hacc).
  rewrite Hnorm, Hready, Hdel, Hins. simpl.
  apply (students_insert_returns_iff E studentsData d) in Hnodup as [d1 Hinsert].
  rewrite Hinsert, Hhist.
  pose proof (insert_ordered_history _ _ _ _ _ Hinsert) as Hsame.
  apply insert_ordered_returned in Hinsert as (docs & Hst & Hfields & _).
  simpl in Hst, Hsame.
  unfold failure_path. eexists. split; [reflexivity |].
  destruct (fault E HistoryCreateOnError); simpl; rewrite Hst.
  - split; [done | done].
  - split; [done |]. intros _. unfold appended. simpl. rewrite Hsame. eauto.
Qed.

(** X6. Whatever history entry an upload appends carries the file's
    original name, the length of its buffer, the time of the request, and
    as file type 'CSV' for text/csv and 'Excel' for the two other accepted
    media types. *)
Theorem history_entry_describes_the_file E part f d resp d' h :
  upload_single part = Returned (Some f) →
  post_api_upload E part d = (Returned resp, d') →
  appended d d' h →
  filename h = originalname f ∧
  file_size h = Z.of_nat (length (buffer f)) ∧
  upload_date h = now E ∧
  file_type h = recorded_type f ∧
  (Mongo.status h = "success" ∨ Mongo.status h = "error").
Proof.
  intros Hpart Hrun Happ.
  pose proof (upload_single_received _ _ Hpart) as (_ & Hacc & _).
  rewrite (post_api_upload_received _ _ _ E part f d Hpart), (received E f d Hacc) in Hrun.
  unfold appended in Happ.
  assert (Hrecord : ∀ entry d0,
            uploadhistories d0 = uploadhistories d →
            d' = record_history E entry d0 →
            entry_filename entry = originalname f →
            entry_file_size entry = size f →
            entry_file_type entry = file_type_of f →
            entry_status entry = "success" ∨ entry_status entry = "error" →
            filename h = originalname f ∧
            file_size h = Z.of_nat (length (buffer f)) ∧
            upload_date h = now E ∧
            file_type h = recorded_type f ∧
            (Mongo.status h = "success" ∨ Mongo.status h = "error")).
  { intros entry d0 Hd0 -> Hname Hsize Htype Hstatus. simpl in Happ.
    rewrite Hd0 in Happ. apply app_inv_head in Happ. injection Happ as <-. simpl.
    by rewrite Hname, Hsize, Htype, file_type_of_accepted. }
  assert (Hfailure : ∀ error d0,
            uploadhistories d0 = uploadhistories d →
            failure_path E f error d0 = (Returned resp, d') →
            filename h = originalname f ∧
            file_size h = Z.of_nat (length (buffer f)) ∧
            upload_date h = now E ∧
            file_type h = recorded_type f ∧
            (Mongo.status h = "success" ∨ Mongo.status h = "error")).
  { intros error d0 Hd0. unfold failure_path.
    destruct (fault E HistoryCreateOnError); intros [= _ <-].
    - rewrite Hd0 in Happ. rewrite <- (app_nil_r (uploadhistories d)) in Happ at 1.
      apply app_inv_head in Happ. discriminate.
    - eapply (Hrecord (error_entry f)); eauto. }
  destruct (normalized f) as [studentsData |]; [| by eapply Hfailure].
  destruct (readyState E =? 1); [| by eapply Hfailure].
  destruct (fault E StudentDeleteMany); [by eapply Hfailure |].
  destruct (fault E StudentInsertMany); [by eapply (Hfailure _ (set_students [] d)) |].
  destruct (insert_ordered _ _ _) as [[[] | error] d1] eqn:Hinsert;
    apply insert_ordered_history in Hinsert; simpl in Hinsert;
    [| by eapply Hfailure].
  destruct (fault E HistoryCreateOnSuccess); [by eapply Hfailure |].
  injection Hrun as _ <-.
  eapply (Hrecord (success_entry f studentsData)); eauto.
Qed.

(** X7. A file of an accepted type that is larger than 5 MB does not
    reach the handler: the answer is 500 'Internal server error' with
    'File too large', and nothing is parsed, deleted or recorded. *)
Theorem oversized_file_is_refused E f d :
  array_includes allowedTypes (mimetype f) = true →
  5 * 1024 * 1024 < Z.of_nat (length (buffer f)) →
  post_api_upload E (Some f) d
  = (Returned (res_status_json 500
       (ErrorBody "Internal server error" (Some "File too large"))), d).
Proof.
  intros Hacc Hsize.
  unfold post_api_upload, Server.post_api_upload, upload_single, fileFilter.
  rewrite Hacc. simpl.
  destruct (Z.ltb_spec fileSize (size f)) as [_ | Hle]; [done |].
  unfold fileSize, size in Hle. lia.
Qed.

(** X8. An accepted file without rows is no error: the upload is answered
    200 with count 0, the collection is left empty, and a success entry
    with students_count 0 is recorded. *)
Theorem upload_without_rows_empties_the_collection E part f d :
  upload_single part = Returned (Some f) →
  normalized f = Returned [] →
  readyState E = 1 →
  fault E StudentDeleteMany = None →
  fault E StudentInsertMany = None →
  fault E HistoryCreateOnSuccess = None →
  ∃ d' h,
    post_api_upload E part d
    = (Returned (res_json (UploadedBody "File uploaded successfully" 0 [])), d') ∧
    students d' = [] ∧
    appended d d' h ∧ Mongo.status h = "success" ∧ students_count h = 0.
Proof.
  intros Hpart Hnorm Hready Hdel Hins Hhist.
  pose proof (upload_single_received _ _ Hpart) as (_ & Hacc & _).
  rewrite (post_api_upload_received _ _ _ E part f d Hpart), (received E f d Hacc).
  rewrite Hnorm, Hready, Hdel, Hins. simpl. rewrite Hhist.
  do 2 eexists. split; [reflexivity |]. unfold appended. simpl. eauto.
Qed.

End Parsers.

End UploadMore.

(* ===================================================================== *)
(** * The two list routes *)
(* ===================================================================== *)

Module ListFacts.
Import JS Mongo Server Spec Notions.

#[local] Instance newer_student_total : Total newer_student.
Proof.
  intros a b. unfold newer_student.
  destruct (created_at a), (created_at b); simpl; [lia | tauto ..].
Qed.

#[local] Instance newer_student_transitive : Transitive newer_student.
Proof.
  intros a b c. unfold newer_student.
  destruct (created_at a), (created_at b), (created_at c); simpl; first [lia | tauto].
Qed.

#[local] Instance newer_history_total : Total newer_history.
Proof. intros a b. unfold newer_history. lia. Qed.

#[local] Instance newer_history_transitive : Transitive newer_history.
Proof. intros a b c. unfold newer_history. lia. Qed.

Lemma StronglySorted_lookup {A} (R : relation A) l :
  StronglySorted R l →
  ∀ i j a b, (i < j)%nat → l !! i = Some a → l !! j = Some b → R a b.
Proof.
  induction 1 as [| x l Hsorted IH Hall]; intros i j a b Hij Hi Hj; [done |].
  destruct j as [| j]; [lia |]. destruct i as [| i]; simpl in *.
  - injection Hi as <-. rewrite Forall_forall in Hall.
    apply Hall. by eapply list_elem_of_lookup_2.
  - apply (IH i j); [lia | done | done].
Qed.

Lemma sorted_students_newest_first ds :
  newest_first created_at (merge_sort newer_student ds).
Proof.
  intros i j a b Hij Ha Hb.
  pose proof (StronglySorted_lookup newer_student _
                (StronglySorted_merge_sort newer_student ds) i j a b Hij Ha Hb) as Hnewer.
  unfold newer_student in Hnewer. unfold no_later, nullable_time_dated.
  destruct (created_at b), (created_at a); done.
Qed.

Lemma sorted_history_newest_first hs :
  newest_first upload_date (merge_sort newer_history hs).
Proof.
  intros i j a b Hij Ha Hb.
  apply (StronglySorted_lookup newer_history _
           (StronglySorted_merge_sort newer_history hs) i j a b Hij Ha Hb).
Qed.

(** X9. GET /api/students never writes and never throws. Without a
    connection it answers 500 'Database connection error' with the
    connection state; when the query throws, 500 'Failed to fetch
    students' with the message; otherwise 200 with all the students, each
    once, the most recently created first. *)
Theorem students_are_listed_newest_first E d :
  ∃ resp,
    get_api_students E d = (Returned resp, d) ∧
    (readyState E ≠ 1 →
     resp = res_status_json 500
              (ConnectionErrorBody "Database connection error" (readyState E))) ∧
    (∀ message, readyState E = 1 → fault E StudentFind = Some message →
     resp = res_status_json 500 (ErrorBody "Failed to fetch students" (Some message))) ∧
    (readyState E = 1 → fault E StudentFind = None →
     ∃ listed,
       resp = res_json (StudentsBody listed) ∧
       listed ≡ₚ students d ∧
       newest_first created_at listed).
Proof.
  unfold get_api_students, try_catch, mbind, M_bind, bind, mret, M_ret, ret,
    Student_find_sorted, await, throw.
  destruct (Z.eqb_spec (readyState E) 1) as [Hready | Hready]; simpl.
  - destruct (fault E StudentFind) as [error |]; eexists; (split; [reflexivity |]).
    + split; [done |]. split; [by intros message _ [= <-] | done].
    + split; [done |]. split; [done |]. intros _ _. eexists. split; [reflexivity |].
      split; [apply merge_sort_Permutation | apply sorted_students_newest_first].
  - eexists. split; [reflexivity |]. split; [done |]. split; done.
Qed.

(** X10. GET /api/upload-history never writes and never throws; when
    it answers 200 it lists the ten most recent entries, or all of them
    when there are fewer, the most recent first: every entry left out is
    no more recent than any entry listed. *)
Theorem upload_history_lists_the_ten_latest E d :
  ∃ resp,
    get_api_upload_history E d = (Returned resp, d) ∧
    (readyState E ≠ 1 →
     resp = res_status_json 500
              (ConnectionErrorBody "Database connection error" (readyState E))) ∧
    (∀ message, readyState E = 1 → fault E HistoryFind = Some message →
     resp = res_status_json 500
              (ErrorBody "Failed to fetch upload history" (Some message))) ∧
    (readyState E = 1 → fault E HistoryFind = None →
     ∃ listed left_out,
       resp = res_json (HistoryBody listed) ∧
       length listed = (10 `min` length (uploadhistories d))%nat ∧
       listed ++ left_out ≡ₚ uploadhistories d ∧
       newest_first upload_date listed ∧
       (∀ a b, a ∈ listed → b ∈ left_out → upload_date b ≤ upload_date a)).
Proof.
  unfold get_api_upload_history, try_catch, mbind, M_bind, bind, mret, M_ret, ret,
    UploadHistory_find_sorted_limit, await, throw.
  destruct (Z.eqb_spec (readyState E) 1) as [Hready | Hready]; simpl.
  - destruct (fault E HistoryFind) as [error |]; eexists; (split; [reflexivity |]).
    + split; [done |]. split; [by intros message _ [= <-] | done].
    + split; [done |]. split; [done |]. intros _ _.
      pose proof (sorted_history_newest_first (uploadhistories d)) as Hsorted.
      set (sorted := merge_sort newer_history (uploadhistories d)) in *.
      exists (take 10 sorted), (drop 10 sorted). split; [reflexivity |].
      split.
      { rewrite length_take. unfold sorted.
        by rewrite (Permutation_length (merge_sort_Permutation _ _)). }
      split; [rewrite take_drop; apply merge_sort_Permutation |].
      split.
      { intros i j a b Hij Ha Hb.
        apply lookup_take_Some in Ha as [Ha _]. apply lookup_take_Some in Hb as [Hb _].
        by apply (Hsorted i j). }
      intros a b Ha Hb.
      apply elem_of_take in Ha as (i & Ha & Hi).
      apply list_elem_of_lookup in Hb as [j Hb]. rewrite lookup_drop in Hb.
      apply (Hsorted i (10 + j)%nat a b); [lia | done | done].
  - eexists. split; [reflexivity |]. split; [done |]. split; done.
Qed.

End ListFacts.

(* ===================================================================== *)
(** * More on updates and deletions *)
(* ===================================================================== *)

Module CrudMore.
Import JS Mongo Server Spec Notions ToFixedFacts MongoFacts.

Lemma find_by_id_found id ds :
  (∃ s, s ∈ ds ∧ _id s = id) → is_Some (find_by_id id ds).
Proof.
  intros (s & Hin & Hid).
  destruct (find_by_id id ds) eqn:Hfind; [by eexists |].
  apply find_by_id_None in Hfind. rewrite Forall_forall in Hfind.
  by destruct (Hfind s Hin).
Qed.

Lemma find_by_id_absent id ds :
  Forall (fun s => _id s ≠ id) ds → find_by_id id ds = None.
Proof.
  intros Hall. unfold find_by_id.
  by rewrite (proj2 (list_find_None (fun s => _id s = id) ds) Hall).
Qed.

Lemma find_by_id_filtered id ds :
  find_by_id id (filter (fun s => _id s ≠ id) ds) = None.
Proof.
  apply find_by_id_absent, Forall_forall.
  intros s Hs. by apply list_elem_of_filter in Hs as [? _].
Qed.

Lemma key_taken_true key ds :
  key_taken key ds = true ↔ ∃ s, s ∈ ds ∧ index_key (fields s) = key.
Proof.
  unfold key_taken. induction ds as [| s ds IH]; simpl.
  - split; [done | intros (s & Hs & _); by apply elem_of_nil in Hs].
  - rewrite orb_true_iff, IH. split.
    + intros [Heq | (s' & Hin & Hkey)].
      * exists s. split; [apply list_elem_of_here | by apply String.eqb_eq].
      * exists s'. split; [by apply list_elem_of_further | done].
    + intros (s' & Hin & Hkey). apply elem_of_cons in Hin as [-> | Hin].
      * left. by apply String.eqb_eq.
      * right. eauto.
Qed.

(** Replacing the document under an identifier leaves the others as they
    are, and doing it again changes nothing. *)
Lemma filter_replaced id new (ds : list student_doc) :
  _id new = id →
  filter (fun s => _id s ≠ id) ((fun s => if decide (_id s = id) then new else s) <$> ds)
  = filter (fun s => _id s ≠ id) ds.
Proof.
  intros Hnew. induction ds as [| s ds IH]; [done |].
  rewrite fmap_cons, !filter_cons, IH.
  destruct (decide (_id s = id)) as [Hs | Hs].
  - rewrite decide_False by (intros H; by apply H).
    by rewrite decide_False by (intros H; by apply H).
  - by rewrite !decide_True.
Qed.

Lemma replaced_twice id new (ds : list student_doc) :
  _id new = id →
  (fun s => if decide (_id s = id) then new else s) <$>
    ((fun s => if decide (_id s = id) then new else s) <$> ds)
  = (fun s => if decide (_id s = id) then new else s) <$> ds.
Proof.
  intros Hnew. rewrite <- list_fmap_compose. apply list_fmap_ext.
  intros i s _. simpl. destruct (decide (_id s = id)); [by rewrite decide_True |].
  by rewrite decide_False.
Qed.

(** What a PUT that is answered 200 did. *)
Lemma put_answered_200 E id req_body d resp d' :
  Server.put_api_students E id req_body d = (Returned resp, d') →
  Server.status resp = 200 →
  ∃ old doc,
    find_by_id id (students d) = Some old ∧
    fault E StudentFindByIdAndUpdate = None ∧
    doc = {| _id := _id old;
             created_at := match req_body !! "created_at" with
                           | Some v => date_of E v
                           | None => created_at old
                           end;
             fields :=
               <["percentage" :=
                   VNumber (Number_ (VString (toFixed
                     (num_mul (num_div (ToNumber (get req_body "marks_obtained"))
                                       (ToNumber (get req_body "total_marks")))
                        hundred) 2)))]> req_body ∪ fields old |} ∧
    key_taken (index_key (fields doc))
      (filter (fun s => _id s ≠ id) (students d)) = false ∧
    resp = res_json (StudentBody (Some doc)) ∧
    d' = set_students ((fun s => if decide (_id s = id) then doc else s) <$> students d) d.
Proof.
  unfold Server.put_api_students, try_catch, mbind, M_bind, bind, mret, M_ret, ret,
    Student_findByIdAndUpdate, await, throw.
  destruct (fault E StudentFindByIdAndUpdate); [by intros [= <- _] |].
  destruct (find_by_id id (students d)) as [old |] eqn:Hold; [| by intros [= <- _]].
  destruct (key_taken _ _) eqn:Htaken; [by intros [= <- _] |].
  intros [= <- <-] _. exists old. eexists. do 2 (split; [reflexivity |]).
  split; [| split; [| split; reflexivity]].
  - by rewrite lookup_insert_ne.
  - exact Htaken.
Qed.

(** X11. A PUT that is answered 200 touches one document only: the
    document keeps its identifier, every field the body does not name
    (percentage apart) and, unless the body names created_at, its
    creation time — which otherwise becomes what the schema's Date type
    makes of the value named; every other document stays where it was,
    and no history entry is written. *)
Theorem update_leaves_the_rest_alone E id req_body d resp d' :
  Server.put_api_students E id req_body d = (Returned resp, d') →
  Server.status resp = 200 →
  ∃ old doc,
    find_by_id id (students d) = Some old ∧
    json resp = StudentBody (Some doc) ∧
    _id doc = id ∧
    (req_body !! "created_at" = None → created_at doc = created_at old) ∧
    (∀ v, req_body !! "created_at" = Some v → created_at doc = date_of E v) ∧
    (∀ key, key ≠ "percentage" → req_body !! key = None →
            fields doc !! key = fields old !! key) ∧
    length (students d') = length (students d) ∧
    (∀ i s, students d !! i = Some s → _id s ≠ id → students d' !! i = Some s) ∧
    uploadhistories d' = uploadhistories d.
Proof.
  intros Hrun H200.
  destruct (put_answered_200 _ _ _ _ _ _ Hrun H200)
    as (old & doc & Hold & _ & Hdoc & _ & -> & ->).
  exists old, doc. split; [done |]. split; [done |].
  pose proof (find_by_id_Some _ _ _ Hold) as [Hid _].
  split; [by rewrite Hdoc |].
  split; [intros Hnone; rewrite Hdoc; simpl; by rewrite Hnone |].
  split; [intros v Hsome; rewrite Hdoc; simpl; by rewrite Hsome |].
  split.
  { intros key Hkey Hnone. rewrite Hdoc. simpl.
    apply lookup_union_r. by rewrite lookup_insert_ne. }
  split; [simpl; apply length_fmap |].
  split; [| done].
  intros i s Hs Hne. simpl. rewrite list_lookup_fmap, Hs. simpl.
  by rewrite decide_False.
Qed.

(** X12. A PUT is idempotent: sent again after it was answered 200, the
    same request gets the same answer and leaves the collection as the
    first one left it. *)
Theorem update_twice_is_update_once E id req_body d resp d' :
  Server.put_api_students E id req_body d = (Returned resp, d') →
  Server.status resp = 200 →
  Server.put_api_students E id req_body d' = (Returned resp, d').
Proof.
  intros Hrun H200.
  destruct (put_answered_200 _ _ _ _ _ _ Hrun H200)
    as (old & doc & Hold & Hfault & Hdoc & Htaken & -> & ->).
  pose proof (find_by_id_Some _ _ _ Hold) as [Hid _].
  assert (Hdoc_id : _id doc = id) by by rewrite Hdoc.
  unfold Server.put_api_students, try_catch, mbind, M_bind, bind, mret, M_ret, ret,
    Student_findByIdAndUpdate, await, throw.
  rewrite Hfault. simpl.
  rewrite (find_by_id_replaced id doc (students d) Hdoc_id) by by rewrite Hold.
  assert (Hfields : ∀ update, fields doc = update ∪ fields old →
                      update ∪ fields doc = fields doc).
  { intros update ->. by rewrite (assoc_L (∪)), (idemp_L (∪)). }
  assert (Heta : Build_student_doc (_id doc) (created_at doc) (fields doc) = doc)
    by by destruct doc.
  assert (Hcreated : ∀ p : value,
            match <["percentage" := p]> req_body !! "created_at" with
            | Some v => date_of E v
            | None => created_at doc
            end = created_at doc).
  { intros p. rewrite lookup_insert_ne by done. rewrite Hdoc. simpl.
    by destruct (req_body !! "created_at"). }
  rewrite !Hfields by by rewrite Hdoc.
  rewrite !Hcreated, Heta, filter_replaced, Htaken by done.
  unfold set_students. simpl. by rewrite replaced_twice.
Qed.

(** X13. A PUT that would give a student the student_id of another
    document is refused by the unique index: the answer is 500 'Failed to
    update student' and nothing is changed. *)
Theorem update_to_a_taken_student_id_is_refused E id req_body d other v :
  fault E StudentFindByIdAndUpdate = None →
  (∃ s, s ∈ students d ∧ _id s = id) →
  other ∈ students d →
  _id other ≠ id →
  req_body !! "student_id" = Some v →
  ToString (get (fields other) "student_id") = ToString v →
  ∃ details,
    Server.put_api_students E id req_body d
    = (Returned (res_status_json 500
         (ErrorBody "Failed to update student" (Some details))), d).
Proof.
  intros Hfault Hfound Hother Hne Hbody Hsame.
  apply find_by_id_found in Hfound as [old Hold].
  unfold Server.put_api_students, try_catch, mbind, M_bind, bind, mret, M_ret, ret,
    Student_findByIdAndUpdate, await, throw.
  rewrite Hfault, Hold. simpl.
  assert (Htaken : ∀ update : gmap string value,
            update !! "student_id" = Some v →
            key_taken (index_key (update ∪ fields old))
              (filter (fun s => _id s ≠ id) (students d)) = true).
  { intros update Hupdate. apply key_taken_true. exists other.
    split; [by apply list_elem_of_filter |].
    unfold index_key. rewrite Hsame. f_equal. unfold get.
    by rewrite (lookup_union_Some_l _ (fields old) "student_id" v). }
  rewrite Htaken by by rewrite lookup_insert_ne.
  by eexists.
Qed.

(** X14. A DELETE for a stored identifier is answered 200 and removes the
    document under it and no other: the remaining documents keep their
    order, no history entry is written, and the same DELETE sent again is
    answered 404 and changes nothing. *)
Theorem delete_removes_that_student_only E id d :
  (∃ s, s ∈ students d ∧ _id s = id) →
  fault E StudentFindByIdAndDelete = None →
  ∃ d',
    delete_api_students E id d
    = (Returned (res_json (MessageBody "Student deleted successfully")), d') ∧
    (∀ s, s ∈ students d' ↔ s ∈ students d ∧ _id s ≠ id) ∧
    students d' `sublist_of` students d ∧
    uploadhistories d' = uploadhistories d ∧
    delete_api_students E id d'
    = (Returned (res_status_json 404 (ErrorBody "Student not found" None)), d').
Proof.
  intros Hfound Hfault.
  apply find_by_id_found in Hfound as [old Hold].
  unfold delete_api_students, try_catch, mbind, M_bind, bind, mret, M_ret, ret,
    Student_findByIdAndDelete, await, throw.
  rewrite Hfault, Hold. simpl. eexists. split; [reflexivity |]. simpl.
  split; [intros s; rewrite list_elem_of_filter; tauto |].
  split; [apply sublist_filter |]. split; [done |].
  by rewrite find_by_id_filtered.
Qed.

(** X15. PUT and DELETE never throw; they answer 200, 404 or 500, 404
    exactly when the driver call returned and no document has the
    identifier, and unless the answer is 200 the collection is left as it
    was. Neither writes a history entry. *)
Theorem only_a_200_changes_the_collection E id req_body d :
  (∃ resp d',
     Server.put_api_students E id req_body d = (Returned resp, d') ∧
     (Server.status resp = 200 ∨ Server.status resp = 404 ∨ Server.status resp = 500) ∧
     (Server.status resp = 404 ↔
      fault E StudentFindByIdAndUpdate = None ∧ find_by_id id (students d) = None) ∧
     (Server.status resp ≠ 200 → d' = d) ∧
     uploadhistories d' = uploadhistories d) ∧
  (∃ resp d',
     delete_api_students E id d = (Returned resp, d') ∧
     (Server.status resp = 200 ∨ Server.status resp = 404 ∨ Server.status resp = 500) ∧
     (Server.status resp = 404 ↔
      fault E StudentFindByIdAndDelete = None ∧ find_by_id id (students d) = None) ∧
     (Server.status resp ≠ 200 → d' = d) ∧
     uploadhistories d' = uploadhistories d).
Proof.
  split.
  - unfold Server.put_api_students, try_catch, mbind, M_bind, bind, mret, M_ret, ret,
      Student_findByIdAndUpdate, await, throw.
    destruct (fault E StudentFindByIdAndUpdate).
    { do 2 eexists. split; [reflexivity |]. simpl.
      split; [tauto |]. split; [split; [done | by intros [? _]] | done]. }
    destruct (find_by_id id (students d)) as [old |].
    2: { do 2 eexists. split; [reflexivity |]. simpl.
         split; [tauto |]. split; [done | done]. }
    destruct (key_taken _ _); do 2 eexists; (split; [reflexivity |]); simpl;
      (split; [tauto |]); (split; [split; [done | by intros [_ ?]] | done]).
  - unfold delete_api_students, try_catch, mbind, M_bind, bind, mret, M_ret, ret,
      Student_findByIdAndDelete, await, throw.
    destruct (fault E StudentFindByIdAndDelete).
    { do 2 eexists. split; [reflexivity |]. simpl.
      split; [tauto |]. split; [split; [done | by intros [? _]] | done]. }
    destruct (find_by_id id (students d)) as [old |];
      do 2 eexists; (split; [reflexivity |]); simpl; (split; [tauto |]).
    + split; [split; [done | by intros [_ ?]] | done].
    + split; [done | done].
Qed.

End CrudMore.

(* ===================================================================== *)
(** * More on the row mappers *)
(* ===================================================================== *)

Module NormalizerMore.
Import JS Mongo Server Spec Paths Notions ToFixedFacts NormalizerFacts.

Lemma percentage_of_nan m t :
  is_nan m = true ∨ is_nan t = true → is_nan (percentage_of m t) = true.
Proof.
  unfold percentage_of. rewrite hundred_finite.
  intros [Hm | Ht].
  - destruct m; try discriminate Hm. reflexivity.
  - destruct t; try discriminate Ht. destruct m; reflexivity.
Qed.

(** X16. In the record a row mapper builds, a numeric field none of
    whose three spellings holds a truthy value is Number(...) of the cell
    under the spaced spelling; when the row has no such column, the field
    is NaN and so is the record's percentage — on the Excel path and on
    the CSV path alike. *)
Theorem number_without_truthy_spelling_takes_the_last p f row x :
  number_of f (row_mapper p row) = Some x →
  (∀ key, key ∈ spellings f → ToBoolean (get row key) = false) →
  x = Number_ (get row (last_spelling f)) ∧
  (row !! last_spelling f = None →
   is_nan x = true ∧ is_nan (percentage (row_mapper p row)) = true).
Proof.
  rewrite row_mapper_normalize. intros Hx Hfalsy.
  pose proof (resolve_all_falsy f row Hfalsy) as Hres.
  assert (Hread : x = Number_ (get row (last_spelling f))).
  { destruct f; try discriminate Hx; injection Hx as <-; simpl; by rewrite Hres. }
  split; [exact Hread |]. intros Hlast.
  assert (Hnan : is_nan x = true).
  { rewrite Hread. unfold get. by rewrite Hlast. }
  split; [exact Hnan |].
  rewrite normalize_percentage. apply percentage_of_nan.
  destruct f; try discriminate Hx; injection Hx as <-; [by right | by left].
Qed.

End NormalizerMore.

(* ===================================================================== *)
(** * The older server file *)
(* ===================================================================== *)

Module OlderFacts.
Import JS Mongo Server Spec Notions MongoFacts.

Lemma or_truthy a b c : ToBoolean (a ||| b) = true → a ||| b ||| c = a ||| b.
Proof. intros H. unfold JS.or at 1. by rewrite H. Qed.

Lemma older_pair_truthy row f k1 k2 :
  take 2 (spellings f) = [k1; k2] →
  (∃ key, key ∈ take 2 (spellings f) ∧ ToBoolean (get row key) = true) →
  ToBoolean (get row k1 ||| get row k2) = true.
Proof.
  intros -> (key & Hkey & Htruthy). unfold JS.or.
  destruct (ToBoolean (get row k1)) eqn:H1; [done |].
  apply elem_of_cons in Hkey as [-> | Hkey]; [congruence |].
  apply elem_of_cons in Hkey as [-> | Hkey]; [done |].
  by apply elem_of_nil in Hkey.
Qed.

(** X17. On a row that holds a truthy value for every field under one
    of the two spellings the older file knows, the row mappers of the two
    files build the same record, up to the String(...) that
    [src/server.js] applies to the two text fields. *)
Theorem older_mapper_agrees_on_older_spellings row :
  older_spellings_suffice row →
  stringified (Older.excel_row row) = Server.excel_row row ∧
  stringified (Older.csv_row row) = Server.csv_row row.
Proof.
  intros Hall.
  pose proof (older_pair_truthy row Student_ID _ _ eq_refl (Hall Student_ID)) as Hid.
  pose proof (older_pair_truthy row Student_Name _ _ eq_refl (Hall Student_Name)) as Hname.
  pose proof (older_pair_truthy row Total_Marks _ _ eq_refl (Hall Total_Marks)) as Htotal.
  pose proof (older_pair_truthy row Marks_Obtained _ _ eq_refl (Hall Marks_Obtained)) as Hmarks.
  unfold stringified, Older.excel_row, Older.csv_row, Server.excel_row, Server.csv_row.
  cbn [Older.student_id Older.student_name Older.total_marks Older.marks_obtained
       Older.percentage].
  rewrite (or_truthy _ _ _ Hid), (or_truthy _ _ _ Hname),
    (or_truthy _ _ _ Htotal), (or_truthy _ _ _ Hmarks).
  split; reflexivity.
Qed.

(** X18. The PUT and DELETE routes of the older file change the
    collections exactly as those of [src/server.js] do; the two files
    differ in the answer only, and not when [src/server.js] answers 200. *)
Theorem older_put_and_delete_change_the_same E id req_body d :
  (Legacy.put_api_students E id req_body d).2
  = (Server.put_api_students E id req_body d).2 ∧
  (Legacy.delete_api_students E id d).2 = (Server.delete_api_students E id d).2 ∧
  (∀ resp, (Server.put_api_students E id req_body d).1 = Returned resp →
           Server.status resp = 200 →
           (Legacy.put_api_students E id req_body d).1 = Returned resp) ∧
  (∀ resp, (Server.delete_api_students E id d).1 = Returned resp →
           Server.status resp = 200 →
           (Legacy.delete_api_students E id d).1 = Returned resp).
Proof.
  unfold Legacy.put_api_students, Legacy.delete_api_students,
    Server.put_api_students, Server.delete_api_students,
    try_catch, mbind, M_bind, bind, mret, M_ret, ret,
    Student_findByIdAndUpdate, Student_findByIdAndDelete, await, throw.
  split; [| split; [| split]].
  - destruct (fault E StudentFindByIdAndUpdate); [done |].
    destruct (find_by_id id (students d)); [| done]. by destruct (key_taken _ _).
  - destruct (fault E StudentFindByIdAndDelete); [done |].
    by destruct (find_by_id id (students d)).
  - intros resp. destruct (fault E StudentFindByIdAndUpdate); [by intros [= <-] |].
    destruct (find_by_id id (students d)); [| by intros [= <-]].
    destruct (key_taken _ _); [by intros [= <-] | done].
  - intros resp. destruct (fault E StudentFindByIdAndDelete); [by intros [= <-] |].
    destruct (find_by_id id (students d)); [done | by intros [= <-]].
Qed.

Section Parsers.
Context {worksheet : Type}.
Variable xlsx_read : list Byte.byte → outcome (@workbook worksheet).
Variable sheet_to_json : option worksheet → outcome (list (gmap string value)).
Variable Papa_parse : string → outcome (list (gmap string value)).

Local Abbreviation older_upload := (Older.post_api_upload xlsx_read sheet_to_json Papa_parse).





End Parsers.

End OlderFacts.

(* ===================================================================== *)
(** * What every sequence of requests keeps *)
(* ===================================================================== *)

Module InvariantFacts.
Import JS Mongo Server Spec Paths Notions MongoFacts UploadFacts CrudFacts StoreFacts CrudMore.

Lemma key_taken_false key ds :
  key_taken key ds = false ↔ key ∉ (fun s => index_key (fields s)) <$> ds.
Proof.
  rewrite <- not_true_iff_false, key_taken_true. split.
  - intros Hno Hin. apply list_elem_of_fmap in Hin as (s & -> & Hs). apply Hno. eauto.
  - intros Hnot (s & Hs & <-). apply Hnot. apply list_elem_of_fmap. eauto.
Qed.

Lemma insert_ordered_unique E records :
  ∀ d o d', ids_below d → unique_students d →
    insert_ordered E records d = (o, d') → unique_students d'.
Proof.
  induction records as [| r records IH]; intros d o d' Hids Huniq H; simpl in H.
  - by injection H as _ <-.
  - destruct (key_taken _ _) eqn:Htaken; [by injection H as _ <- |].
    eapply IH in H; [done | |].
    + unfold ids_below. simpl. apply Forall_app. split.
      * eapply Forall_impl; [exact Hids |]. simpl. intros. lia.
      * repeat constructor. simpl. lia.
    + destruct Huniq as [Hid Hkey]. unfold unique_students. simpl.
      rewrite !fmap_app. simpl.
      split; apply NoDup_app; (split; [done |]); (split; [| apply NoDup_singleton]).
      * intros x Hx Hin. apply list_elem_of_singleton in Hin as ->.
        apply list_elem_of_fmap in Hx as (s & Heq & Hs).
        unfold ids_below in Hids. rewrite Forall_forall in Hids.
        specialize (Hids s Hs). simpl in Hids. lia.
      * intros x Hx Hin. apply list_elem_of_singleton in Hin as ->.
        by apply key_taken_false in Htaken.
Qed.

Lemma untouched id new (ds : list student_doc) :
  id ∉ _id <$> ds →
  (fun s => if decide (_id s = id) then new else s) <$> ds = ds ∧
  filter (fun s => _id s ≠ id) ds = ds.
Proof.
  induction ds as [| s ds IH]; [done |].
  rewrite fmap_cons, not_elem_of_cons. intros [Hne Hnotin].
  destruct (IH Hnotin) as [Hmap Hfilter].
  rewrite fmap_cons, filter_cons, Hmap, Hfilter.
  rewrite decide_False by done. by rewrite decide_True by done.
Qed.

Lemma replaced_unique id new (ds : list student_doc) :
  _id new = id →
  NoDup (_id <$> ds) →
  NoDup ((fun s => index_key (fields s)) <$> ds) →
  key_taken (index_key (fields new)) (filter (fun s => _id s ≠ id) ds) = false →
  NoDup (_id <$> ((fun s => if decide (_id s = id) then new else s) <$> ds)) ∧
  NoDup ((fun s => index_key (fields s)) <$>
           ((fun s => if decide (_id s = id) then new else s) <$> ds)).
Proof.
  intros Hnew Hids Hkeys Htaken. split.
  { rewrite <- list_fmap_compose.
    erewrite list_fmap_ext; [exact Hids |].
    intros i s _. simpl. by destruct (decide (_id s = id)); [rewrite Hnew |]. }
  apply key_taken_false in Htaken.
  induction ds as [| s ds IH]; [constructor |].
  rewrite fmap_cons in Hids. rewrite (fmap_cons (fun s => index_key (fields s))) in Hkeys.
  apply NoDup_cons in Hids as [Hid Hids].
  apply NoDup_cons in Hkeys as [Hkey Hkeys].
  rewrite filter_cons in Htaken. rewrite !fmap_cons.
  destruct (decide (_id s = id)) as [Hs | Hs].
  - rewrite decide_False in Htaken by (intros H; by apply H).
    rewrite Hs in Hid. destruct (untouched id new ds Hid) as [Hmap Hfilter].
    rewrite Hmap. rewrite Hfilter in Htaken. by apply NoDup_cons.
  - rewrite decide_True in Htaken by done.
    rewrite fmap_cons, not_elem_of_cons in Htaken. destruct Htaken as [Hne Htaken].
    apply NoDup_cons. split; [| by apply IH].
    intros Hin. apply list_elem_of_fmap in Hin as (s' & Heq & Hs').
    apply list_elem_of_fmap in Hs' as (s'' & -> & Hs'').
    destruct (decide (_id s'' = id)); [by rewrite Heq in Hne |].
    apply Hkey. rewrite Heq. apply list_elem_of_fmap. eauto.
Qed.

Lemma get_api_students_state E d : (get_api_students E d).2 = d.
Proof.
  unfold get_api_students, try_catch, mbind, M_bind, bind, mret, M_ret, ret,
    Student_find_sorted, await, throw.
  destruct (readyState E =? 1); [| done]. simpl. by destruct (fault E StudentFind).
Qed.

Lemma get_api_upload_history_state E d : (get_api_upload_history E d).2 = d.
Proof.
  unfold get_api_upload_history, try_catch, mbind, M_bind, bind, mret, M_ret, ret,
    UploadHistory_find_sorted_limit, await, throw.
  destruct (readyState E =? 1); [| done]. simpl. by destruct (fault E HistoryFind).
Qed.

Lemma put_keeps_unique E id req_body d :
  unique_students d → unique_students (Server.put_api_students E id req_body d).2.
Proof.
  intros [Hids Hkeys].
  unfold Server.put_api_students, try_catch, mbind, M_bind, bind, mret, M_ret, ret,
    Student_findByIdAndUpdate, await, throw.
  destruct (fault E StudentFindByIdAndUpdate); [done |].
  destruct (find_by_id id (students d)) as [old |] eqn:Hold; [| done].
  destruct (key_taken _ _) eqn:Htaken; [done |]. simpl.
  apply find_by_id_Some in Hold as [Hid _].
  by apply replaced_unique.
Qed.

Lemma delete_keeps_unique E id d :
  unique_students d → unique_students (delete_api_students E id d).2.
Proof.
  intros [Hids Hkeys].
  unfold delete_api_students, try_catch, mbind, M_bind, bind, mret, M_ret, ret,
    Student_findByIdAndDelete, await, throw.
  destruct (fault E StudentFindByIdAndDelete); [done |].
  destruct (find_by_id id (students d)) as [old |]; [| done]. simpl.
  split; simpl; (eapply sublist_NoDup; [eassumption |]);
    apply fmap_sublist, sublist_filter.
Qed.

Lemma put_delete_history E id req_body d :
  uploadhistories (Server.put_api_students E id req_body d).2 = uploadhistories d ∧
  uploadhistories (delete_api_students E id d).2 = uploadhistories d.
Proof.
  unfold Server.put_api_students, delete_api_students, try_catch, mbind, M_bind, bind,
    mret, M_ret, ret, Student_findByIdAndUpdate, Student_findByIdAndDelete, await, throw.
  split.
  - destruct (fault E StudentFindByIdAndUpdate); [done |].
    destruct (find_by_id id (students d)); [| done]. by destruct (key_taken _ _).
  - destruct (fault E StudentFindByIdAndDelete); [done |].
    by destruct (find_by_id id (students d)).
Qed.

Section Parsers.
Context {worksheet : Type}.
Variable xlsx_read : list Byte.byte → outcome (@workbook worksheet).
Variable sheet_to_json : option worksheet → outcome (list (gmap string value)).
Variable Papa_parse : string → outcome (list (gmap string value)).

Local Abbreviation normalized := (normalized xlsx_read sheet_to_json Papa_parse).
Local Abbreviation post_api_upload := (Server.post_api_upload xlsx_read sheet_to_json Papa_parse).
Local Abbreviation route := (route xlsx_read sheet_to_json Papa_parse).
Local Abbreviation serve := (serve xlsx_read sheet_to_json Papa_parse).

Lemma upload_keeps_unique E part d :
  unique_students d → unique_students (post_api_upload E part d).2.
Proof.
  intros Hd. unfold post_api_upload, Server.post_api_upload.
  destruct (upload_single part) as [[f |] | error] eqn:Hpart; [| done | done].
  apply upload_single_received in Hpart as (_ & Hacc & _).
  rewrite (upload_handler_received xlsx_read sheet_to_json Papa_parse E f d Hacc).
  assert (Hfailure : ∀ error d0,
            unique_students d0 → unique_students (failure_path E f error d0).2).
  { intros error d0 Hd0. unfold failure_path. simpl.
    by destruct (fault E HistoryCreateOnError). }
  assert (Hempty : unique_students (set_students [] d)) by (split; constructor).
  assert (Hbelow : ids_below (set_students [] d)) by constructor.
  destruct (normalized f); [| by apply Hfailure].
  destruct (readyState E =? 1); [| by apply Hfailure].
  destruct (fault E StudentDeleteMany); [by apply Hfailure |].
  destruct (fault E StudentInsertMany); [by apply Hfailure |].
  destruct (insert_ordered _ _ _) as [[[] | error] d1] eqn:Hinsert;
    apply (insert_ordered_unique _ _ _ _ _ Hbelow Hempty) in Hinsert;
    [| by apply Hfailure].
  destruct (fault E HistoryCreateOnSuccess); [by apply Hfailure | done].
Qed.

Lemma upload_history_grows E part d :
  ∃ hs, uploadhistories (post_api_upload E part d).2 = uploadhistories d ++ hs ∧
        (length hs ≤ 1)%nat.
Proof.
  unfold post_api_upload, Server.post_api_upload.
  destruct (upload_single part) as [[f |] | error] eqn:Hpart;
    [| exists []; rewrite app_nil_r; split; [done | simpl; lia]
     | exists []; rewrite app_nil_r; split; [done | simpl; lia]].
  apply upload_single_received in Hpart as (_ & Hacc & _).
  rewrite (upload_handler_received xlsx_read sheet_to_json Papa_parse E f d Hacc).
  assert (Hfailure : ∀ error d0,
            uploadhistories d0 = uploadhistories d →
            ∃ hs, uploadhistories (failure_path E f error d0).2 = uploadhistories d ++ hs ∧
                  (length hs ≤ 1)%nat).
  { intros error d0 Hd0. unfold failure_path. simpl.
    destruct (fault E HistoryCreateOnError); simpl; rewrite Hd0.
    - exists []. rewrite app_nil_r. split; [done | simpl; lia].
    - eexists [_]. split; [reflexivity | done]. }
  destruct (normalized f); [| by apply Hfailure].
  destruct (readyState E =? 1); [| by apply Hfailure].
  destruct (fault E StudentDeleteMany); [by apply Hfailure |].
  destruct (fault E StudentInsertMany); [by apply (Hfailure _ (set_students [] d)) |].
  destruct (insert_ordered _ _ _) as [[[] | error] d1] eqn:Hinsert;
    apply insert_ordered_history in Hinsert; simpl in Hinsert;
    [| by apply Hfailure].
  destruct (fault E HistoryCreateOnSuccess); [by apply Hfailure |].
  simpl. rewrite Hinsert. eexists [_]. split; [reflexivity | done].
Qed.

Lemma route_keeps E r d :
  ids_below d → unique_students d →
  ids_below (route E r d).2 ∧ unique_students (route E r d).2.
Proof.
  intros Hids Huniq. destruct r as [part | | | id req_body | id]; simpl.
  - split; [by apply post_api_upload_ids_below | by apply upload_keeps_unique].
  - by rewrite get_api_students_state.
  - by rewrite get_api_upload_history_state.
  - split; [apply (crud_ids_below server_js E id req_body d Hids)
           | by apply put_keeps_unique].
  - split; [apply (crud_ids_below server_js E id ∅ d Hids)
           | by apply delete_keeps_unique].
Qed.

(** X20. The unique index on student_id holds across requests: starting
    from a collection in which no two students share an identifier or a
    student_id, no sequence of uploads, lists, updates and deletions —
    whichever of them fail — leaves two students with the same
    student_id. *)
Theorem student_ids_stay_unique requests :
  ∀ d, ids_below d → unique_students d →
       ids_below (serve requests d) ∧ unique_students (serve requests d).
Proof.
  induction requests as [| [E r] requests IH]; intros d Hids Huniq; [done |].
  simpl. destruct (route_keeps E r d Hids Huniq) as [Hids' Huniq'].
  by apply IH.
Qed.

(** X21. The upload history is append-only: whatever the requests, the
    entries that were there stay, in place and unchanged, and at most one
    entry is added for each upload request; lists, updates and deletions
    add none. *)
Theorem history_is_append_only requests :
  ∀ d, uploadhistories d `prefix_of` uploadhistories (serve requests d) ∧
       (length (uploadhistories (serve requests d))
        ≤ length (uploadhistories d) + uploads requests)%nat.
Proof.
  induction requests as [| [E r] requests IH]; intros d; [simpl; split; [done | lia] |].
  assert (Hstep : ∃ hs, uploadhistories (route E r d).2 = uploadhistories d ++ hs ∧
                        (length hs + uploads requests ≤ uploads ((E, r) :: requests))%nat).
  { destruct r as [part | | | id req_body | id]; simpl.
    - destruct (upload_history_grows E part d) as (hs & Hhs & Hlen).
      exists hs. split; [done | lia].
    - rewrite get_api_students_state. exists []. rewrite app_nil_r. split; [done | simpl; lia].
    - rewrite get_api_upload_history_state. exists []. rewrite app_nil_r. split; [done | simpl; lia].
    - rewrite (proj1 (put_delete_history E id req_body d)).
      exists []. rewrite app_nil_r. split; [done | simpl; lia].
    - rewrite (proj2 (put_delete_history E id ∅ d)).
      exists []. rewrite app_nil_r. split; [done | simpl; lia]. }
  destruct Hstep as (hs & Hhs & Hlen).
  destruct (IH (route E r d).2) as [Hprefix Hbound].
  change (serve ((E, r) :: requests) d) with (serve requests (route E r d).2).
  rewrite Hhs in Hprefix, Hbound. rewrite length_app in Hbound. split.
  - by eapply prefix_app_l.
  - lia.
Qed.

End Parsers.

End InvariantFacts.

(* ===================================================================== *)
(** * Further worked examples *)
(* ===================================================================== *)

Module MoreExamples.
Import JS Mongo Server Spec Paths Notions Fixtures MoreFixtures.
Import UploadMore CrudMore NormalizerMore OlderFacts InvariantFacts.

Local Abbreviation normalized := (normalized xlsx_read sheet_to_json csv_parse).

Lemma upload_answers_400_only_without_file_witness :
  ∃ resp d',
    upload connected None one_student = (Returned resp, d') ∧
    (Server.status resp = 400 ↔ (None : option file) = None) ∧
    ((None : option file) = None →
     resp = res_status_json 400 (ErrorBody "No file uploaded" None) ∧ d' = one_student) ∧
    ((None : option file) ≠ None → Server.status resp = 200 ∨ Server.status resp = 500) ∧
    json resp ≠ ErrorBody "Unsupported file format" None.
Proof.
  do 2 eexists.
  assert (Hrun : upload connected None one_student = (Returned _, _)) by reflexivity.
  split; [exact Hrun |].
  exact (upload_answers_400_only_without_file xlsx_read sheet_to_json csv_parse
           connected None one_student _ _ Hrun).
Defined.

Lemma upload_succeeds_iff_witness :
  ∃ resp d',
    upload connected (Some grades_csv) one_student = (Returned resp, d') ∧
    (Server.status resp = 200 ↔
     ∃ f studentsData,
       upload_single (Some grades_csv) = Returned (Some f) ∧
       normalized f = Returned studentsData ∧
       readyState connected = 1 ∧
       fault connected StudentDeleteMany = None ∧
       fault connected StudentInsertMany = None ∧
       fault connected HistoryCreateOnSuccess = None ∧
       NoDup (student_id <$> studentsData)).
Proof.
  do 2 eexists.
  assert (Hrun : upload connected (Some grades_csv) one_student = (Returned _, _))
    by (vm_compute; reflexivity).
  split; [exact Hrun |].
  exact (upload_succeeds_iff xlsx_read sheet_to_json csv_parse
           connected (Some grades_csv) one_student _ _ Hrun).
Defined.

Lemma failed_replacement_loses_the_previous_students_witness :
  ids_below one_student ∧
  ∃ studentsData resp d',
    upload_single (Some duplicate_csv) = Returned (Some duplicate_csv) ∧
    normalized duplicate_csv = Returned studentsData ∧
    upload connected (Some duplicate_csv) one_student = (Returned resp, d') ∧
    Server.status resp = 500 ∧
    (∀ s, s ∈ students one_student → s ∉ students d') ∧
    (fields <$> students d') `prefix_of` (student_object <$> studentsData).
Proof.
  assert (Hids : ids_below one_student) by (repeat constructor).
  split; [exact Hids |]. do 3 eexists.
  assert (Hnorm : normalized duplicate_csv = Returned _) by (vm_compute; reflexivity).
  assert (Hrun : upload connected (Some duplicate_csv) one_student = (Returned _, _))
    by (vm_compute; reflexivity).
  split; [reflexivity |]. split; [exact Hnorm |]. split; [exact Hrun |].
  split; [reflexivity |].
  exact (failed_replacement_loses_the_previous_students xlsx_read sheet_to_json csv_parse
           connected (Some duplicate_csv) duplicate_csv one_student _ _ _
           Hids eq_refl Hnorm eq_refl eq_refl Hrun eq_refl).
Defined.

Lemma early_failure_keeps_the_students_witness :
  upload_single (Some unreadable_sheet) = Returned (Some unreadable_sheet) ∧
  normalized unreadable_sheet = Thrown "Failed to process Excel file" ∧
  ∃ d',
    upload connected (Some unreadable_sheet) one_student
    = (Returned (res_status_json 500
         (ErrorBody "Failed to process file" (Some "Failed to process Excel file"))), d') ∧
    students d' = students one_student.
Proof.
  split; [reflexivity |]. split; [reflexivity |].
  exact (early_failure_keeps_the_students xlsx_read sheet_to_json csv_parse
           connected (Some unreadable_sheet) unreadable_sheet one_student
           "Failed to process Excel file" eq_refl (or_introl eq_refl)).
Defined.

Lemma grades_csv_ids_differ studentsData :
  normalized grades_csv = Returned studentsData → NoDup (student_id <$> studentsData).
Proof.
  intros H. vm_compute in H. injection H as <-. simpl.
  repeat constructor; intros Hin;
    repeat (apply elem_of_cons in Hin as [Hin | Hin]; [discriminate Hin |]);
    by apply elem_of_nil in Hin.
Qed.

Lemma history_failure_after_replacement_witness :
  ∃ studentsData,
    upload_single (Some grades_csv) = Returned (Some grades_csv) ∧
    normalized grades_csv = Returned studentsData ∧
    NoDup (student_id <$> studentsData) ∧
    fault history_fails HistoryCreateOnSuccess = Some "history write failed" ∧
    ∃ d',
      upload history_fails (Some grades_csv) one_student
      = (Returned (res_status_json 500
           (ErrorBody "Failed to process file" (Some "history write failed"))), d') ∧
      fields <$> students d' = student_object <$> studentsData ∧
      (fault history_fails HistoryCreateOnError = None →
       ∃ h, appended one_student d' h ∧ Mongo.status h = "error" ∧ students_count h = 0).
Proof.
  eexists.
  assert (Hnorm : normalized grades_csv = Returned _) by (vm_compute; reflexivity).
  pose proof (grades_csv_ids_differ _ Hnorm) as Hnodup.
  split; [reflexivity |]. split; [exact Hnorm |]. split; [exact Hnodup |].
  split; [reflexivity |].
  exact (history_failure_after_replacement xlsx_read sheet_to_json csv_parse
           history_fails (Some grades_csv) grades_csv one_student _ "history write failed"
           eq_refl Hnorm Hnodup eq_refl eq_refl eq_refl eq_refl).
Defined.

Lemma history_entry_describes_the_file_witness :
  ∃ resp d' h,
    upload_single (Some grades_csv) = Returned (Some grades_csv) ∧
    upload connected (Some grades_csv) empty_db = (Returned resp, d') ∧
    appended empty_db d' h ∧
    filename h = "grades.csv" ∧
    file_size h = Z.of_nat (length (buffer grades_csv)) ∧
    upload_date h = 1000 ∧
    file_type h = "CSV" ∧
    (Mongo.status h = "success" ∨ Mongo.status h = "error").
Proof.
  do 3 eexists.
  assert (Hrun : upload connected (Some grades_csv) empty_db = (Returned _, _))
    by (vm_compute; reflexivity).
  split; [reflexivity |]. split; [exact Hrun |].
  match type of Hrun with
  | _ = (_, ?d) =>
      assert (Happended : appended empty_db d _) by (unfold appended; simpl; reflexivity)
  end.
  split; [exact Happended |].
  exact (history_entry_describes_the_file xlsx_read sheet_to_json csv_parse
           connected (Some grades_csv) grades_csv empty_db _ _ _ eq_refl Hrun Happended).
Defined.

Lemma oversized_file_is_refused_witness :
  array_includes allowedTypes (mimetype oversized_csv) = true ∧
  5 * 1024 * 1024 < Z.of_nat (length (buffer oversized_csv)) ∧
  upload connected (Some oversized_csv) one_student
  = (Returned (res_status_json 500
       (ErrorBody "Internal server error" (Some "File too large"))), one_student).
Proof.
  assert (Hacc : array_includes allowedTypes (mimetype oversized_csv) = true)
    by reflexivity.
  assert (Hsize : 5 * 1024 * 1024 < Z.of_nat (length (buffer oversized_csv))).
  { unfold oversized_csv. cbn [buffer]. rewrite length_replicate. lia. }
  split; [exact Hacc |]. split; [exact Hsize |].
  exact (oversized_file_is_refused xlsx_read sheet_to_json csv_parse
           connected oversized_csv one_student Hacc Hsize).
Defined.

Lemma upload_without_rows_empties_the_collection_witness :
  upload_single (Some header_only_csv) = Returned (Some header_only_csv) ∧
  normalized header_only_csv = Returned [] ∧
  ∃ d' h,
    upload connected (Some header_only_csv) one_student
    = (Returned (res_json (UploadedBody "File uploaded successfully" 0 [])), d') ∧
    students d' = [] ∧
    appended one_student d' h ∧ Mongo.status h = "success" ∧ students_count h = 0.
Proof.
  assert (Hnorm : normalized header_only_csv = Returned []) by (vm_compute; reflexivity).
  split; [reflexivity |]. split; [exact Hnorm |].
  exact (upload_without_rows_empties_the_collection xlsx_read sheet_to_json csv_parse
           connected (Some header_only_csv) header_only_csv one_student
           eq_refl Hnorm eq_refl eq_refl eq_refl eq_refl).
Defined.

Lemma update_leaves_the_rest_alone_witness :
  ∃ resp d',
    Server.put_api_students connected 0 update_body two_students = (Returned resp, d') ∧
    Server.status resp = 200 ∧
    ∃ old doc,
      find_by_id 0 (students two_students) = Some old ∧
      json resp = StudentBody (Some doc) ∧
      _id doc = 0%N ∧
      (update_body !! "created_at" = None → created_at doc = created_at old) ∧
      (∀ v, update_body !! "created_at" = Some v → created_at doc = date_of connected v) ∧
      (∀ key, key ≠ "percentage" → update_body !! key = None →
              fields doc !! key = fields old !! key) ∧
      length (students d') = length (students two_students) ∧
      (∀ i s, students two_students !! i = Some s → _id s ≠ 0%N →
              students d' !! i = Some s) ∧
      uploadhistories d' = uploadhistories two_students.
Proof.
  do 2 eexists.
  assert (Hrun : Server.put_api_students connected 0 update_body two_students
                 = (Returned _, _)) by (vm_compute; reflexivity).
  split; [exact Hrun |]. split; [reflexivity |].
  exact (update_leaves_the_rest_alone connected 0 update_body two_students _ _
           Hrun eq_refl).
Defined.

Lemma update_twice_is_update_once_witness :
  ∃ resp d',
    Server.put_api_students connected 0 update_body two_students = (Returned resp, d') ∧
    Server.status resp = 200 ∧
    Server.put_api_students connected 0 update_body d' = (Returned resp, d').
Proof.
  do 2 eexists.
  assert (Hrun : Server.put_api_students connected 0 update_body two_students
                 = (Returned _, _)) by (vm_compute; reflexivity).
  split; [exact Hrun |]. split; [reflexivity |].
  exact (update_twice_is_update_once connected 0 update_body two_students _ _
           Hrun eq_refl).
Defined.

Lemma update_to_a_taken_student_id_is_refused_witness :
  ∃ other,
    other ∈ students two_students ∧
    _id other ≠ 0%N ∧
    rename_body !! "student_id" = Some (VString "S1") ∧
    ToString (get (fields other) "student_id") = ToString (VString "S1") ∧
    ∃ details,
      Server.put_api_students connected 0 rename_body two_students
      = (Returned (res_status_json 500
           (ErrorBody "Failed to update student" (Some details))), two_students).
Proof.
  eexists.
  assert (Hfound : ∃ s, s ∈ students two_students ∧ _id s = 0%N)
    by (eexists; split; [apply list_elem_of_here | reflexivity]).
  assert (Hother : _ ∈ students two_students)
    by (apply list_elem_of_further, list_elem_of_here).
  assert (Hne : _id (Build_student_doc 1 (Some 600)
                       (<["student_id" := VString "S1"]>
                        (<["student_name" := VString "Amy"]>
                        (<["total_marks" := num 50]>
                        (<["marks_obtained" := num 20]>
                        (<["percentage" := num 40]> ∅)))))) ≠ 0%N) by discriminate.
  assert (Hbody : rename_body !! "student_id" = Some (VString "S1"))
    by (vm_compute; reflexivity).
  split; [exact Hother |]. split; [exact Hne |]. split; [exact Hbody |].
  split; [vm_compute; reflexivity |].
  exact (update_to_a_taken_student_id_is_refused connected 0 rename_body two_students
           _ (VString "S1") eq_refl Hfound Hother Hne Hbody eq_refl).
Defined.

Lemma delete_removes_that_student_only_witness :
  (∃ s, s ∈ students two_students ∧ _id s = 0%N) ∧
  ∃ d',
    delete_api_students connected 0 two_students
    = (Returned (res_json (MessageBody "Student deleted successfully")), d') ∧
    (∀ s, s ∈ students d' ↔ s ∈ students two_students ∧ _id s ≠ 0%N) ∧
    students d' `sublist_of` students two_students ∧
    uploadhistories d' = uploadhistories two_students ∧
    delete_api_students connected 0 d'
    = (Returned (res_status_json 404 (ErrorBody "Student not found" None)), d').
Proof.
  assert (Hfound : ∃ s, s ∈ students two_students ∧ _id s = 0%N)
    by (eexists; split; [apply list_elem_of_here | reflexivity]).
  split; [exact Hfound |].
  exact (delete_removes_that_student_only connected 0 two_students Hfound eq_refl).
Defined.

Lemma zero_marks_are_falsy key :
  key ∈ spellings Marks_Obtained → ToBoolean (get alice_with_zero_marks key) = false.
Proof.
  intros Hkey. simpl in Hkey.
  repeat (apply elem_of_cons in Hkey as [-> | Hkey]; [vm_compute; reflexivity |]).
  by apply elem_of_nil in Hkey.
Qed.

Lemma number_without_truthy_spelling_takes_the_last_witness :
  ∃ x,
    number_of Marks_Obtained (row_mapper Excel alice_with_zero_marks) = Some x ∧
    (∀ key, key ∈ spellings Marks_Obtained →
            ToBoolean (get alice_with_zero_marks key) = false) ∧
    x = Number_ (get alice_with_zero_marks (last_spelling Marks_Obtained)) ∧
    (alice_with_zero_marks !! last_spelling Marks_Obtained = None →
     is_nan x = true ∧
     is_nan (percentage (row_mapper Excel alice_with_zero_marks)) = true).
Proof.
  eexists. split; [reflexivity |]. split; [exact zero_marks_are_falsy |].
  exact (number_without_truthy_spelling_takes_the_last Excel Marks_Obtained
           alice_with_zero_marks _ eq_refl zero_marks_are_falsy).
Defined.

(** In a CSV row every cell is text, and the text '0' is truthy: zero
    marks under the canonical spelling are 0 there. *)
Example zero_marks_of_a_csv_row :
  marks_obtained (csv_row (<["Marks_Obtained" := VString "0"]> alice_without_marks))
  = num_of_Z 0.
Proof. vm_compute. reflexivity. Qed.

(** The older upload route on a file of another type: express answers,
    and the student stays. *)
Example older_upload_of_a_pdf :
  Older.post_api_upload xlsx_read sheet_to_json csv_parse connected (Some notes_pdf) one_student
  = (Returned (Older.res_status_json 500
       (Older.ErrorPage "Invalid file type. Only Excel and CSV files allowed.")),
     one_student).
Proof. reflexivity. Qed.

Lemma alice_has_the_older_spellings : older_spellings_suffice alice_with_marks.
Proof.
  intros f. exists (canonical f).
  split; [destruct f; apply list_elem_of_here | destruct f; vm_compute; reflexivity].
Qed.

Lemma older_mapper_agrees_on_older_spellings_witness :
  older_spellings_suffice alice_with_marks ∧
  stringified (Older.excel_row alice_with_marks) = Server.excel_row alice_with_marks ∧
  stringified (Older.csv_row alice_with_marks) = Server.csv_row alice_with_marks.
Proof.
  split; [exact alice_has_the_older_spellings |].
  exact (older_mapper_agrees_on_older_spellings alice_with_marks
           alice_has_the_older_spellings).
Defined.

Lemma one_student_is_unique : unique_students one_student.
Proof. split; apply NoDup_singleton. Qed.

Lemma student_ids_stay_unique_witness :
  ids_below one_student ∧
  unique_students one_student ∧
  ids_below (serve xlsx_read sheet_to_json csv_parse a_session one_student) ∧
  unique_students (serve xlsx_read sheet_to_json csv_parse a_session one_student).
Proof.
  assert (Hids : ids_below one_student) by (repeat constructor).
  split; [exact Hids |]. split; [exact one_student_is_unique |].
  exact (student_ids_stay_unique xlsx_read sheet_to_json csv_parse a_session one_student
           Hids one_student_is_unique).
Defined.

(** The session of [a_session], request by request: the upload replaces
    Zed by Alice and Bob, the update halves Alice's marks, the second
    upload fails on its second row and leaves one Alice, whom the
    deletion removes. *)
Example a_session_ends_empty :
  students (serve xlsx_read sheet_to_json csv_parse a_session one_student) = [] ∧
  length (uploadhistories (serve xlsx_read sheet_to_json csv_parse a_session one_student))
  = 2%nat.
Proof. split; vm_compute; reflexivity. Qed.

End MoreExamples.
